(** * OBD_IBKR: the multi-strategy extraction engine of [map2.py]

    A shallow embedding of the parsing core of [src/map2.py] (value
    normaliser, period resolver, the three tabular strategies and their
    cascade, the narrative engine, the schema mapper and the CSV record),
    followed by the properties of the specification proved or refuted on
    that embedding.

    Modelling conventions.
    - Python [str] values are [string]s of ASCII code points; the character
      predicates below are the restrictions of [str.isspace], [str.isdigit],
      [\s], [\d] and [\w] to that range.
    - Result dictionaries (metric name to value) are [gmap string _];
      dictionaries that the code iterates (pattern catalogues, the row
      buckets of the coordinate strategy) are association lists in
      insertion order.
    - A result dictionary holding the ["Error"] key is the constructor
      [Error] of [extraction]; metric names never equal ["Error"].
    - File access, [pdfplumber] and the logger are effects of a small
      monad [IO]: a computation reads an immutable [World], threads the
      file system and emits the [Event]s it causes, in order.
    - Python floats are kept abstract behind the class [PyFloat]. *)

From Stdlib Require Import String Ascii ZArith List Bool Lia DecimalString.
From stdpp Require Import gmap strings list fin_maps.
Import ListNotations.

Local Open Scope string_scope.
Local Open Scope Z_scope.

(* ===================================================================== *)
(** ** Characters and Python string primitives                           *)
(* ===================================================================== *)

Module Py.

Definition code (a : ascii) : nat := nat_of_ascii a.

(** [c.isdigit()] / [\d] on ASCII. *)
Definition is_digit (a : ascii) : bool :=
  ((48 <=? code a) && (code a <=? 57))%nat.

(** [c.isspace()] / [\s] on ASCII: TAB, LF, VT, FF, CR, FS, GS, RS, US, SP. *)
Definition is_space (a : ascii) : bool :=
  (((9 <=? code a) && (code a <=? 13)) ||
   ((28 <=? code a) && (code a <=? 32)))%nat.

Definition is_upper (a : ascii) : bool :=
  ((65 <=? code a) && (code a <=? 90))%nat.

Definition is_lower (a : ascii) : bool :=
  ((97 <=? code a) && (code a <=? 122))%nat.

(** [\w] on ASCII. *)
Definition is_word (a : ascii) : bool :=
  is_digit a || is_upper a || is_lower a || Ascii.eqb a "_".

Definition lower_char (a : ascii) : ascii :=
  if is_upper a then ascii_of_nat (code a + 32) else a.

Definition LF : ascii := ascii_of_nat 10.

(** [s.lower()] *)
Fixpoint lower (s : string) : string :=
  match s with
  | EmptyString => EmptyString
  | String a s' => String (lower_char a) (lower s')
  end.

(** [sub in s] *)
Fixpoint contains (sub s : string) : bool :=
  String.prefix sub s ||
  match s with
  | EmptyString => false
  | String _ s' => contains sub s'
  end.

(** [s.find(sub)], [None] for [-1]. *)
Fixpoint find (sub s : string) : option nat :=
  if String.prefix sub s then Some 0%nat
  else match s with
       | EmptyString => None
       | String _ s' => option_map S (find sub s')
       end.

(** [s.rfind(sub)], [None] for [-1]. *)
Fixpoint rfind (sub s : string) : option nat :=
  match s with
  | EmptyString => if String.prefix sub s then Some 0%nat else None
  | String _ s' =>
      match rfind sub s' with
      | Some i => Some (S i)
      | None => if String.prefix sub s then Some 0%nat else None
      end
  end.

(** [s.isdigit()]: every character a digit and at least one character. *)
Fixpoint all_digits (s : string) : bool :=
  match s with
  | EmptyString => true
  | String a s' => is_digit a && all_digits s'
  end.

Definition isdigit (s : string) : bool :=
  match s with
  | EmptyString => false
  | _ => all_digits s
  end.

(** [any(ch.isdigit() for ch in s)] *)
Fixpoint any_digit (s : string) : bool :=
  match s with
  | EmptyString => false
  | String a s' => is_digit a || any_digit s'
  end.

(** Truthiness of a [str]. *)
Definition nonempty (s : string) : bool :=
  match s with EmptyString => false | _ => true end.

(** [s.lstrip()], [s.rstrip()], [s.strip()] *)
Fixpoint lstrip (s : string) : string :=
  match s with
  | EmptyString => EmptyString
  | String a s' => if is_space a then lstrip s' else s
  end.

Fixpoint rstrip (s : string) : string :=
  match s with
  | EmptyString => EmptyString
  | String a s' =>
      match rstrip s' with
      | EmptyString => if is_space a then EmptyString else String a EmptyString
      | t => String a t
      end
  end.

Definition strip (s : string) : string := rstrip (lstrip s).

(** [s.split(sep)] for a one-character separator: the result always has
    at least one element, empty fields are kept. *)
Fixpoint split_on (sep : ascii) (s : string) : list string :=
  match s with
  | EmptyString => [EmptyString]
  | String a s' =>
      if Ascii.eqb a sep then EmptyString :: split_on sep s'
      else match split_on sep s' with
           | [] => [String a EmptyString]
           | w :: ws => String a w :: ws
           end
  end.

(** [s.split()]: maximal runs of non-whitespace characters. *)
Fixpoint split_ws_aux (cur : option string) (s : string) : list string :=
  match s with
  | EmptyString =>
      match cur with Some w => [w] | None => [] end
  | String a s' =>
      if is_space a then
        match cur with
        | Some w => w :: split_ws_aux None s'
        | None => split_ws_aux None s'
        end
      else
        match cur with
        | Some w => split_ws_aux (Some (w ++ String a EmptyString)) s'
        | None => split_ws_aux (Some (String a EmptyString)) s'
        end
  end.

Definition split_ws (s : string) : list string := split_ws_aux None s.

(** [s.replace(c, "")] for a one-character [c]. *)
Fixpoint remove_char (c : ascii) (s : string) : string :=
  match s with
  | EmptyString => EmptyString
  | String a s' =>
      if Ascii.eqb a c then remove_char c s' else String a (remove_char c s')
  end.

(** [s.replace(old, "")] for a non-empty [old]: occurrences are removed
    left to right without overlap; [skip] counts the characters of the
    occurrence being removed that are still to be dropped. *)
Fixpoint remove_sub_aux (old : string) (skip : nat) (s : string) : string :=
  match s with
  | EmptyString => EmptyString
  | String a s' =>
      match skip with
      | S k => remove_sub_aux old k s'
      | O =>
          if String.prefix old s
          then remove_sub_aux old (String.length old - 1) s'
          else String a (remove_sub_aux old 0 s')
      end
  end.

Definition remove_sub (old s : string) : string := remove_sub_aux old 0 s.

(** ["sep".join(parts)] *)
Fixpoint join (sep : string) (parts : list string) : string :=
  match parts with
  | [] => EmptyString
  | [p] => p
  | p :: ps => p ++ sep ++ join sep ps
  end.

(** [s[:n]] and [s[n:]] *)
Definition take (n : nat) (s : string) : string := String.substring 0 n s.

Fixpoint drop (n : nat) (s : string) : string :=
  match n, s with
  | O, _ => s
  | S k, String _ s' => drop k s'
  | S _, EmptyString => EmptyString
  end.

(** Decimal digits read as a number, most significant first. *)
Fixpoint digits_value (acc : Z) (s : string) : Z :=
  match s with
  | EmptyString => acc
  | String a s' => digits_value (10 * acc + Z.of_nat (code a - 48)) s'
  end.

(** The digit groups accepted by [int()]: digits with single underscores
    between them. [prev] tells whether the previous character was a digit. *)
Fixpoint int_body (prev : bool) (acc : Z) (s : string) : option Z :=
  match s with
  | EmptyString => if prev then Some acc else None
  | String a s' =>
      if is_digit a then int_body true (10 * acc + Z.of_nat (code a - 48)) s'
      else if Ascii.eqb a "_" then
             (if prev then
                match s' with
                | String b _ => if is_digit b then int_body false acc s' else None
                | EmptyString => None
                end
              else None)
           else None
  end.

(** [int(s)] for a [str] argument; [None] stands for [ValueError]. *)
Definition int (s : string) : option Z :=
  match strip s with
  | String "+" t => int_body false 0 t
  | String "-" t => option_map Z.opp (int_body false 0 t)
  | t => int_body false 0 t
  end.

(** [str(n)] for an [int]. *)
Definition str_of_Z (z : Z) : string :=
  NilZero.string_of_int (Z.to_int z).

(** [f"{n:02d}"] *)
Definition fmt_02d (z : Z) : string :=
  if (0 <=? z) && (z <? 10) then "0" ++ str_of_Z z else str_of_Z z.

End Py.

(* ===================================================================== *)
(** ** Regular expressions ([re]) as far as the patterns of [map2.py] go *)
(* ===================================================================== *)

(** A backtracking matcher in continuation-passing style with Python's
    priorities: concatenation left to right, greedy [r?], [r*], [r+], lazy
    [r*?], numbered capturing groups, [$] at the end of the subject or
    before a final line feed. *)

Module Re.

Inductive regex : Type :=
| Eps
| Chr (p : ascii -> bool)
| Seq (r1 r2 : regex)
| Opt (r : regex)
| Star (r : regex)
| StarLazy (r : regex)
| Grp (n : nat) (r : regex)
| Eol.

Definition Plus (r : regex) : regex := Seq r (Star r).

Fixpoint Times (n : nat) (r : regex) : regex :=
  match n with
  | O => Eps
  | S k => Seq r (Times k r)
  end.

(** A literal character, compared exactly or under [re.IGNORECASE]. *)
Definition ch (a : ascii) : regex := Chr (Ascii.eqb a).
Definition chi (a : ascii) : regex :=
  Chr (fun b => Ascii.eqb (Py.lower_char b) (Py.lower_char a)).

(** A literal word under [re.IGNORECASE]. *)
Fixpoint lit (s : string) : regex :=
  match s with
  | EmptyString => Eps
  | String a EmptyString => chi a
  | String a s' => Seq (chi a) (lit s')
  end.

(** [pat source r]: the regex [r], labelled with the pattern text of the
    code that it transcribes. *)
Definition pat (source : string) (r : regex) : regex := r.

Definition digit : regex := Chr Py.is_digit.                     (* \d *)
Definition space : regex := Chr Py.is_space.                     (* \s *)
Definition word : regex := Chr Py.is_word.                       (* \w *)
Definition nondigit : regex := Chr (fun a => negb (Py.is_digit a)). (* [^\d] *)
Definition dot : regex := Chr (fun a => negb (Ascii.eqb a Py.LF)).  (* . *)
Definition one_of (cls : list (ascii -> bool)) : regex :=        (* [...] *)
  Chr (fun a => existsb (fun p => p a) cls).

(** Captured groups, most recent first. *)
Definition caps : Type := list (nat * string).

Fixpoint group (n : nat) (c : caps) : string :=
  match c with
  | [] => EmptyString
  | (m, s) :: c' => if Nat.eqb m n then s else group n c'
  end.

(** The suffix reached and the groups captured. *)
Definition outcome : Type := (string * caps)%type.
Definition cont : Type := string -> caps -> option outcome.

Fixpoint rmatch (r : regex) (s : string) (c : caps) (k : cont) {struct r}
  : option outcome :=
  match r with
  | Eps => k s c
  | Chr p =>
      match s with
      | String a s' => if p a then k s' c else None
      | EmptyString => None
      end
  | Seq r1 r2 => rmatch r1 s c (fun s' c' => rmatch r2 s' c' k)
  | Opt r1 =>
      match rmatch r1 s c k with
      | Some o => Some o
      | None => k s c
      end
  | Star r1 =>
      (fix loop (fuel : nat) (s : string) (c : caps) {struct fuel}
         : option outcome :=
         match fuel with
         | O => k s c
         | S fuel' =>
             match rmatch r1 s c
                     (fun s' c' =>
                        if (String.length s' <? String.length s)%nat
                        then loop fuel' s' c' else None) with
             | Some o => Some o
             | None => k s c
             end
         end) (String.length s) s c
  | StarLazy r1 =>
      (fix loop (fuel : nat) (s : string) (c : caps) {struct fuel}
         : option outcome :=
         match k s c with
         | Some o => Some o
         | None =>
             match fuel with
             | O => None
             | S fuel' =>
                 rmatch r1 s c
                   (fun s' c' =>
                      if (String.length s' <? String.length s)%nat
                      then loop fuel' s' c' else None)
             end
         end) (String.length s) s c
  | Grp n r1 =>
      rmatch r1 s c
        (fun s' c' =>
           k s' ((n, Py.take (String.length s - String.length s') s) :: c'))
  | Eol =>
      match s with
      | EmptyString => k s c
      | String a EmptyString => if Ascii.eqb a Py.LF then k s c else None
      | _ => None
      end
  end.

Definition accept : cont := fun s c => Some (s, c).

(** [re.match(r, s)]: a match anchored at the start of [s]. *)
Definition match_at (r : regex) (s : string) : option outcome :=
  rmatch r s [] accept.

Definition matches (r : regex) (s : string) : bool :=
  match match_at r s with Some _ => true | None => false end.

(** [re.search(r, s)]: the leftmost match. *)
Fixpoint search (r : regex) (s : string) : option outcome :=
  match match_at r s with
  | Some o => Some o
  | None =>
      match s with
      | EmptyString => None
      | String _ s' => search r s'
      end
  end.

Definition found (r : regex) (s : string) : bool :=
  match search r s with Some _ => true | None => false end.

(** [re.finditer(r, s)] as the list of the matches' groups: the scan
    resumes where the previous match ended (one character further after
    an empty match). *)
Fixpoint finditer_aux (fuel : nat) (r : regex) (s : string) : list caps :=
  match fuel with
  | O => []
  | S fuel' =>
      match search r s with
      | None => []
      | Some (rest, c) =>
          c :: (if (String.length rest <? String.length s)%nat
                then finditer_aux fuel' r rest
                else match rest with
                     | EmptyString => []
                     | String _ rest' => finditer_aux fuel' r rest'
                     end)
      end
  end.

Definition finditer (r : regex) (s : string) : list caps :=
  finditer_aux (S (String.length s)) r s.

(** [re.findall(r, s)] for a pattern without groups: the matched texts. *)
Fixpoint findall_aux (fuel : nat) (r : regex) (s : string) : list string :=
  match fuel with
  | O => []
  | S fuel' =>
      match search (Grp 0 r) s with
      | None => []
      | Some (rest, c) =>
          group 0 c :: (if (String.length rest <? String.length s)%nat
                        then findall_aux fuel' r rest
                        else match rest with
                             | EmptyString => []
                             | String _ rest' => findall_aux fuel' r rest'
                             end)
      end
  end.

Definition findall (r : regex) (s : string) : list string :=
  findall_aux (S (String.length s)) r s.

End Re.

(* ===================================================================== *)
(** ** 1. Configuration and constants ([class Config])                   *)
(* ===================================================================== *)

(** Where a canonical field comes from: a metric of the brokerage table,
    or a (product, sub-metric) pair of the press release. *)
Inductive source : Type :=
| monthly_brokerage (source_name : string)
| press_release (product metric_type : string).

Module Config.

Definition FINAL_CSV_COLUMNS : list string :=
  [ "USA.OBD.INTERACTIVE.ACCOUNTS.TOTAL.M";
    "USA.OBD.INTERACTIVE.ACCOUNTS.NETNEW.M";
    "USA.OBD.INTERACTIVE.DARTS.TOTAL.M";
    "USA.OBD.INTERACTIVE.DARTS.CLEARED.M";
    "USA.OBD.INTERACTIVE.DARTS.CLEAREDAVG.M";
    "USA.OBD.INTERACTIVE.TRADING.OPTIONS.M";
    "USA.OBD.INTERACTIVE.TRADING.FUTURES.M";
    "USA.OBD.INTERACTIVE.TRADING.STOCKSHARES.M";
    "USA.OBD.INTERACTIVE.ACCOUNTLEVEL.EQUITY.M";
    "USA.OBD.INTERACTIVE.ACCOUNTLEVEL.FDIC.M";
    "USA.OBD.INTERACTIVE.ACCOUNTLEVEL.CREDITSATBROKER.M";
    "USA.OBD.INTERACTIVE.ACCOUNTLEVEL.CREDITSTOTAL.M";
    "USA.OBD.INTERACTIVE.ACCOUNTLEVEL.MARGINLOANS.M";
    "USA.OBD.INTERACTIVE.ACCOUNTLEVEL.CASH.M";
    "USA.OBD.INTERACTIVE.AVGCOMMISSION.STOCK.M";
    "USA.OBD.INTERACTIVE.AVGCOMMISSION.EQUITYOPTIONS.M";
    "USA.OBD.INTERACTIVE.AVGCOMMISSION.FUTURES.M";
    "USA.OBD.INTERACTIVE.AVGORDER.STOCK.M";
    "USA.OBD.INTERACTIVE.AVGORDER.EQUITYOPTIONS.M";
    "USA.OBD.INTERACTIVE.AVGORDER.FUTURES.M" ].

(** A four-line caption ["a\n b\n c\n d"]. *)
Definition caption (a b c d : string) : string :=
  Py.join (String Py.LF " ") [a; b; c; d].

Definition DESCRIPTIVE_HEADERS : list (string * string) :=
  [ ("", "");
    ("USA.OBD.INTERACTIVE.ACCOUNTS.TOTAL.M",
      caption "From Monthly Metrics:" "Accounts:" "Total Accounts:" "Thousands");
    ("USA.OBD.INTERACTIVE.ACCOUNTS.NETNEW.M",
      caption "From Monthly Metrics:" "Accounts:" "Net New Accounts:" "Thousands");
    ("USA.OBD.INTERACTIVE.DARTS.TOTAL.M",
      caption "From Monthly Metrics:" "DARTs:" "Total Client DARTs:" "Thousands");
    ("USA.OBD.INTERACTIVE.DARTS.CLEARED.M",
      caption "From Monthly Metrics:" "DARTs:" "Cleared Client DARTs:" "Thousands");
    ("USA.OBD.INTERACTIVE.DARTS.CLEAREDAVG.M",
      caption "From Monthly Metrics:" "DARTs:" "Cleared Avg. DART per Account:" "#");
    ("USA.OBD.INTERACTIVE.TRADING.OPTIONS.M",
      caption "From Monthly Metrics:" "Trading Volumes:" "Options Contracts:" "Thousands");
    ("USA.OBD.INTERACTIVE.TRADING.FUTURES.M",
      caption "From Monthly Metrics:" "Trading Volumes:" "Futures Contracts:" "Thousands");
    ("USA.OBD.INTERACTIVE.TRADING.STOCKSHARES.M",
      caption "From Monthly Metrics:" "Trading Volumes:" "Stock Shares:" "Thousands");
    ("USA.OBD.INTERACTIVE.ACCOUNTLEVEL.EQUITY.M",
      caption "From Monthly Metrics:" "Account Levels ($):" "Client Equity:" "$ Bln.");
    ("USA.OBD.INTERACTIVE.ACCOUNTLEVEL.FDIC.M",
      caption "From Monthly Metrics:" "Account Levels ($):" "FDIC Program Client Credits:" "$ Bln.");
    ("USA.OBD.INTERACTIVE.ACCOUNTLEVEL.CREDITSATBROKER.M",
      caption "From Monthly Metrics:" "Account Levels ($):" "Client Credits Held at Broker:" "$ Bln.");
    ("USA.OBD.INTERACTIVE.ACCOUNTLEVEL.CREDITSTOTAL.M",
      caption "From Monthly Metrics:" "Account Levels ($):" "Client Credits (Total):" "$ Bln.");
    ("USA.OBD.INTERACTIVE.ACCOUNTLEVEL.MARGINLOANS.M",
      caption "From Monthly Metrics:" "Account Levels ($):" "Client Margin Loans:" "$ Bln.");
    ("USA.OBD.INTERACTIVE.ACCOUNTLEVEL.CASH.M",
      caption "From Monthly Metrics:" "Account Levels ($):" "Cash as % of Assets:" "%");
    ("USA.OBD.INTERACTIVE.AVGCOMMISSION.STOCK.M",
      caption "From Press Release:" "Average Commission per Cleared Order:" "Stocks:" "$");
    ("USA.OBD.INTERACTIVE.AVGCOMMISSION.EQUITYOPTIONS.M",
      caption "From Press Release:" "Average Commission per Cleared Order:" "Equity Options:" "$");
    ("USA.OBD.INTERACTIVE.AVGCOMMISSION.FUTURES.M",
      caption "From Press Release:" "Average Commission per Cleared Order:" "Futures:" "$");
    ("USA.OBD.INTERACTIVE.AVGORDER.STOCK.M",
      caption "From Press Release:" "Average Order Size:" "Stocks:" "# shares");
    ("USA.OBD.INTERACTIVE.AVGORDER.EQUITYOPTIONS.M",
      caption "From Press Release:" "Average Order Size:" "Equity Options:" "# contracts");
    ("USA.OBD.INTERACTIVE.AVGORDER.FUTURES.M",
      caption "From Press Release:" "Average Order Size:" "Futures:" "# contracts") ].

Definition MAPPING_CONFIG : list (string * source) :=
  [ ("USA.OBD.INTERACTIVE.ACCOUNTS.TOTAL.M", monthly_brokerage "Total Accounts");
    ("USA.OBD.INTERACTIVE.ACCOUNTS.NETNEW.M", monthly_brokerage "Net New Accounts");
    ("USA.OBD.INTERACTIVE.DARTS.TOTAL.M", monthly_brokerage "Total Client DARTs");
    ("USA.OBD.INTERACTIVE.DARTS.CLEARED.M", monthly_brokerage "Cleared Client DARTs");
    ("USA.OBD.INTERACTIVE.DARTS.CLEAREDAVG.M",
      monthly_brokerage "Cleared Avg. DART per Account (Annualized)");
    ("USA.OBD.INTERACTIVE.TRADING.OPTIONS.M", monthly_brokerage "Options Contracts");
    ("USA.OBD.INTERACTIVE.TRADING.FUTURES.M", monthly_brokerage "Futures Contracts");
    ("USA.OBD.INTERACTIVE.TRADING.STOCKSHARES.M", monthly_brokerage "Stock Shares");
    ("USA.OBD.INTERACTIVE.ACCOUNTLEVEL.EQUITY.M", monthly_brokerage "Client Equity");
    ("USA.OBD.INTERACTIVE.ACCOUNTLEVEL.FDIC.M", monthly_brokerage "FDIC Program Client Credits");
    ("USA.OBD.INTERACTIVE.ACCOUNTLEVEL.CREDITSATBROKER.M",
      monthly_brokerage "Client Credits Held at Broker");
    ("USA.OBD.INTERACTIVE.ACCOUNTLEVEL.CREDITSTOTAL.M", monthly_brokerage "Client Credits");
    ("USA.OBD.INTERACTIVE.ACCOUNTLEVEL.MARGINLOANS.M", monthly_brokerage "Client Margin Loans");
    ("USA.OBD.INTERACTIVE.ACCOUNTLEVEL.CASH.M", monthly_brokerage "Cash as % of Assets");
    ("USA.OBD.INTERACTIVE.AVGCOMMISSION.STOCK.M", press_release "Stocks" "Average Commission");
    ("USA.OBD.INTERACTIVE.AVGCOMMISSION.EQUITYOPTIONS.M",
      press_release "Equity Options" "Average Commission");
    ("USA.OBD.INTERACTIVE.AVGCOMMISSION.FUTURES.M", press_release "Futures" "Average Commission");
    ("USA.OBD.INTERACTIVE.AVGORDER.STOCK.M", press_release "Stocks" "Average Order Size");
    ("USA.OBD.INTERACTIVE.AVGORDER.EQUITYOPTIONS.M",
      press_release "Equity Options" "Average Order Size");
    ("USA.OBD.INTERACTIVE.AVGORDER.FUTURES.M", press_release "Futures" "Average Order Size") ].

Definition MONTH_MAPPING : list (Z * string) :=
  [ (1, "Jan"); (2, "Feb"); (3, "Mar"); (4, "Apr"); (5, "May"); (6, "Jun");
    (7, "Jul"); (8, "Aug"); (9, "Sep"); (10, "Oct"); (11, "Nov"); (12, "Dec") ].

Definition VALID_MONTHS : list string := map snd MONTH_MAPPING.

End Config.

(** [d.get(key)] on a dictionary kept as an association list. *)
Fixpoint assoc {K V : Type} (eqb : K -> K -> bool) (key : K)
  (d : list (K * V)) : option V :=
  match d with
  | [] => None
  | (k, v) :: d' => if eqb k key then Some v else assoc eqb key d'
  end.

(** [[v['source_name'] for v in Config.MAPPING_CONFIG.values()
      if v.get('source') == 'monthly_brokerage']] *)
Definition metric_source_names : list string :=
  flat_map (fun kv => match snd kv with
                      | monthly_brokerage n => [n]
                      | press_release _ _ => []
                      end) Config.MAPPING_CONFIG.

(* ===================================================================== *)
(** ** 2. Utility functions                                              *)
(* ===================================================================== *)

(** The result of an extraction engine: a dictionary of values, or the
    dictionary [{"Error": msg}]. *)
Inductive extraction (V : Type) : Type :=
| Error (msg : string)
| Data (d : gmap string V).
Arguments Error {V} msg.
Arguments Data {V} d.

(** ["Error" in result] *)
Definition has_error {V} (r : extraction V) : bool :=
  match r with Error _ => true | Data _ => false end.

(** [len(result)] *)
Definition len {V} (r : extraction V) : nat :=
  match r with Error _ => 1%nat | Data d => size d end.

(** Truthiness of a result dictionary. *)
Definition truthy {V} (r : extraction V) : bool :=
  negb (Nat.eqb (len r) 0).

(** [clean_numeric_value]: [re.sub(r'[$,]', '', str(value_str)).strip()];
    the empty string is returned as it is. *)
Definition clean_numeric_value (value_str : string) : string :=
  if negb (Py.nonempty value_str) then ""
  else Py.strip (Py.remove_char "," (Py.remove_char "$" value_str)).

(** [validate_date_params(year, month_num)], for a [str] year and an [int]
    month as every caller passes them. *)
Definition validate_date_params (year : string) (month_num : Z)
  : bool * option string :=
  match Py.int year with
  | None => (false, Some "Year and month must be valid integers")
  | Some year_int =>
      let month_int := month_num in
      if negb ((2015 <=? year_int) && (year_int <=? 2030))
      then (false, Some "Year must be between 2015 and 2030")
      else if negb ((1 <=? month_int) && (month_int <=? 12))
      then (false, Some "Month must be between 1 and 12")
      else (true, None)
  end.

(** *** [extract_date_from_content] *)

Definition month_name_to_num : list (string * Z) :=
  [ ("january", 1); ("february", 2); ("march", 3); ("april", 4);
    ("may", 5); ("june", 6); ("july", 7); ("august", 8);
    ("september", 9); ("october", 10); ("november", 11); ("december", 12);
    ("jan", 1); ("feb", 2); ("mar", 3); ("apr", 4);
    ("may", 5); ("jun", 6); ("jul", 7); ("aug", 8);
    ("sep", 9); ("oct", 10); ("nov", 11); ("dec", 12) ].

Module DatePatterns.
Import Re.

Definition year4 : regex := Times 4 digit.           (* \d{4} *)
Definition spaces : regex := Plus space.             (* \s+   *)
Definition wordrun : regex := Plus word.             (* \w+   *)

Fixpoint seq (rs : list regex) : regex :=
  match rs with
  | [] => Eps
  | [r] => r
  | r :: rs' => Seq r (seq rs')
  end.

(** The patterns in priority order, each with its number of groups. *)
Definition patterns : list (nat * regex) :=
  [ (1%nat, pat "(\d{4})\s*%?\s*Change"
              (seq [Grp 1 year4; Star space; Opt (ch "%"); Star space; lit "Change"]));
    (1%nat, pat "ELECTRONIC\s+BROKERAGE.*?(\d{4})"
              (seq [lit "ELECTRONIC"; spaces; lit "BROKERAGE"; StarLazy dot;
                    Grp 1 year4]));
    (2%nat, pat "for\s+(\w+)\s+(\d{4})"
              (seq [lit "for"; spaces; Grp 1 wordrun; spaces; Grp 2 year4]));
    (2%nat, pat "(\w+)\s+(\d{4}),?\s*includes"
              (seq [Grp 1 wordrun; spaces; Grp 2 year4; Opt (ch ","); Star space;
                    lit "includes"]));
    (2%nat, pat "(\w+)\s+\d+,\s+(\d{4})"
              (seq [Grp 1 wordrun; spaces; Plus digit; ch ","; spaces; Grp 2 year4]));
    (1%nat, pat "metrics\s+for\s+(\w+)"
              (seq [lit "metrics"; spaces; lit "for"; spaces; Grp 1 wordrun]));
    (1%nat, pat "performance\s+metrics\s+for\s+(\w+)"
              (seq [lit "performance"; spaces; lit "metrics"; spaces; lit "for";
                    spaces; Grp 1 wordrun]));
    (2%nat, pat "(\w+)\s+(\d{4})"
              (seq [Grp 1 wordrun; spaces; Grp 2 year4])) ].

End DatePatterns.

(** [g.isdigit() and len(g) == 4] *)
Definition is_year_token (g : string) : bool :=
  Py.isdigit g && Nat.eqb (String.length g) 4.

(** [int(g)] for a token that passed [is_year_token]. *)
Definition int_of_token (g : string) : Z := default 0 (Py.int g).

(** What one match does to the scan: it ends it with a [(year, month)]
    pair, or leaves it running with the local variable [year] updated. *)
Definition date_of_match (ngroups : nat) (c : Re.caps) (year : option Z)
  : (Z * Z) + option Z :=
  match ngroups with
  | 1%nat =>
      let g := Re.group 1 c in
      if is_year_token g
      then inr (Some (int_of_token g))   (* month to be found separately *)
      else inr year
  | 2%nat =>
      let group1 := Re.group 1 c in
      let group2 := Re.group 2 c in
      if is_year_token group1 then
        let year' := int_of_token group1 in
        match assoc String.eqb (Py.lower group2) month_name_to_num with
        | Some month => inl (year', month)
        | None => inr (Some year')
        end
      else if is_year_token group2 then
        let year' := int_of_token group2 in
        match assoc String.eqb (Py.lower group1) month_name_to_num with
        | Some month => inl (year', month)
        | None => inr (Some year')
        end
      else inr year
  | _ => inr year
  end.

(** The inner loop [for match in matches]. *)
Fixpoint scan_matches (ngroups : nat) (ms : list Re.caps) (year : option Z)
  : (Z * Z) + option Z :=
  match ms with
  | [] => inr year
  | c :: ms' =>
      match date_of_match ngroups c year with
      | inl ym => inl ym
      | inr year' => scan_matches ngroups ms' year'
      end
  end.

(** The outer loop [for pattern in patterns]; falling off its end is
    [return None, None]. *)
Fixpoint scan_patterns (ps : list (nat * Re.regex)) (text_lower : string)
  (year : option Z) : option Z * option Z :=
  match ps with
  | [] => (None, None)
  | (ngroups, r) :: ps' =>
      match scan_matches ngroups (Re.finditer r text_lower) year with
      | inl (y, m) => (Some y, Some m)
      | inr year' => scan_patterns ps' text_lower year'
      end
  end.

Definition extract_date_from_content (text : string) : option Z * option Z :=
  scan_patterns DatePatterns.patterns (Py.lower text) None.

(** *** [detect_latest_month_from_data] *)

Definition month_order : list string :=
  ["Jan"; "Feb"; "Mar"; "Apr"; "May"; "Jun";
   "Jul"; "Aug"; "Sep"; "Oct"; "Nov"; "Dec"].

(** [all(month in line for month in ['Jan', 'Feb', 'Mar'])] *)
Definition has_first_three (line : string) : bool :=
  forallb (fun month => Py.contains month line) ["Jan"; "Feb"; "Mar"].

Definition numeric_run : Re.regex :=
  Re.pat "[\d,]+\.?\d*"
    (Re.Seq (Re.Plus (Re.one_of [Py.is_digit; Ascii.eqb ","]))
            (Re.Seq (Re.Opt (Re.ch ".")) (Re.Star Re.digit))).

(** [l.index(x)] *)
Fixpoint index_of (x : string) (l : list string) : option nat :=
  match l with
  | [] => None
  | y :: l' => if String.eqb y x then Some 0%nat else option_map S (index_of x l')
  end.

(** The second loop: the months covered by the first data line that
    carries at least eight numeric runs. *)
Fixpoint months_with_data (lines : list string) : list string :=
  match lines with
  | [] => []
  | line :: lines' =>
      if existsb (fun month => Py.contains month line) (firstn 3 month_order)
      then months_with_data lines'
      else if negb (Py.any_digit line) then months_with_data lines'
      else
        let numeric_parts := Re.findall numeric_run line in
        if (8 <=? List.length numeric_parts)%nat
        then firstn (List.length numeric_parts) month_order
        else months_with_data lines'
  end.

Definition detect_latest_month_from_data (text : string) (year : Z) : option Z :=
  let lines := Py.split_on Py.LF text in
  match List.find (fun line => has_first_three line && Py.contains "Aug" line) lines with
  | None => None
  | Some month_header_line =>
      match last (months_with_data lines) with
      | None => None
      | Some latest_month =>
          match index_of latest_month month_order with
          | Some i => Some (Z.of_nat i + 1)
          | None => None
          end
      end
  end.

(* ===================================================================== *)
(** ** Python floats and the document access adapter                     *)
(* ===================================================================== *)

(** The operations on Python floats that the code performs. Nothing is
    assumed about them: every statement below holds for any
    implementation. *)
Class PyFloat : Type := {
  float : Type;
  of_int : Z -> float;               (* an [int] operand promoted to float *)
  fsub : float -> float -> float;    (* a - b *)
  fmul : float -> float -> float;    (* a * b *)
  fdiv : float -> float -> float;    (* a / b, for b <> 0 *)
  flt : float -> float -> bool;      (* a < b *)
  fle : float -> float -> bool;      (* a <= b *)
  feq : float -> float -> bool;      (* a == b *)
  inf : float;                       (* float('inf') *)
  round_int : float -> option Z;     (* round(a); [None] when it raises *)
  of_str : string -> option float;   (* float(s); [None] for ValueError *)
  fmt_11f : float -> string;         (* f"{a:.11f}" *)
  fstr : float -> string             (* str(a) *)
}.

Section Adapter.
Context {FL : PyFloat}.

(** A positioned word of [page.extract_words(x_tolerance=3, y_tolerance=3)]. *)
Record Word : Type := { w_text : string; w_x0 : float; w_top : float }.

(** A table of [page.extract_tables()]: rows of nullable cells. *)
Definition Table : Type := list (list (option string)).

Record Page : Type := {
  extract_text : option string;
  extract_words : list Word;
  extract_tables : list Table
}.

Record Pdf : Type := { pages : list Page }.

End Adapter.

(* ===================================================================== *)
(** ** 3. PDF parsing engine: the three strategies                       *)
(* ===================================================================== *)

Module Patterns.
Import Re.

Definition seq := DatePatterns.seq.
Definition comma_or_digit : regex := one_of [Py.is_digit; Ascii.eqb ","].
Definition dot_or_digit : regex := one_of [Py.is_digit; Ascii.eqb "."].

Definition grouped_int : regex :=
  pat "\d+(?:,\d+)*" (Seq (Plus digit) (Star (Seq (ch ",") (Plus digit)))).
Definition grouped_dec : regex :=
  pat "\d+(?:,\d+)*\.?\d*" (seq [grouped_int; Opt (ch "."); Star digit]).
Definition plain_dec : regex :=
  pat "\d+\.?\d*" (seq [Plus digit; Opt (ch "."); Star digit]).

(** The three patterns below are used with [re.match], which anchors
    them at the start of the subject as their leading [^] does. *)
Definition numeric_token : regex :=
  pat "^[\$]?[\d,]+\.?\d*$"
    (seq [Opt (ch "$"); Plus comma_or_digit; Opt (ch "."); Star digit; Eol]).

Definition numeric_pattern : regex :=
  pat "^[$\d,.]+$"
    (seq [Plus (one_of [Ascii.eqb "$"; Py.is_digit; Ascii.eqb ","; Ascii.eqb "."]);
          Eol]).

Definition plain_number : regex :=
  pat "^\d+\.?\d*$" (seq [Plus digit; Opt (ch "."); Star digit; Eol]).

(** The catalogue [metric_patterns] of the text strategy, in its order;
    every pattern is used with [re.IGNORECASE]. *)
Definition metric_patterns : list (string * regex) :=
  [ ("Total Accounts",
      pat "Total Accounts[^\d]*(\d+(?:,\d+)*\.?\d*)"
        (seq [lit "Total Accounts"; Star nondigit; Grp 1 grouped_dec]));
    ("Net New Accounts",
      pat "Net New Accounts[^\d]*(\d+(?:,\d+)*\.?\d*)"
        (seq [lit "Net New Accounts"; Star nondigit; Grp 1 grouped_dec]));
    ("Total Client DARTs",
      pat "Total Client DARTs[^\d]*(\d+(?:,\d+)*)"
        (seq [lit "Total Client DARTs"; Star nondigit; Grp 1 grouped_int]));
    ("Cleared Client DARTs",
      pat "Cleared Client DARTs[^\d]*(\d+(?:,\d+)*)"
        (seq [lit "Cleared Client DARTs"; Star nondigit; Grp 1 grouped_int]));
    ("Options Contracts",
      pat "Options Contracts[^\d]*(\d+(?:,\d+)*)"
        (seq [lit "Options Contracts"; Star nondigit; Grp 1 grouped_int]));
    ("Futures Contracts",
      pat "Futures Contracts[^\d]*(\d+(?:,\d+)*)"
        (seq [lit "Futures Contracts"; Star nondigit; Grp 1 grouped_int]));
    ("Stock Shares",
      pat "Stock Shares[^\d]*(\d+(?:,\d+)*)"
        (seq [lit "Stock Shares"; Star nondigit; Grp 1 grouped_int]));
    ("Client Equity",
      pat "Client Equity[^\d]*\$?(\d+(?:,\d+)*\.?\d*)"
        (seq [lit "Client Equity"; Star nondigit; Opt (ch "$"); Grp 1 grouped_dec]));
    ("FDIC Program Client Credits",
      pat "FDIC Program Client Credits[^\d]*\$?(\d+(?:,\d+)*\.?\d*)"
        (seq [lit "FDIC Program Client Credits"; Star nondigit; Opt (ch "$");
              Grp 1 grouped_dec]));
    ("Client Credits Held at Broker",
      pat "Client Credits Held at Broker[^\d]*\$?(\d+(?:,\d+)*\.?\d*)"
        (seq [lit "Client Credits Held at Broker"; Star nondigit; Opt (ch "$");
              Grp 1 grouped_dec]));
    ("Client Credits",
      pat "Client Credits\(\d+\)[^\d]*\$?(\d+(?:,\d+)*\.?\d*)"
        (seq [lit "Client Credits"; ch "("; Plus digit; ch ")"; Star nondigit;
              Opt (ch "$"); Grp 1 grouped_dec]));
    ("Client Margin Loans",
      pat "Client Margin Loans[^\d]*\$?(\d+(?:,\d+)*\.?\d*)"
        (seq [lit "Client Margin Loans"; Star nondigit; Opt (ch "$");
              Grp 1 grouped_dec]));
    ("Cash as % of Assets",
      pat "Cash as % of Assets[^\d]*(\d+(?:\.?\d*))%?"
        (seq [lit "Cash as % of Assets"; Star nondigit;
              Grp 1 (seq [Plus digit; Opt (ch "."); Star digit]); Opt (ch "%")])) ].

(** The press-release patterns, primary (narrative) and backup (table);
    both are used with [re.MULTILINE | re.IGNORECASE]. *)
Definition primary_patterns : list (string * regex) :=
  [ ("Stocks",
      pat "Stocks\s+([\d,]+\s+shares)\s+\$([\d.]+)"
        (seq [lit "Stocks"; Plus space;
              Grp 1 (seq [Plus comma_or_digit; Plus space; lit "shares"]);
              Plus space; ch "$"; Grp 2 (Plus dot_or_digit)]));
    ("Equity Options",
      pat "Equity\s+Options\s+([\d.]+\s+contracts)\s+\$([\d.]+)"
        (seq [lit "Equity"; Plus space; lit "Options"; Plus space;
              Grp 1 (seq [Plus dot_or_digit; Plus space; lit "contracts"]);
              Plus space; ch "$"; Grp 2 (Plus dot_or_digit)]));
    ("Futures",
      pat "Futures\s+and\s+Future\s+Options\s+([\d.]+\s+contracts)\s+\$([\d.]+)"
        (seq [lit "Futures"; Plus space; lit "and"; Plus space; lit "Future";
              Plus space; lit "Options"; Plus space;
              Grp 1 (seq [Plus dot_or_digit; Plus space; lit "contracts"]);
              Plus space; ch "$"; Grp 2 (Plus dot_or_digit)])) ].

Definition backup_patterns : list (string * regex) :=
  [ ("Stocks",
      pat "Stocks\s+(\d+(?:,\d+)*)\s+shares\s+\$(\d+\.?\d*)"
        (seq [lit "Stocks"; Plus space; Grp 1 grouped_int; Plus space;
              lit "shares"; Plus space; ch "$"; Grp 2 plain_dec]));
    ("Equity Options",
      pat "Equity\s+Options\s+(\d+\.?\d*)\s+contracts\s+\$(\d+\.?\d*)"
        (seq [lit "Equity"; Plus space; lit "Options"; Plus space;
              Grp 1 plain_dec; Plus space; lit "contracts"; Plus space;
              ch "$"; Grp 2 plain_dec]));
    ("Futures",
      pat "Futures\s+(\d+\.?\d*)\s+contracts\s+\$(\d+\.?\d*)"
        (seq [lit "Futures"; Plus space; Grp 1 plain_dec; Plus space;
              lit "contracts"; Plus space; ch "$"; Grp 2 plain_dec])) ].

End Patterns.

(** [month_to_index] of the text strategy. *)
Definition month_to_index : list (string * nat) :=
  [ ("Jan", 0); ("Feb", 1); ("Mar", 2); ("Apr", 3); ("May", 4); ("Jun", 5);
    ("Jul", 6); ("Aug", 7); ("Sep", 8); ("Oct", 9); ("Nov", 10); ("Dec", 11) ]%nat.

(** The index of the first element satisfying [p]. *)
Fixpoint find_index {A} (p : A -> bool) (l : list A) : option nat :=
  match l with
  | [] => None
  | x :: l' => if p x then Some 0%nat else option_map S (find_index p l')
  end.

(** The numeric tokens of a line, currency sign and grouping removed. *)
Definition numeric_parts_of (combined_line : string) : list string :=
  map (fun part => Py.remove_char "," (Py.remove_char "$" part))
      (List.filter (Re.matches Patterns.numeric_token) (Py.split_ws combined_line)).

(** The value of a line at the target column, when there is one. *)
Definition value_at (target_month_idx : nat) (combined_line : string)
  : option string :=
  let numeric_parts := numeric_parts_of combined_line in
  match nth_error numeric_parts target_month_idx with
  | Some part =>
      let value := clean_numeric_value part in
      if Py.nonempty value then Some value else None
  | None => None
  end.

Definition store (key : string) (value : option string)
  (extracted_data : gmap string string) : gmap string string :=
  match value with
  | Some v => <[key := v]> extracted_data
  | None => extracted_data
  end.

Definition has_key (key : string) (d : gmap string string) : bool :=
  match d !! key with Some _ => true | None => false end.

Definition DART_PER_ACCOUNT : string :=
  "Cleared Avg. DART per Account (Annualized)".

(** One iteration of the loop over the lines that follow the header. *)
Definition text_line_step (lines : list string) (target_month_idx : nat)
  (extracted_data : gmap string string) (line_idx : nat) : gmap string string :=
  let line := Py.strip (nth line_idx lines "") in
  if negb (Py.nonempty line) then extracted_data
  else
    let combined_line :=
      match nth_error lines (line_idx + 1) with
      | Some raw_next =>
          let next_line := Py.strip raw_next in
          if Py.nonempty next_line &&
             (Py.contains "Annualized" next_line ||
              (List.length (Py.split_ws line) <? 3)%nat)
          then line ++ " " ++ next_line
          else line
      | None => line
      end in
    let extracted_data :=
      fold_left
        (fun (acc : gmap string string) (mp : string * Re.regex) =>
           let (metric_name, pattern) := mp in
           if has_key metric_name acc then acc
           else if Re.found pattern combined_line
                then store metric_name (value_at target_month_idx combined_line) acc
                else acc)
        Patterns.metric_patterns extracted_data in
    if (Py.contains "Cleared Avg. DART per Account" line ||
        Py.contains "Annualized" line) &&
       negb (has_key DART_PER_ACCOUNT extracted_data)
    then store DART_PER_ACCOUNT (value_at target_month_idx combined_line)
               extracted_data
    else extracted_data.

(** The month recorded for one whitespace-separated part of the header:
    the first valid month it contains. *)
Definition month_of_part (part : string) : option string :=
  List.find (fun month => Py.contains month part) Config.VALID_MONTHS.

Section Strategies.
Context {FL : PyFloat}.

(** *** Strategy 1: text extraction with regex patterns *)

(** The text of all pages, each non-empty page text followed by a line
    feed. *)
Definition full_text_of (pdf : Pdf) : string :=
  fold_left
    (fun acc page =>
       match extract_text page with
       | Some page_text =>
           if Py.nonempty page_text
           then acc ++ page_text ++ String Py.LF "" else acc
       | None => acc
       end) (pages pdf) "".

Definition _parse_using_text_extraction (pdf : Pdf)
  (target_year target_month_abbr : string) : extraction string :=
  let full_text := full_text_of pdf in
  if negb (Py.nonempty (Py.strip full_text))
  then Error "No text extracted from PDF"
  else if negb (Py.contains target_year full_text)
  then Error ("Target year " ++ target_year ++ " not found in PDF")
  else
    let lines := Py.split_on Py.LF full_text in
    match find_index
            (fun line => has_first_three line &&
                         Py.contains target_month_abbr line) lines with
    | None => Error ("Could not find header line with " ++ target_month_abbr)
    | Some header_line_idx =>
        let header_line := nth header_line_idx lines "" in
        let header_parts := Py.split_ws header_line in
        let month_positions := omap month_of_part header_parts in
        if negb (existsb (fun month => String.eqb month target_month_abbr)
                         month_positions)
        then Error ("Could not locate " ++ target_month_abbr ++ " in header")
        else
          match assoc String.eqb target_month_abbr month_to_index with
          | None => Error ("Unsupported month: " ++ target_month_abbr)
          | Some target_month_idx =>
              let stop := Nat.min (header_line_idx + 25) (List.length lines) in
              Data (fold_left (text_line_step lines target_month_idx)
                              (List.seq (header_line_idx + 1)
                                        (stop - (header_line_idx + 1)))
                              ∅)
          end
    end.

(** *** Strategy 2: coordinate-based extraction *)

(** [month_headers.sort(key=lambda w: w["x0"])]: a stable sort. *)
Fixpoint insert_by_x0 (w : Word) (sorted : list Word) : list Word :=
  match sorted with
  | [] => [w]
  | v :: sorted' =>
      if flt (w_x0 w) (w_x0 v) then w :: sorted
      else v :: insert_by_x0 w sorted'
  end.

Definition sort_by_x0 (ws : list Word) : list Word :=
  fold_left (fun sorted w => insert_by_x0 w sorted) ws [].

(** The loop that looks for the target month among the sorted headers.
    [None] for the start is the untouched initial value [-1]; the end
    defaults to [float('inf')]. *)
Fixpoint column_bounds (target_month_abbr : string) (month_headers : list Word)
  : option float * float :=
  match month_headers with
  | [] => (None, inf)
  | header :: rest =>
      if String.eqb (w_text header) target_month_abbr
      then (Some (fsub (w_x0 header) (of_int 8)),
            match rest with
            | next :: _ => fsub (w_x0 next) (of_int 8)
            | [] => inf
            end)
      else column_bounds target_month_abbr rest
  end.

(** [target_col_start == -1] *)
Definition start_is_unset (target_col_start : option float) : bool :=
  match target_col_start with
  | None => true
  | Some v => feq v (of_int (-1))
  end.

(** [rows[row_key].append(w)] on the insertion-ordered dictionary [rows]. *)
Fixpoint rows_append (row_key : Z) (w : Word) (rows : list (Z * list Word))
  : list (Z * list Word) :=
  match rows with
  | [] => [(row_key, [w])]
  | (k, ws) :: rows' =>
      if Z.eqb k row_key then (k, (ws ++ [w])%list) :: rows'
      else (k, ws) :: rows_append row_key w rows'
  end.

(** Grouping the words by [round(w["top"] / 3) * 3]; [None] when [round]
    raises. *)
Fixpoint group_rows (words : list Word) (rows : list (Z * list Word))
  : option (list (Z * list Word)) :=
  match words with
  | [] => Some rows
  | w :: words' =>
      match round_int (fdiv (w_top w) (of_int 3)) with
      | Some r => group_rows words' (rows_append (r * 3) w rows)
      | None => None
      end
  end.

(** [any(word in text for word in metric_words if len(word) > 3)] *)
Definition shares_significant_word (metric_words : list string) (text : string)
  : bool :=
  existsb (fun word => Py.contains word text)
          (List.filter (fun word => (3 <? String.length word)%nat) metric_words).

Definition coordinate_row_step (target_col_start target_col_end : float)
  (extracted_data : gmap string string) (row : Z * list Word)
  : gmap string string :=
  let row_words := snd row in
  let row_text := Py.lower (Py.join " " (map w_text row_words)) in
  fold_left
    (fun (acc : gmap string string) metric_name =>
       let metric_words := Py.split_ws (Py.lower metric_name) in
       if shares_significant_word metric_words row_text then
         let numeric_words :=
           List.filter
             (fun w => Re.matches Patterns.numeric_pattern (w_text w) &&
                       fle target_col_start (w_x0 w) &&
                       flt (w_x0 w) target_col_end) row_words in
         match numeric_words with
         | w :: _ =>
             let value := clean_numeric_value (w_text w) in
             if Py.nonempty value then <[metric_name := value]> acc else acc
         | [] => acc
         end
       else acc)
    metric_source_names extracted_data.

(** The text of the exceptions that the strategies' [except] clauses
    turn into result-level errors. *)
Definition INDEX_ERROR : string := "list index out of range".
Definition ROUND_ERROR : string := "cannot convert float to integer".

Definition _parse_using_coordinates (pdf : Pdf)
  (target_year target_month_abbr : string) : extraction string :=
  match pages pdf with
  | [] => Error ("Coordinate extraction failed: " ++ INDEX_ERROR)
  | page :: _ =>
      let words := extract_words page in
      match words with
      | [] => Error "No words extracted from PDF"
      | _ =>
          match List.find (fun w => Py.contains target_year (w_text w)) words with
          | None => Error ("Year " ++ target_year ++ " not found in word coordinates")
          | Some year_header_word =>
              let month_headers :=
                sort_by_x0
                  (List.filter
                     (fun w =>
                        existsb (String.eqb (w_text w)) Config.VALID_MONTHS &&
                        flt (fsub (w_top year_header_word) (of_int 15)) (w_top w))
                     words) in
              if (List.length month_headers <? 3)%nat
              then Error ("Insufficient month headers found: " ++
                          Py.str_of_Z (Z.of_nat (List.length month_headers)))
              else
                let (target_col_start, target_col_end) :=
                  column_bounds target_month_abbr month_headers in
                if start_is_unset target_col_start
                then Error ("Could not find column boundaries for " ++
                            target_month_abbr)
                else
                  match target_col_start, group_rows words [] with
                  | Some col_start, Some rows =>
                      Data (fold_left (coordinate_row_step col_start target_col_end)
                                      rows ∅)
                  | _, _ => Error ("Coordinate extraction failed: " ++ ROUND_ERROR)
                  end
          end
      end
  end.

(** *** Strategy 3: table-based extraction *)

(** Truthiness and [str(cell)] of a nullable cell. *)
Definition cell_text (cell : option string) : string := default "" cell.

(** [row and any(month in str(cell) for cell in row if cell
                 for month in Config.VALID_MONTHS)] *)
Definition is_header_row (row : list (option string)) : bool :=
  existsb (fun cell =>
             Py.nonempty (cell_text cell) &&
             existsb (fun month => Py.contains month (cell_text cell))
                     Config.VALID_MONTHS) row.

(** The first column whose cell contains the target abbreviation. *)
Definition target_column (target_month_abbr : string)
  (row : list (option string)) : option nat :=
  find_index (fun cell => Py.nonempty (cell_text cell) &&
                          Py.contains target_month_abbr (cell_text cell)) row.

Definition table_row_step (target_month_col : nat)
  (extracted_data : gmap string string) (row : list (option string))
  : gmap string string :=
  if (List.length row <=? target_month_col)%nat then extracted_data
  else
    let metric_cell := cell_text (nth 0 row None) in
    let value_cell := cell_text (nth target_month_col row None) in
    if negb (Py.nonempty metric_cell) || negb (Py.nonempty value_cell)
    then extracted_data
    else
      fold_left
        (fun (acc : gmap string string) metric_name =>
           if existsb (fun word => Py.contains (Py.lower word) (Py.lower metric_cell))
                      (List.filter (fun word => (3 <? String.length word)%nat)
                                   (Py.split_ws metric_name))
           then
             let clean_value := clean_numeric_value value_cell in
             if Py.nonempty clean_value &&
                Re.matches Patterns.plain_number clean_value
             then <[metric_name := clean_value]> acc
             else acc
           else acc)
        metric_source_names extracted_data.

Definition table_step (target_month_abbr : string)
  (extracted_data : gmap string string) (table : Table) : gmap string string :=
  if (List.length table <? 2)%nat then extracted_data
  else
    match find_index is_header_row table with
    | None => extracted_data
    | Some header_row_idx =>
        match target_column target_month_abbr (nth header_row_idx table []) with
        | None => extracted_data
        | Some target_month_col =>
            fold_left (table_row_step target_month_col)
                      (skipn (header_row_idx + 1) table) extracted_data
        end
    end.

Definition _parse_using_table_extraction (pdf : Pdf)
  (target_year target_month_abbr : string) : extraction string :=
  match pages pdf with
  | [] => Error ("Table extraction failed: " ++ INDEX_ERROR)
  | page :: _ =>
      match extract_tables page with
      | [] => Error "No tables found in PDF"
      | tables => Data (fold_left (table_step target_month_abbr) tables ∅)
      end
  end.

End Strategies.

(* ===================================================================== *)
(** ** A reference implementation of [PyFloat]                           *)
(* ===================================================================== *)

(** Exact fractions with an infinity: a stand-in for binary64 on which the
    definitions can be run. It reads plain decimal literals only and
    computes without rounding error; it serves to evaluate the model on
    concrete documents, no general statement depends on it. *)
Module ExactFloat.

Inductive t : Type :=
| Fin (num : Z) (den : positive)
| Inf
| NaN.

Definition sub (a b : t) : t :=
  match a, b with
  | Fin n d, Fin m e => Fin (n * Z.pos e - m * Z.pos d) (d * e)
  | Inf, Fin _ _ => Inf
  | _, _ => NaN
  end.

Definition mul (a b : t) : t :=
  match a, b with
  | Fin n d, Fin m e => Fin (n * m) (d * e)
  | _, _ => NaN
  end.

Definition div (a b : t) : t :=
  match a, b with
  | Fin n d, Fin m e =>
      match m with
      | Z0 => NaN
      | Zpos p => Fin (n * Z.pos e) (d * p)
      | Zneg p => Fin (- (n * Z.pos e)) (d * p)
      end
  | Fin _ _, Inf => Fin 0 1
  | _, _ => NaN
  end.

Definition lt (a b : t) : bool :=
  match a, b with
  | Fin n d, Fin m e => n * Z.pos e <? m * Z.pos d
  | Fin _ _, Inf => true
  | _, _ => false
  end.

Definition eq (a b : t) : bool :=
  match a, b with
  | Fin n d, Fin m e => n * Z.pos e =? m * Z.pos d
  | Inf, Inf => true
  | _, _ => false
  end.

Definition le (a b : t) : bool := lt a b || eq a b.

(** The integer nearest to [n/d], ties to even. *)
Definition round_half_even (n : Z) (d : positive) : Z :=
  let q := n / Z.pos d in
  let r := n mod Z.pos d in
  match 2 * r ?= Z.pos d with
  | Lt => q
  | Gt => q + 1
  | Eq => if Z.even q then q else q + 1
  end.

Definition round (a : t) : option Z :=
  match a with
  | Fin n d => Some (round_half_even n d)
  | _ => None
  end.

(** Digits, then optionally a point and digits; at least one digit. *)
Definition parse (s : string) : option t :=
  let body := Py.strip s in
  let (int_part, frac_part) :=
    match Py.find "." body with
    | Some i => (Py.take i body, Py.drop (S i) body)
    | None => (body, "")
    end in
  if Py.all_digits int_part && Py.all_digits frac_part &&
     Py.nonempty (int_part ++ frac_part)
  then Some (Fin (Py.digits_value 0 (int_part ++ frac_part))
                 (Z.to_pos (10 ^ Z.of_nat (String.length frac_part))))
  else None.

Fixpoint zeros (n : nat) : string :=
  match n with O => "" | S k => "0" ++ zeros k end.

Definition fmt11 (a : t) : string :=
  match a with
  | Fin n d =>
      let scaled := round_half_even (n * 10 ^ 11) d in
      let mag := Z.abs scaled in
      let frac := Py.str_of_Z (mag mod 10 ^ 11) in
      (if scaled <? 0 then "-" else "") ++
      Py.str_of_Z (mag / 10 ^ 11) ++ "." ++
      zeros (11 - String.length frac) ++ frac
  | Inf => "inf"
  | NaN => "nan"
  end.

#[export] Instance ops : PyFloat := {
  float := t;
  of_int := fun z => Fin z 1;
  fsub := sub;
  fmul := mul;
  fdiv := div;
  flt := lt;
  fle := le;
  feq := eq;
  inf := Inf;
  round_int := round;
  of_str := parse;
  fmt_11f := fmt11;
  fstr := fmt11
}.

End ExactFloat.

(* ===================================================================== *)
(** ** Effects: files, [pdfplumber], the logger                          *)
(* ===================================================================== *)

Inductive Level : Type := DEBUG | INFO | SUCCESS | WARNING | ERROR.

(** What a run does to its environment, in order. Only the log lines of
    the functions modelled in [IO] appear; the [DEBUG] dumps that the pure
    helpers and the strategies print are left out. *)
Inductive Event : Type :=
| Log (level : Level) (message : string)
| ReadBytes (path : string)                  (* open(path, 'rb').read() *)
| TempFile (path content : string)           (* mkstemp() and write *)
| OpenPdf (path : string)                    (* pdfplumber.open(path) *)
| Unlink (path : string)                     (* os.unlink(path) *)
| WriteCsv (filename : string) (rows : list (list string)).

(** The file system: the bytes of every readable file. *)
Abbreviation Files := (gmap string string).

(** The outcome of running a computation: its value, the file system it
    leaves, and the events it caused, in order. *)
Record Run (A : Type) : Type := mkRun {
  value : A;
  files : Files;
  events : list Event
}.
Arguments mkRun {A} value files events.
Arguments value {A} r.
Arguments files {A} r.
Arguments events {A} r.

Section Effects.
Context {FL : PyFloat}.

(** The fixed part of the environment: what [pdfplumber] makes of a
    file's bytes ([inl]: the text of the exception it raises), the path
    that [mkstemp] hands out, and the [IOError] text, if any, that writing
    an output file meets. *)
Record World : Type := {
  decode_pdf : string -> string + Pdf;
  mkstemp : string;
  csv_error : string -> option string
}.

Definition IO (A : Type) : Type := World -> Files -> Run A.

Definition ret {A} (a : A) : IO A := fun _ fs => mkRun a fs [].

Definition bind {A B} (m : IO A) (k : A -> IO B) : IO B :=
  fun w fs =>
    let r := m w fs in
    let r' := k (value r) w (files r) in
    mkRun (value r') (files r') (events r ++ events r')%list.

Definition emit (e : Event) : IO unit := fun _ fs => mkRun tt fs [e].

Definition NO_SUCH_FILE : string := "No such file or directory".

Definition read_bytes (path : string) : IO (string + string) :=
  fun _ fs =>
    mkRun (match fs !! path with
           | Some data => inr data
           | None => inl NO_SUCH_FILE
           end) fs [ReadBytes path].

Definition pdfplumber_open (path : string) : IO (string + Pdf) :=
  fun w fs =>
    mkRun (match fs !! path with
           | Some data => decode_pdf w data
           | None => inl NO_SUCH_FILE
           end) fs [OpenPdf path].

Definition write_temp (content : string) : IO string :=
  fun w fs =>
    mkRun (mkstemp w) (<[mkstemp w := content]> fs) [TempFile (mkstemp w) content].

Definition path_exists (path : string) : IO bool :=
  fun _ fs => mkRun (match fs !! path with Some _ => true | None => false end) fs [].

Definition unlink (path : string) : IO unit :=
  fun _ fs => mkRun tt (delete path fs) [Unlink path].

(** Writing the rows of an output file; [Some e] is the [IOError] met, in
    which case nothing is written. *)
Definition write_csv (filename : string) (rows : list (list string))
  : IO (option string) :=
  fun w fs =>
    match csv_error w filename with
    | Some e => mkRun (Some e) fs []
    | None => mkRun None fs [WriteCsv filename rows]
    end.

End Effects.

Notation "'let*' x := m 'in' k" := (bind m (fun x => k))
  (at level 10, x name, m at level 100, k at level 200).
Notation "m ;;; k" := (bind m (fun _ => k))
  (at level 200, k at level 200).

Definition log {FL : PyFloat} (level : Level) (message : string) : IO unit :=
  emit (Log level message).

(** [Path(p).name] for a POSIX path. *)
Definition path_name (p : string) : string :=
  default "" (last (List.filter (fun c => Py.nonempty c && negb (String.eqb c "."))
                                (Py.split_on "/" p))).

(** [str(n)] for a length. *)
Definition str_of_nat (n : nat) : string := Py.str_of_Z (Z.of_nat n).

Section Engine.
Context {FL : PyFloat}.

(** *** [extract_pdf_from_java_wrapper] *)

Definition JAVA_MAGIC : string :=
  String (ascii_of_nat 172) (String (ascii_of_nat 237) "").

(** The PDF carried by a Java-serialised wrapper: the bytes from the
    [%PDF-] header to the last [%%EOF] marker, when the data starts with
    the serialisation magic and holds both. *)
Definition java_payload (data : string) : option string :=
  if String.prefix JAVA_MAGIC data then
    match Py.find "%PDF-" data with
    | None => None
    | Some pdf_start =>
        match Py.rfind "%%EOF" data with
        | None => None
        | Some pdf_end =>
            Some (String.substring pdf_start (pdf_end + 5 - pdf_start) data)
        end
    end
  else None.

Definition extract_pdf_from_java_wrapper (file_path : string) : IO string :=
  let* r := read_bytes file_path in
  match r with
  | inl e =>
      log WARNING ("Could not check for Java wrapper: " ++ e) ;;;
      ret file_path
  | inr data =>
      match java_payload data with
      | Some pdf_content =>
          let* temp_path := write_temp pdf_content in
          log DEBUG ("Extracted PDF from Java wrapper: " ++
                     str_of_nat (String.length pdf_content) ++ " bytes") ;;;
          ret temp_path
      | None => ret file_path
      end
  end.

(** The [finally] clause shared by the two parsers. *)
Definition cleanup (temp_file_created : bool) (clean_pdf_path : string) : IO unit :=
  if temp_file_created then
    let* present := path_exists clean_pdf_path in
    if present then unlink clean_pdf_path else ret tt
  else ret tt.

(** *** [PDFParser.parse_monthly_brokerage_data] *)

(** [result and "Error" not in result and len(result) >= 5] *)
Definition sufficient (result : extraction string) : bool :=
  truthy result && negb (has_error result) && (5 <=? len result)%nat.

(** [result and "Error" not in result] *)
Definition acceptable (result : extraction string) : bool :=
  truthy result && negb (has_error result).

Definition ALL_STRATEGIES_FAILED : string :=
  "All parsing strategies failed to extract sufficient data".

(** The body of the [with pdfplumber.open(...) as pdf] block. *)
Definition run_strategies (pdf : Pdf) (target_year target_month_abbr : string)
  : IO (extraction string) :=
  match pages pdf with
  | [] => ret (Error "PDF has no pages")
  | _ =>
      log INFO "Trying text-based extraction..." ;;;
      let result := _parse_using_text_extraction pdf target_year target_month_abbr in
      if sufficient result then
        log SUCCESS ("Text extraction successful: " ++ str_of_nat (len result) ++
                     " metrics found") ;;;
        ret result
      else
        log WARNING "Text extraction insufficient, trying coordinate-based..." ;;;
        let result := _parse_using_coordinates pdf target_year target_month_abbr in
        if sufficient result then
          log SUCCESS ("Coordinate extraction successful: " ++
                       str_of_nat (len result) ++ " metrics found") ;;;
          ret result
        else
          log WARNING "Coordinate extraction insufficient, trying table extraction..." ;;;
          let result :=
            _parse_using_table_extraction pdf target_year target_month_abbr in
          if acceptable result then
            log SUCCESS ("Table extraction successful: " ++
                         str_of_nat (len result) ++ " metrics found") ;;;
            ret result
          else ret (Error ALL_STRATEGIES_FAILED)
  end.

Definition parse_monthly_brokerage_data (pdf_path target_year : string)
  (target_month_num : Z) : IO (extraction string) :=
  match assoc Z.eqb target_month_num Config.MONTH_MAPPING with
  | None =>
      ret (Error ("Invalid target month number: " ++ Py.str_of_Z target_month_num))
  | Some target_month_abbr =>
      match validate_date_params target_year target_month_num with
      | (false, error_msg) => ret (Error (default "None" error_msg))
      | (true, _) =>
          log INFO ("Parsing " ++ path_name pdf_path ++ " for " ++ target_year ++
                    " " ++ target_month_abbr) ;;;
          let* clean_pdf_path := extract_pdf_from_java_wrapper pdf_path in
          let temp_file_created := negb (String.eqb clean_pdf_path pdf_path) in
          let* opened := pdfplumber_open clean_pdf_path in
          let* result := match opened with
                    | inl e => ret (Error ("PDF processing failed: " ++ e))
                    | inr pdf => run_strategies pdf target_year target_month_abbr
                    end in
          cleanup temp_file_created clean_pdf_path ;;;
          ret result
      end
  end.

(** *** [PDFParser.parse_press_release] *)

(** The dictionary of one product. *)
Definition product_entry (order_size commission : string) : gmap string string :=
  {[ "Average Order Size" := order_size; "Average Commission" := commission ]}.

(** What a match of the named pattern set yields for a product. *)
Definition entry_of_match (pattern_name : string) (c : Re.caps)
  : gmap string string :=
  if String.eqb pattern_name "backup"
  then product_entry (Py.remove_char "," (Re.group 1 c)) (Re.group 2 c)
  else product_entry
         (Py.strip (Py.remove_char ","
            (Py.remove_sub " contracts" (Py.remove_sub " shares" (Re.group 1 c)))))
         (Py.strip (Re.group 2 c)).

(** One step of the inner loop [for product, pattern in patterns_dict.items()]. *)
Definition press_step (pattern_name report_text : string)
  (data : gmap string (gmap string string)) (pp : string * Re.regex)
  : IO (gmap string (gmap string string)) :=
  let (product, pattern) := pp in
  match data !! product with
  | Some _ => ret data
  | None =>
      match Re.search pattern report_text with
      | Some (_, c) =>
          log DEBUG ("Found " ++ product ++ " using " ++ pattern_name ++ " pattern") ;;;
          ret (<[product := entry_of_match pattern_name c]> data)
      | None => ret data
      end
  end.

(** A loop threading its accumulator through [IO]. *)
Fixpoint foldM {A B} (f : A -> B -> IO A) (l : list B) (a : A) : IO A :=
  match l with
  | [] => ret a
  | b :: l' => let* a' := f a b in foldM f l' a'
  end.

Definition extract_products (report_text : string)
  : IO (gmap string (gmap string string)) :=
  foldM (fun data (set : string * list (string * Re.regex)) =>
           let (pattern_name, patterns_dict) := set in
           foldM (press_step pattern_name report_text) patterns_dict data)
        [("primary", Patterns.primary_patterns); ("backup", Patterns.backup_patterns)]
        ∅.

(** ["\n".join(page.extract_text() or "" for page in pdf.pages)] *)
Definition joined_text (pdf : Pdf) : string :=
  Py.join (String Py.LF "") (map (fun page => default "" (extract_text page)) (pages pdf)).

Definition parse_press_release (pdf_path : string)
  : IO (extraction (gmap string string)) :=
  let* clean_pdf_path := extract_pdf_from_java_wrapper pdf_path in
  let temp_file_created := negb (String.eqb clean_pdf_path pdf_path) in
  let* opened := pdfplumber_open clean_pdf_path in
  let* result := match opened with
            | inl e => ret (Error ("Press release parsing failed: " ++ e))
            | inr pdf =>
                let report_text := joined_text pdf in
                if negb (Py.nonempty (Py.strip report_text))
                then ret (Error "No text extracted from press release PDF")
                else
                  let* data := extract_products report_text in
                  (if Nat.eqb (size data) 0
                   then log WARNING
                          "No commission/order size data extracted from press release"
                   else log SUCCESS ("Press release extraction successful: " ++
                                     str_of_nat (size data) ++ " products found")) ;;;
                  ret (Data data)
            end in
  cleanup temp_file_created clean_pdf_path ;;;
  ret result.

(* ===================================================================== *)
(** ** 4. Data processing and output ([class DataProcessor])             *)
(* ===================================================================== *)

(** [d.get(key, "")] *)
Definition get_str (key : string) (d : gmap string string) : string :=
  default "" (d !! key).

(** The three rows handed to the CSV writer. *)
Definition csv_rows (final_data : gmap string string) (date_str : string)
  : list (list string) :=
  let header_row1 := "Date" :: Config.FINAL_CSV_COLUMNS in
  let header_row2 :=
    "" :: map (fun h => default "" (assoc String.eqb h Config.DESCRIPTIVE_HEADERS))
              Config.FINAL_CSV_COLUMNS in
  let data_row :=
    date_str :: map (fun h => get_str h final_data) Config.FINAL_CSV_COLUMNS in
  [header_row1; header_row2; data_row].

Definition create_csv_output (final_data : gmap string string)
  (date_str filename : string) : IO bool :=
  let* r := write_csv filename (csv_rows final_data date_str) in
  match r with
  | None => log SUCCESS ("Created CSV file: " ++ filename) ;;; ret true
  | Some e =>
      log ERROR ("Could not write CSV file " ++ filename ++ ": " ++ e) ;;;
      ret false
  end.

(** *** [process_pdf_pair], first part: the target period *)

(** [f"{date_prefix}"] *)
Definition str_of_prefix (date_prefix : option string) : string :=
  default "None" date_prefix.

(** The names of the output file and of its period, [f"{year}-{month:02d}"]. *)
Definition output_name (date_prefix : option string) : string :=
  "IBKR_DATA_OUTPUT_" ++ str_of_prefix date_prefix ++ ".csv".

Definition period_string (target_year : string) (target_month_num : Z) : string :=
  target_year ++ "-" ++ Py.fmt_02d target_month_num.



(** Truthiness of [target_year] ([None] or a [str]) and of
    [target_month_num] ([None] or an [int]). *)
Definition year_set (target_year : option string) : bool :=
  match target_year with Some y => Py.nonempty y | None => false end.

Definition num_set (n : option Z) : bool :=
  match n with Some z => negb (z =? 0) | None => false end.

Definition period_missing (target_year : option string)
  (target_month_num : option Z) : bool :=
  negb (year_set target_year) || negb (num_set target_month_num).

(** [date_prefix and len(date_prefix) == 6 and date_prefix.isdigit()] *)
Definition usable_prefix (date_prefix : option string) : option string :=
  match date_prefix with
  | Some p =>
      if Py.nonempty p && Nat.eqb (String.length p) 6 && Py.isdigit p
      then Some p else None
  | None => None
  end.

(** The period read off the file name. *)
Definition period_of_prefix (p : string) : string * Z :=
  (Py.take 4 p, default 0 (Py.int (Py.drop 4 p))).

(** The [try] block over the brokerage document. *)
Definition brokerage_fallback (brokerage_pdf_path : string)
  (target_year : option string) (target_month_num : option Z)
  : IO (option string * option Z) :=
  let* opened := pdfplumber_open brokerage_pdf_path in
  match opened with
  | inl e =>
      log WARNING ("Could not extract date from Monthly Brokerage PDF: " ++ e) ;;;
      ret (target_year, target_month_num)
  | inr pdf =>
      let brokerage_text := joined_text pdf in
      let (fallback_year, fallback_month) :=
        extract_date_from_content brokerage_text in
      if num_set fallback_year then
        let year_str := Py.str_of_Z (default 0 fallback_year) in
        log INFO ("Extracted year from Monthly Brokerage PDF: " ++ year_str) ;;;
        if negb (num_set fallback_month) then
          let detected_month :=
            detect_latest_month_from_data brokerage_text (default 0 fallback_year) in
          if num_set detected_month
          then ret (Some year_str, detected_month)
          else ret (Some year_str, target_month_num)
        else ret (Some year_str, fallback_month)
      else ret (target_year, target_month_num)
  end.

(** The [try] block over the press release. *)
Definition press_fallback (press_release_pdf_path : string)
  (target_year : option string) (target_month_num : option Z)
  : IO (option string * option Z) :=
  let* opened := pdfplumber_open press_release_pdf_path in
  match opened with
  | inl e =>
      log WARNING ("Could not extract date from Press Release PDF: " ++ e) ;;;
      ret (target_year, target_month_num)
  | inr pdf =>
      let press_text := joined_text pdf in
      let (fallback_year, fallback_month) := extract_date_from_content press_text in
      let* target_year :=
        (if num_set fallback_year && negb (year_set target_year) then
           let year_str := Py.str_of_Z (default 0 fallback_year) in
           log INFO ("Extracted year from Press Release PDF: " ++ year_str) ;;;
           ret (Some year_str)
         else ret target_year) in
      let* target_month_num :=
        (if num_set fallback_month && negb (num_set target_month_num) then
           log INFO ("Extracted month from Press Release PDF: " ++
                     Py.str_of_Z (default 0 fallback_month)) ;;;
           ret fallback_month
         else ret target_month_num) in
      ret (target_year, target_month_num)
  end.

(** The period of a document pair, or [None] where the code returns
    [False] for want of one. *)
Definition resolve_period (brokerage_pdf_path press_release_pdf_path : string)
  (date_prefix : option string) : IO (option (string * Z)) :=
  let* from_name :=
    match usable_prefix date_prefix with
    | Some p =>
        let (target_year, target_month_num) := period_of_prefix p in
        log INFO ("Using date from filename: " ++
                  period_string target_year target_month_num) ;;;
        ret (Some target_year, Some target_month_num)
    | None =>
        log INFO "Filename date not available or invalid, using fallback detection" ;;;
        ret (None, None)
    end in
  let (target_year, target_month_num) := from_name in
  let* resolved :=
    (if period_missing target_year target_month_num then
       log INFO "Attempting fallback date extraction from PDF content..." ;;;
       let* after_brokerage :=
         brokerage_fallback brokerage_pdf_path target_year target_month_num in
       let (target_year, target_month_num) := after_brokerage in
       if period_missing target_year target_month_num
       then press_fallback press_release_pdf_path target_year target_month_num
       else ret (target_year, target_month_num)
     else ret (target_year, target_month_num)) in
  let (target_year, target_month_num) := resolved in
  if period_missing target_year target_month_num then
    log ERROR
      "Could not determine target year and month from filename or PDF content" ;;;
    ret None
  else ret (Some (default "" target_year, default 0 target_month_num)).

(** *** [process_pdf_pair], second part: mapping and output *)

Definition CREDITSTOTAL : string := "USA.OBD.INTERACTIVE.ACCOUNTLEVEL.CREDITSTOTAL.M".
Definition EQUITY : string := "USA.OBD.INTERACTIVE.ACCOUNTLEVEL.EQUITY.M".
Definition CASH : string := "USA.OBD.INTERACTIVE.ACCOUNTLEVEL.CASH.M".

(** The value of one canonical field and, when it is empty, the entry it
    adds to [missing_data]. *)
Definition mapped_value (brokerage_data : gmap string string)
  (press_release_data : gmap string (gmap string string)) (csv_header : string)
  : string * list string :=
  match assoc String.eqb csv_header Config.MAPPING_CONFIG with
  | None => ("", [])
  | Some (monthly_brokerage source_name) =>
      let value := get_str source_name brokerage_data in
      (value, if Py.nonempty value then [] else ["Monthly: " ++ source_name])
  | Some (press_release product metric_type) =>
      let value := get_str metric_type (default ∅ (press_release_data !! product)) in
      (value, if Py.nonempty value then []
              else ["Press Release: " ++ product ++ " " ++ metric_type])
  end.

(** One iteration of the mapping loop: [final_mapped_data[csv_header] = value],
    and [missing_data] extended when the value is empty. *)
Definition map_step (brokerage_data : gmap string string)
  (press_release_data : gmap string (gmap string string))
  (acc : gmap string string * list string) (csv_header : string)
  : gmap string string * list string :=
  let (value, missing) :=
    mapped_value brokerage_data press_release_data csv_header in
  (<[csv_header := value]> (fst acc), (snd acc ++ missing)%list).

(** The mapping loop over [Config.FINAL_CSV_COLUMNS]. *)
Definition map_fields (brokerage_data : gmap string string)
  (press_release_data : gmap string (gmap string string))
  : gmap string string * list string :=
  fold_left (map_step brokerage_data press_release_data)
            Config.FINAL_CSV_COLUMNS (∅, []).

(** The text of the [ValueError] that [float(s)] raises. *)
Definition float_error (s : string) : string :=
  "could not convert string to float: '" ++ s ++ "'".

(** The derived field: cash as a percentage of assets. *)
Definition add_cash_percentage (final_mapped_data : gmap string string)
  : IO (gmap string string) :=
  let credits_total := get_str CREDITSTOTAL final_mapped_data in
  let client_equity := get_str EQUITY final_mapped_data in
  if Py.nonempty credits_total && Py.nonempty client_equity then
    match of_str (Py.remove_char "," credits_total) with
    | None =>
        log WARNING ("Could not calculate Cash % of Assets: " ++
                     float_error (Py.remove_char "," credits_total)) ;;;
        ret final_mapped_data
    | Some credits_val =>
        match of_str (Py.remove_char "," client_equity) with
        | None =>
            log WARNING ("Could not calculate Cash % of Assets: " ++
                         float_error (Py.remove_char "," client_equity)) ;;;
            ret final_mapped_data
        | Some equity_val =>
            if flt (of_int 0) equity_val then
              let cash_percentage :=
                fmul (fdiv credits_val equity_val) (of_int 100) in
              log INFO ("Calculated Cash %: " ++ fstr credits_val ++ "/" ++
                        fstr equity_val ++ "*100 = " ++ fmt_11f cash_percentage) ;;;
              ret (<[CASH := fmt_11f cash_percentage]> final_mapped_data)
            else ret final_mapped_data
        end
    end
  else ret final_mapped_data.

(** [sum(1 for v in final_mapped_data.values() if v)] *)
Definition count_populated (final_mapped_data : gmap string string) : nat :=
  List.length (List.filter (fun kv => Py.nonempty (snd kv))
                           (map_to_list final_mapped_data)).

Fixpoint repeat_string (n : nat) (s : string) : string :=
  match n with O => "" | S k => s ++ repeat_string k s end.

(** From the two extraction results to the CSV file: the mapping loop, the
    derived field, the summary and the output. *)
Definition write_record (brokerage_data : gmap string string)
  (press_release_data : gmap string (gmap string string))
  (date_prefix : option string) (target_year : string) (target_month_num : Z)
  : IO bool :=
  let (final_mapped_data, missing_data) :=
    map_fields brokerage_data press_release_data in
  let* final_mapped_data := add_cash_percentage final_mapped_data in
  log INFO "Data extraction summary:" ;;;
  log INFO ("  Brokerage metrics: " ++ str_of_nat (size brokerage_data) ++
            " extracted") ;;;
  log INFO ("  Press release metrics: " ++ str_of_nat (size press_release_data) ++
            " extracted") ;;;
  log INFO ("  Total fields populated: " ++
            str_of_nat (count_populated final_mapped_data) ++ "/" ++
            str_of_nat (List.length Config.FINAL_CSV_COLUMNS)) ;;;
  (match missing_data with
   | [] => ret tt
   | _ => log WARNING ("Missing data for: " ++
                       Py.join ", " (firstn 5 missing_data) ++
                       (if (5 <? List.length missing_data)%nat then "..." else ""))
   end) ;;;
  let date_str_for_csv := period_string target_year target_month_num in
  let output_filename := output_name date_prefix in
  let* success :=
    create_csv_output final_mapped_data date_str_for_csv output_filename in
  (if success
   then log SUCCESS ("Processing completed successfully for " ++
                     str_of_prefix date_prefix)
   else log ERROR ("Failed to create output file for " ++
                   str_of_prefix date_prefix)) ;;;
  ret success.

(** Everything after the period is known. *)
Definition process_with_period (brokerage_pdf_path press_release_pdf_path : string)
  (date_prefix : option string) (target_year : string) (target_month_num : Z)
  : IO bool :=
  log INFO (repeat_string 80 "=") ;;;
  log INFO ("PROCESSING: " ++ period_string target_year target_month_num) ;;;
  log INFO ("Brokerage PDF: " ++ path_name brokerage_pdf_path) ;;;
  log INFO ("Press Release PDF: " ++ path_name press_release_pdf_path) ;;;
  log INFO (repeat_string 80 "=") ;;;
  let* brokerage_data :=
    parse_monthly_brokerage_data brokerage_pdf_path target_year target_month_num in
  let* press_release_data := parse_press_release press_release_pdf_path in
  match brokerage_data with
  | Error e =>
      log ERROR ("Brokerage parsing failed: " ++ e) ;;;
      ret false
  | Data brokerage =>
      let* press :=
        match press_release_data with
        | Error e =>
            log WARNING ("Press release parsing failed: " ++ e) ;;;
            ret ∅
        | Data d => ret d
        end in
      write_record brokerage press date_prefix target_year target_month_num
  end.

Definition process_pdf_pair (brokerage_pdf_path press_release_pdf_path : string)
  (date_prefix : option string) : IO bool :=
  let* period :=
    resolve_period brokerage_pdf_path press_release_pdf_path date_prefix in
  match period with
  | None => ret false
  | Some (target_year, target_month_num) =>
      process_with_period brokerage_pdf_path press_release_pdf_path date_prefix
                          target_year target_month_num
  end.

End Engine.

(* ===================================================================== *)
(** ** 5. File discovery and batch processing ([class FileManager])      *)
(* ===================================================================== *)

Module ReportName.
Import Re.

(** The file-name pattern of the scan, used with [re.match] and
    [re.IGNORECASE]. Its alternation is spelled out, one pattern per
    alternative: six digits match in one way only, so trying the
    alternatives in turn on the whole pattern is the order in which [re]
    explores them. *)
Definition with_type (report_type : string) : regex :=
  pat "(\d{6})(MetricsPressRelease|MonthlyBrokerageData)\.pdf"
    (DatePatterns.seq
       [Grp 1 (Times 6 digit); Grp 2 (lit report_type); ch "."; lit "pdf"]).

Definition alternatives : list string :=
  ["MetricsPressRelease"; "MonthlyBrokerageData"].

(** [match.groups()] for the first alternative that matches. *)
Fixpoint match_name_with (types : list string) (name : string)
  : option (string * string) :=
  match types with
  | [] => None
  | report_type :: types' =>
      match match_at (with_type report_type) name with
      | Some (_, c) => Some (group 1 c, group 2 c)
      | None => match_name_with types' name
      end
  end.

Definition match_name (name : string) : option (string * string) :=
  match_name_with alternatives name.

End ReportName.

(** [d[key] = value] on an insertion-ordered dictionary: a key that is
    present keeps its place. *)
Fixpoint dict_set {V} (key : string) (value : V) (d : list (string * V))
  : list (string * V) :=
  match d with
  | [] => [(key, value)]
  | (k, v) :: d' =>
      if String.eqb k key then (k, value) :: d'
      else (k, v) :: dict_set key value d'
  end.

(** [sorted(l)] for a list of [str]. *)
Fixpoint insert_sorted (x : string) (l : list string) : list string :=
  match l with
  | [] => [x]
  | y :: l' => if String.ltb x y then x :: l else y :: insert_sorted x l'
  end.

Definition sorted (l : list string) : list string :=
  fold_left (fun acc x => insert_sorted x acc) l [].

(** [str(l)] for a list of [str] without quotes in them. *)
Definition repr_list (l : list string) : string :=
  "[" ++ Py.join ", " (map (fun s => "'" ++ s ++ "'") l) ++ "]".

(** The reports found in one directory: for each date prefix, in the order
    of discovery, the path of each report type. *)
Definition Groups : Type := list (string * list (string * string)).

(** What the scan sees of the disk: the directories visited, in order,
    each with its [str] and the paths that [root.glob("*.pdf")] yields. *)
Definition Listing : Type := list (string * list string).

(** The pairs processed so far, as [processed_files], and
    [successful_processing]. *)
Definition Tally : Type := (gset (list string) * nat)%type.

Section Batch.
Context {FL : PyFloat}.

Definition REQUIRED_TYPES : list string :=
  ["MetricsPressRelease"; "MonthlyBrokerageData"].

(** One iteration of [for file_path in root.glob("*.pdf")]. *)
Definition scan_step (report_groups : Groups) (file_path : string) : IO Groups :=
  let name := path_name file_path in
  match ReportName.match_name name with
  | Some (date_prefix, report_type) =>
      log DEBUG ("Found: " ++ name ++ " -> " ++ date_prefix ++ " " ++ report_type) ;;;
      let paths := default [] (assoc String.eqb date_prefix report_groups) in
      ret (dict_set date_prefix (dict_set report_type file_path paths) report_groups)
  | None => ret report_groups
  end.

(** One iteration of [for date_prefix, paths in report_groups.items()].
    The test [all(report_type in paths for report_type in required_types)]
    is the success of the two look-ups that the call then makes. *)
Definition pair_step (tally : Tally) (group : string * list (string * string))
  : IO Tally :=
  let (date_prefix, paths) := group in
  let (processed_files, successful_processing) := tally in
  match assoc String.eqb "MetricsPressRelease" paths,
        assoc String.eqb "MonthlyBrokerageData" paths with
  | Some press_release_pdf_path, Some brokerage_pdf_path =>
      let file_pair_key := sorted (map snd paths) in
      if bool_decide (file_pair_key ∈ processed_files) then ret tally
      else
        log INFO ("Found complete pair for " ++ date_prefix) ;;;
        let* success :=
          process_pdf_pair brokerage_pdf_path press_release_pdf_path
                           (Some date_prefix) in
        ret ({[ file_pair_key ]} ∪ processed_files,
             if success then S successful_processing else successful_processing)
  | _, _ =>
      let missing :=
        List.filter (fun t => match assoc String.eqb t paths with
                              | Some _ => false
                              | None => true
                              end) REQUIRED_TYPES in
      log WARNING ("Incomplete pair for " ++ date_prefix ++ ", missing: " ++
                   repr_list missing) ;;;
      ret tally
  end.

(** One iteration of the walk over the directories. *)
Definition directory_step (tally : Tally) (directory : string * list string)
  : IO Tally :=
  let (root, file_paths) := directory in
  log DEBUG ("Checking directory: " ++ root) ;;;
  let* report_groups := foldM scan_step file_paths [] in
  foldM pair_step report_groups tally.

(** [FileManager.find_and_process_all_reports], on the listing of the
    script's directory tree. *)
Definition find_and_process_all_reports (tree : Listing) : IO (nat * nat) :=
  log INFO "Scanning for PDF report pairs..." ;;;
  let* tally := foldM directory_step tree (∅, 0%nat) in
  let (processed_files, successful_processing) := tally in
  (if Nat.eqb (size processed_files) 0 then
     log ERROR "No complete report pairs found!" ;;;
     log INFO "Ensure files are named: YYYYMMMonthlyBrokerageData.pdf and YYYYMMMetricsPressRelease.pdf"
   else
     log SUCCESS ("Processing complete: " ++ str_of_nat successful_processing ++ "/" ++
                  str_of_nat (size processed_files) ++ " successful")) ;;;
  ret (size processed_files, successful_processing).

End Batch.


(* ===================================================================== *)
(** ** Sample documents                                                  *)
(* ===================================================================== *)

(** Concrete documents and environments on which the model is run. Floats
    are the exact fractions of [ExactFloat]. *)
Module Samples.
Import ExactFloat.

Definition nl : string := String Py.LF "".

Definition text_page (t : string) : Page :=
  {| extract_text := Some t; extract_words := []; extract_tables := [] |}.

(** A page that yields no text, no words and no tables. *)
Definition blank_page : Page :=
  {| extract_text := None; extract_words := []; extract_tables := [] |}.

(** A page whose only content is a two-row table. *)
Definition table_page : Page :=
  {| extract_text := None; extract_words := [];
     extract_tables := [ [ [Some "Metric"; Some "Jan"; Some "Feb"];
                           [Some "Total Accounts"; Some "5"; Some "$6,000.5"] ] ] |}.

(** A brokerage table for 2025 with eight month columns: the year stands
    alone in the title, next to no month name. *)
Definition brokerage_text : string :=
  "ELECTRONIC BROKERAGE 2025" ++ nl ++
  "  Jan Feb Mar Apr May Jun Jul Aug" ++ nl ++
  "Total Accounts 2,500.1 2,510.3 3 4 5 6 7 2,550.9" ++ nl ++
  "Cleared Avg. DART per Account" ++ nl ++
  "(Annualized) 1 2 3 4 5 6 7 8" ++ nl ++
  "Client Credits(2) $1.0 $2 $3 $4 $5 $6 $7 $8.5" ++ nl ++
  "Stock Shares 1 2 3 4 5 6 7 9" ++ nl ++
  "Cash as % of Assets 1 2 3 4 5 6 7 12.5".

Definition press_text : string :=
  "Stocks 1,200,000 shares $0.85" ++ nl ++ "Futures 3.1 contracts $4.2".

(** A page with text, positioned words and a table, all for January to
    March. *)
Definition word (t : string) (x y : Z) : Word :=
  {| w_text := t; w_x0 := Fin x 1; w_top := Fin y 1 |}.



Definition brokerage_doc : Pdf := {| pages := [text_page brokerage_text] |}.
Definition press_doc : Pdf := {| pages := [text_page press_text] |}.
Definition blank_doc : Pdf := {| pages := [blank_page] |}.
Definition table_doc : Pdf := {| pages := [table_page] |}.

(** Files are named after what they hold. *)
Definition decode (data : string) : string + Pdf :=
  if String.eqb data "BROKERAGE" then inr brokerage_doc
  else if String.eqb data "PRESS" then inr press_doc
  else if String.eqb data "BLANK" then inr blank_doc
  else if String.eqb data "TABLE" then inr table_doc
  else inl "No /Root object! - Is this really a PDF?".

Definition world : World :=
  {| decode_pdf := decode; mkstemp := "/tmp/tmp0.pdf"; csv_error := fun _ => None |}.

Definition brokerage_path : string := "202508MonthlyBrokerageData.pdf".
Definition press_path : string := "202508MetricsPressRelease.pdf".

Definition disk : Files :=
  {[ brokerage_path := "BROKERAGE";
     press_path := "PRESS";
     "blank.pdf" := "BLANK";
     "table.pdf" := "TABLE" ]}.

End Samples.

(* ===================================================================== *)
(** ** Vocabulary of the statements                                      *)
(* ===================================================================== *)

(** A result that is not an error and maps at least [n] metrics. *)
Definition metrics_at_least (n : nat) (r : extraction string) : Prop :=
  exists d, r = Data d /\ (n <= size d)%nat.

(** The output files that a sequence of events writes, with their rows. *)
Definition csv_artifacts (es : list Event) : list (string * list (list string)) :=
  flat_map (fun e => match e with WriteCsv f rows => [(f, rows)] | _ => [] end) es.

Section Vocabulary.
Context {FL : PyFloat}.

(** The value that the cascade settles on, from the results of the three
    strategies. *)
Definition cascade_value (r1 r2 r3 : extraction string) : extraction string :=
  if sufficient r1 then r1
  else if sufficient r2 then r2
  else if acceptable r3 then r3
  else Error ALL_STRATEGIES_FAILED.

(** What one pass over a pattern set leaves for a product. *)
Definition pass_result (name text : string) (pats : list (string * Re.regex))
  (product : string) : option (gmap string string) :=
  match assoc String.eqb product pats with
  | Some r =>
      match Re.search r text with
      | Some (_, c) => Some (entry_of_match name c)
      | None => None
      end
  | None => None
  end.

(** A computation that writes no output file. *)
Definition quiet {A} (m : IO A) : Prop :=
  forall w fs, csv_artifacts (events (m w fs)) = [].

(** A computation that leaves the file system as it found it. *)
Definition steady {A} (m : IO A) : Prop :=
  forall w fs, files (m w fs) = fs.

End Vocabulary.

(** *** Shapes of texts and of patterns *)

(** Every character of [s] satisfies [p]. *)
Fixpoint all_chars (p : ascii -> bool) (s : string) : bool :=
  match s with
  | EmptyString => true
  | String a s' => p a && all_chars p s'
  end.

(** The characters of a cleaned number: decimal digits and the point. *)
Definition numeric_char (a : ascii) : bool := Py.is_digit a || Ascii.eqb a ".".

(** What can be read off a pattern without running it. *)
Module Shape.
Import Re.

(** The characters that a match of [r] may consume. *)
Fixpoint chars (r : regex) (a : ascii) : bool :=
  match r with
  | Chr p => p a
  | Seq r1 r2 => chars r1 a || chars r2 a
  | Opt r1 | Star r1 | StarLazy r1 | Grp _ r1 => chars r1 a
  | Eps | Eol => false
  end.

(** The number of characters that every match of [r] consumes, when the
    pattern fixes it. *)
Fixpoint fixed_len (r : regex) : option nat :=
  match r with
  | Eps | Eol => Some 0%nat
  | Chr _ => Some 1%nat
  | Seq r1 r2 =>
      match fixed_len r1, fixed_len r2 with
      | Some a, Some b => Some (a + b)%nat
      | _, _ => None
      end
  | Grp _ r1 => fixed_len r1
  | Opt _ | Star _ | StarLazy _ => None
  end.

(** Group [n] is captured by every match of [r]. *)
Fixpoint sure (r : regex) (n : nat) : bool :=
  match r with
  | Seq r1 r2 => sure r1 n || sure r2 n
  | Grp m r1 => Nat.eqb m n || sure r1 n
  | _ => false
  end.

(** Every match of [r] ends at a [$]. *)
Fixpoint ends_at_eol (r : regex) : bool :=
  match r with
  | Eol => true
  | Seq _ r2 => ends_at_eol r2
  | Grp _ r1 => ends_at_eol r1
  | _ => false
  end.

(** [Q n g] holds of every text [g] that a group [n] of [r] can capture. *)
Fixpoint groups_ok (Q : nat -> string -> Prop) (r : regex) : Prop :=
  match r with
  | Grp n r1 =>
      (forall u, all_chars (chars r1) u = true ->
                 (forall l, fixed_len r1 = Some l -> String.length u = l) ->
                 Q n u) /\
      groups_ok Q r1
  | Seq r1 r2 => groups_ok Q r1 /\ groups_ok Q r2
  | Opt r1 | Star r1 | StarLazy r1 => groups_ok Q r1
  | Eps | Chr _ | Eol => True
  end.

(** What a successful run of [r] on [s] with the continuation [k] tells:
    [r] consumed a prefix [u] of [s] and pushed the groups [new]. *)
Definition consumed (Q : nat -> string -> Prop) (r : regex) (s : string)
  (c : caps) (k : cont) (o : outcome) : Prop :=
  exists u s' new,
    s = u ++ s' /\
    all_chars (chars r) u = true /\
    (forall l, fixed_len r = Some l -> String.length u = l) /\
    Forall (fun e => Q (fst e) (snd e)) new /\
    (forall n, sure r n = true -> exists g, In (n, g) new) /\
    (ends_at_eol r = true -> s' = "" \/ s' = String Py.LF "") /\
    k s' (new ++ c)%list = Some o.

End Shape.

(** A cleaned number: a non-empty text of digits and points. *)
Definition numeric_value (v : string) : Prop :=
  v <> "" /\ all_chars numeric_char v = true.

(** A mapping whose keys are metrics of the mapping table and whose values
    are cleaned numbers. *)
Definition known_metrics (d : gmap string string) : Prop :=
  forall name v, d !! name = Some v -> In name metric_source_names /\ numeric_value v.

(** The characters of a matched value token: those of a number, the
    thousands separator and the currency sign. *)
Definition money_char (a : ascii) : bool :=
  (numeric_char a || Ascii.eqb a ",") || Ascii.eqb a "$".

(** What the second group of a primary pattern captures. *)
Definition primary_group (n : nat) (g : string) : Prop :=
  n = 2%nat -> all_chars numeric_char g = true.

(** What the groups of a backup pattern capture. *)
Definition backup_group (n : nat) (g : string) : Prop :=
  (n = 1%nat -> all_chars (fun a => numeric_char a || Ascii.eqb a ",") g = true) /\
  (n = 2%nat -> all_chars numeric_char g = true).

(** *** Periods *)

(** A month that, when set, is a calendar month. *)
Definition month_sane (target_month_num : option Z) : Prop :=
  forall m, target_month_num = Some m -> m <> 0 -> 1 <= m <= 12.

(** The period from the file name, as the resolver starts with it. *)
Definition period_from_name (date_prefix : option string) : option string * option Z :=
  match usable_prefix date_prefix with
  | Some q => (Some (fst (period_of_prefix q)), Some (snd (period_of_prefix q)))
  | None => (None, None)
  end.

(** *** The batch scan *)

(** A period hint as the scan extracts it: six decimal digits. *)
Definition six_digits (prefix : string) : Prop :=
  String.length prefix = 6%nat /\ Py.isdigit prefix = true.

(** An event that is a line of the log. *)
Definition is_log (e : Event) : bool :=
  match e with Log _ _ => true | _ => false end.

(** What the first group of the file-name pattern captures. *)
Definition prefix_group (n : nat) (g : string) : Prop :=
  n = 1%nat -> six_digits g.

(** An output file of the batch scan: named after a six-digit prefix and
    holding the rows of a record for a period which, unless the month
    digits are 00, is the one that the prefix states. *)
Definition artifact_named (a : string * list (list string)) : Prop :=
  exists prefix,
    six_digits prefix /\ fst a = output_name (Some prefix) /\
    exists final y m,
      snd a = csv_rows final (period_string y m) /\
      (Py.drop 4 prefix <> "00" ->
       y = Py.take 4 prefix /\ Py.int (Py.drop 4 prefix) = Some m).

(** A group of reports without a path under the key that the pairing
    requires for the brokerage document. *)
Definition lacks_brokerage (group : string * list (string * string)) : Prop :=
  assoc String.eqb "MonthlyBrokerageData" (snd group) = None.

Section BatchVocabulary.
Context {FL : PyFloat}.


(** A computation that leaves the tally alone and only writes to the log. *)
Definition idle (step : Tally -> IO Tally) : Prop :=
  forall tally w fs,
    value (step tally w fs) = tally /\ files (step tally w fs) = fs /\
    forallb is_log (events (step tally w fs)) = true.

End BatchVocabulary.

(* ===================================================================== *)
(** ** More sample documents                                             *)
(* ===================================================================== *)

(** More documents and environments: a brokerage document inside a Java
    wrapper, a document that states its period, and directory listings. *)
Module BatchSamples.
Import ExactFloat Samples.

(** A Java-serialised object that carries a PDF between two runs of other
    bytes. *)
Definition wrapped : string :=
  JAVA_MAGIC ++ "sr" ++ "%PDF-BROKERAGE%%EOF" ++ "xp".

(** The metrics of a month named in the text. *)
Definition dated_text : string :=
  "Interactive Brokers reports brokerage metrics for August 2025" ++ nl ++
  brokerage_text.

Definition dated_doc : Pdf := {| pages := [text_page dated_text] |}.

Definition decode (data : string) : string + Pdf :=
  if String.eqb data "%PDF-BROKERAGE%%EOF" then inr brokerage_doc
  else if String.eqb data "DATED" then inr dated_doc
  else Samples.decode data.

Definition world : World :=
  {| decode_pdf := decode; mkstemp := "/tmp/tmp0.pdf"; csv_error := fun _ => None |}.

Definition disk : Files :=
  <[ "wrapped.pdf" := wrapped ]> (<[ "dated.pdf" := "DATED" ]> Samples.disk).

(** The metrics that the text strategy reads off the sample brokerage
    document for August 2025. *)
Definition august_metrics : gmap string string :=
  match _parse_using_text_extraction brokerage_doc "2025" "Aug" with
  | Data d => d
  | Error _ => ∅
  end.

(** A directory with a complete pair, and a sub-directory whose brokerage
    report is named in lower case. *)
Definition tree : Listing :=
  [ (".", [brokerage_path; press_path]);
    ("old", ["old/202507monthlybrokeragedata.pdf"; "old/202507MetricsPressRelease.pdf";
             "old/notes.pdf"]) ].

Definition lower_case_tree : Listing :=
  [ ("old", ["old/202507monthlybrokeragedata.pdf"; "old/202507MetricsPressRelease.pdf";
             "old/notes.pdf"]) ].

(** The rows of the first output file of the scan of [tree]. *)
Definition first_rows : list (list string) :=
  match csv_artifacts (events (find_and_process_all_reports tree Samples.world Samples.disk))
        return list (list string) with
  | (_, rows) :: _ => rows
  | [] => []
  end.

End BatchSamples.


(* ===================================================================== *)
(** ** Properties                                                        *)
(* ===================================================================== *)

(** *** Target period validation *)

Lemma month_mapping_outside (m : Z) :
  m < 1 \/ 12 < m -> assoc Z.eqb m Config.MONTH_MAPPING = None.
Proof.
  intros H. cbv [assoc Config.MONTH_MAPPING].
  repeat match goal with
         | |- context [?k =? m] => destruct (Z.eqb_spec k m); [lia |]
         end.
  reflexivity.
Qed.

Lemma month_mapping_inside (m : Z) :
  1 <= m <= 12 ->
  exists abbr, assoc Z.eqb m Config.MONTH_MAPPING = Some abbr
               /\ In abbr Config.VALID_MONTHS.
Proof.
  intros H.
  assert (Hm : m = 1 \/ m = 2 \/ m = 3 \/ m = 4 \/ m = 5 \/ m = 6 \/ m = 7 \/
               m = 8 \/ m = 9 \/ m = 10 \/ m = 11 \/ m = 12) by lia.
  repeat (destruct Hm as [-> | Hm]); try subst m;
    (eexists; split; [reflexivity | simpl; tauto]).
Qed.

Lemma validate_accepts (year : string) (y m : Z) :
  Py.int year = Some y -> 2015 <= y <= 2030 -> 1 <= m <= 12 ->
  validate_date_params year m = (true, None).
Proof.
  intros Hy Hr Hm. unfold validate_date_params. rewrite Hy.
  destruct (Z.leb_spec 2015 y); [| lia]. destruct (Z.leb_spec y 2030); [| lia].
  destruct (Z.leb_spec 1 m); [| lia]. destruct (Z.leb_spec m 12); [| lia].
  reflexivity.
Qed.

Lemma validate_rejects_year (year : string) (y m : Z) :
  Py.int year = Some y -> y < 2015 \/ 2030 < y ->
  validate_date_params year m = (false, Some "Year must be between 2015 and 2030").
Proof.
  intros Hy Hr. unfold validate_date_params. rewrite Hy.
  destruct (Z.leb_spec 2015 y); destruct (Z.leb_spec y 2030);
    simpl; try reflexivity; lia.
Qed.

Lemma csv_artifacts_app (es1 es2 : list Event) :
  csv_artifacts (es1 ++ es2) = (csv_artifacts es1 ++ csv_artifacts es2)%list.
Proof. apply flat_map_app. Qed.

(** *** Searching a list *)



(** *** Digits of the period hint *)

Lemma is_digit_cases (a : ascii) :
  Py.is_digit a = true ->
  In a ["0"; "1"; "2"; "3"; "4"; "5"; "6"; "7"; "8"; "9"]%char.
Proof.
  destruct a as [[] [] [] [] [] [] [] []]; intros H;
    first [discriminate H | vm_compute; tauto].
Qed.

Lemma two_digit_int (a b : ascii) :
  Py.is_digit a = true -> Py.is_digit b = true ->
  exists v, Py.int (String a (String b "")) = Some v /\ 0 <= v <= 99 /\
            (v = 0 -> String a (String b "") = "00").
Proof.
  intros Ha Hb. apply is_digit_cases in Ha, Hb. simpl in Ha, Hb.
  repeat (destruct Ha as [<- | Ha]; [
    repeat (destruct Hb as [<- | Hb];
            [eexists; split; [vm_compute; reflexivity |
                              split; [lia | intros E; first [discriminate E | reflexivity]]] |]);
    destruct Hb |]).
  destruct Ha.
Qed.

(** *** Characters that a cleaned value cannot hold *)
Lemma contains_char_cons (c a : ascii) (s : string) :
  Py.contains (String c "") (String a s) = Ascii.eqb c a || Py.contains (String c "") s.
Proof.
  cbn [Py.contains String.prefix]. destruct (Ascii.ascii_dec c a) as [-> | Hne].
  - rewrite Ascii.eqb_refl. destruct s; reflexivity.
  - destruct (Ascii.eqb_spec c a); [contradiction | reflexivity].
Qed.

Lemma contains_char_nil (c : ascii) : Py.contains (String c "") "" = false.
Proof. reflexivity. Qed.

Lemma remove_char_absent (c : ascii) (s : string) :
  Py.contains (String c "") (Py.remove_char c s) = false.
Proof.
  induction s as [| a s IH]; [reflexivity |].
  cbn [Py.remove_char]. destruct (Ascii.eqb_spec a c) as [-> | Hne]; [exact IH |].
  rewrite contains_char_cons, IH.
  destruct (Ascii.eqb_spec c a); [congruence | reflexivity].
Qed.

Lemma lstrip_absent (c : ascii) (s : string) :
  Py.contains (String c "") s = false -> Py.contains (String c "") (Py.lstrip s) = false.
Proof.
  induction s as [| a s IH]; [reflexivity |].
  intros H. cbn [Py.lstrip]. destruct (Py.is_space a); [| exact H].
  apply IH. rewrite contains_char_cons in H. apply orb_false_iff in H as [_ H]. exact H.
Qed.

Lemma rstrip_absent (c : ascii) (s : string) :
  Py.contains (String c "") s = false -> Py.contains (String c "") (Py.rstrip s) = false.
Proof.
  induction s as [| a s IH]; [reflexivity |].
  intros H. rewrite contains_char_cons in H. apply orb_false_iff in H as [Ha Hs].
  specialize (IH Hs). cbn [Py.rstrip].
  destruct (Py.rstrip s) as [| b t] eqn:E.
  - destruct (Py.is_space a); [reflexivity |].
    rewrite contains_char_cons, Ha. reflexivity.
  - rewrite contains_char_cons, Ha. exact IH.
Qed.

Lemma strip_absent (c : ascii) (s : string) :
  Py.contains (String c "") s = false -> Py.contains (String c "") (Py.strip s) = false.
Proof. intros H. unfold Py.strip. apply rstrip_absent, lstrip_absent, H. Qed.

(** *** Content inference returns a year and a month, or nothing *)

Lemma month_name_range (name : string) (m : Z) :
  assoc String.eqb name month_name_to_num = Some m -> 1 <= m <= 12.
Proof.
  unfold month_name_to_num. cbn [assoc].
  repeat match goal with
         | |- (if ?b then _ else _) = _ -> _ =>
             destruct b; [intros H; injection H as <-; lia |]
         end.
  discriminate.
Qed.

Lemma date_of_match_month (n : nat) (c : Re.caps) (year : option Z) (y m : Z) :
  date_of_match n c year = inl (y, m) -> 1 <= m <= 12.
Proof.
  unfold date_of_match. destruct n as [| [| [| n]]]; try discriminate.
  - destruct (is_year_token _); discriminate.
  - destruct (is_year_token (Re.group 1 c)).
    + destruct (assoc _ _ _) as [month |] eqn:E; [| discriminate].
      intros H. injection H as <- <-. exact (month_name_range _ _ E).
    + destruct (is_year_token (Re.group 2 c)); [| discriminate].
      destruct (assoc _ _ _) as [month |] eqn:E; [| discriminate].
      intros H. injection H as <- <-. exact (month_name_range _ _ E).
Qed.

Lemma scan_matches_month (n : nat) (ms : list Re.caps) (year : option Z) (y m : Z) :
  scan_matches n ms year = inl (y, m) -> 1 <= m <= 12.
Proof.
  revert year. induction ms as [| c ms IH]; intros year; [discriminate |].
  cbn [scan_matches]. destruct (date_of_match n c year) as [[y' m'] | year'] eqn:E.
  - intros H. injection H as <- <-. exact (date_of_match_month _ _ _ _ _ E).
  - apply IH.
Qed.

Lemma scan_patterns_shape (ps : list (nat * Re.regex)) (text : string) (year : option Z) :
  scan_patterns ps text year = (None, None) \/
  exists y m, scan_patterns ps text year = (Some y, Some m) /\ 1 <= m <= 12.
Proof.
  revert year. induction ps as [| [n r] ps IH]; intros year; [left; reflexivity |].
  cbn [scan_patterns].
  destruct (scan_matches n (Re.finditer r text) year) as [[y m] | year'] eqn:E.
  - right. exists y, m. split; [reflexivity | exact (scan_matches_month _ _ _ _ _ E)].
  - apply IH.
Qed.

Lemma extract_date_never_year_only (text : string) :
  extract_date_from_content text = (None, None) \/
  exists y m, extract_date_from_content text = (Some y, Some m) /\ 1 <= m <= 12.
Proof. apply scan_patterns_shape. Qed.

Create Rewrite HintDb io.

Section EngineProperties.
Context {FL : PyFloat}.

(** *** Running [IO] computations *)

Lemma value_bind {A B} (m : IO A) (k : A -> IO B) (w : World) (fs : Files) :
  value (bind m k w fs) = value (k (value (m w fs)) w (files (m w fs))).
Proof. reflexivity. Qed.

Lemma files_bind {A B} (m : IO A) (k : A -> IO B) (w : World) (fs : Files) :
  files (bind m k w fs) = files (k (value (m w fs)) w (files (m w fs))).
Proof. reflexivity. Qed.

Lemma events_bind {A B} (m : IO A) (k : A -> IO B) (w : World) (fs : Files) :
  events (bind m k w fs) =
  (events (m w fs) ++ events (k (value (m w fs)) w (files (m w fs))))%list.
Proof. reflexivity. Qed.

Lemma value_ret {A} (a : A) (w : World) (fs : Files) : value (ret a w fs) = a.
Proof. reflexivity. Qed.

Lemma files_ret {A} (a : A) (w : World) (fs : Files) : files (ret a w fs) = fs.
Proof. reflexivity. Qed.

Lemma events_ret {A} (a : A) (w : World) (fs : Files) : events (ret a w fs) = [].
Proof. reflexivity. Qed.

Lemma files_log (l : Level) (s : string) (w : World) (fs : Files) :
  files (log l s w fs) = fs.
Proof. reflexivity. Qed.

Lemma events_log (l : Level) (s : string) (w : World) (fs : Files) :
  events (log l s w fs) = [Log l s].
Proof. reflexivity. Qed.

Hint Rewrite @value_bind @files_bind @events_bind @value_ret @files_ret @events_ret
  files_log events_log : io.

(** *** The cascade of the tabular engine *)

Lemma sufficient_spec (r : extraction string) :
  sufficient r = true <-> metrics_at_least 5 r.
Proof.
  unfold sufficient, truthy, has_error, len, metrics_at_least.
  destruct r as [msg | d].
  - split; [discriminate | intros (d & Hd & _); discriminate].
  - rewrite !andb_true_iff, Nat.leb_le, negb_true_iff, Nat.eqb_neq. split.
    + intros [_ H]. eauto.
    + intros (d' & Hd & Hn). injection Hd as <-. repeat split; [lia | exact Hn].
Qed.

Lemma acceptable_spec (r : extraction string) :
  acceptable r = true <-> metrics_at_least 1 r.
Proof.
  unfold acceptable, truthy, has_error, len, metrics_at_least.
  destruct r as [msg | d].
  - split; [discriminate | intros (d & Hd & _); discriminate].
  - rewrite !andb_true_iff, negb_true_iff, Nat.eqb_neq. split.
    + intros [H _]. exists d. split; [reflexivity | lia].
    + intros (d' & Hd & Hn). injection Hd as <-. split; [lia | reflexivity].
Qed.

Lemma run_strategies_value (pdf : Pdf) (year abbr : string) (w : World) (fs : Files) :
  (0 < List.length (pages pdf))%nat ->
  value (run_strategies pdf year abbr w fs) =
    cascade_value (_parse_using_text_extraction pdf year abbr)
                  (_parse_using_coordinates pdf year abbr)
                  (_parse_using_table_extraction pdf year abbr).
Proof.
  intros Hp. unfold run_strategies, cascade_value.
  destruct (pages pdf) eqn:E; [simpl in Hp; lia |].
  destruct (sufficient (_parse_using_text_extraction pdf year abbr)); [reflexivity |].
  destruct (sufficient (_parse_using_coordinates pdf year abbr)); [reflexivity |].
  destruct (acceptable (_parse_using_table_extraction pdf year abbr)); reflexivity.
Qed.

(** Whatever the wrapper check does, [pdfplumber] then sees the bytes of
    the file, or of the PDF wrapped in it. *)
Lemma open_after_wrapper (w : World) (fs : Files) (path data : string) :
  fs !! path = Some data ->
  let r := extract_pdf_from_java_wrapper path w fs in
  value (pdfplumber_open (value r) w (files r))
    = decode_pdf w (default data (java_payload data)).
Proof.
  intros Hfs. unfold extract_pdf_from_java_wrapper, bind, read_bytes, pdfplumber_open.
  cbn [value files]. rewrite Hfs.
  destruct (java_payload data) as [content |]; cbn.
  - rewrite lookup_insert_eq. reflexivity.
  - rewrite Hfs. reflexivity.
Qed.

Lemma parse_monthly_value (w : World) (fs : Files) (path year abbr : string) (m y : Z)
  (data : string) (pdf : Pdf) :
  Py.int year = Some y -> 2015 <= y <= 2030 ->
  assoc Z.eqb m Config.MONTH_MAPPING = Some abbr ->
  fs !! path = Some data ->
  decode_pdf w (default data (java_payload data)) = inr pdf ->
  (0 < List.length (pages pdf))%nat ->
  value (parse_monthly_brokerage_data path year m w fs) =
    cascade_value (_parse_using_text_extraction pdf year abbr)
                  (_parse_using_coordinates pdf year abbr)
                  (_parse_using_table_extraction pdf year abbr).
Proof.
  intros Hy Hr Hab Hfs Hdec Hp.
  assert (Hm : 1 <= m <= 12).
  { destruct (Z.ltb_spec m 1); [rewrite month_mapping_outside in Hab by lia; discriminate |].
    destruct (Z.ltb_spec 12 m); [rewrite month_mapping_outside in Hab by lia; discriminate |].
    lia. }
  unfold parse_monthly_brokerage_data. rewrite Hab.
  rewrite (validate_accepts _ _ _ Hy Hr Hm).
  rewrite value_bind. cbn [log emit value files].
  rewrite !value_bind.
  rewrite (open_after_wrapper w fs path data Hfs). rewrite Hdec.
  cbn [ret value].
  apply run_strategies_value. exact Hp.
Qed.

(** C1 (amended). For a readable document with at least one page and a
    valid target period, [parse_monthly_brokerage_data] returns the result
    of the text strategy when it maps at least 5 metrics; else that of the
    coordinate strategy when it maps at least 5 metrics; else that of the
    table strategy when it is not an error and maps at least one metric;
    else the fixed error "All parsing strategies failed to extract
    sufficient data". *)
Theorem cascade_returns_first_sufficient_strategy
  (w : World) (fs : Files) (path year abbr : string) (m y : Z)
  (data : string) (pdf : Pdf) :
  Py.int year = Some y -> 2015 <= y <= 2030 ->
  assoc Z.eqb m Config.MONTH_MAPPING = Some abbr ->
  fs !! path = Some data ->
  decode_pdf w (default data (java_payload data)) = inr pdf ->
  (0 < List.length (pages pdf))%nat ->
  let r1 := _parse_using_text_extraction pdf year abbr in
  let r2 := _parse_using_coordinates pdf year abbr in
  let r3 := _parse_using_table_extraction pdf year abbr in
  let result := value (parse_monthly_brokerage_data path year m w fs) in
  (metrics_at_least 5 r1 -> result = r1) /\
  (~ metrics_at_least 5 r1 -> metrics_at_least 5 r2 -> result = r2) /\
  (~ metrics_at_least 5 r1 -> ~ metrics_at_least 5 r2 ->
   metrics_at_least 1 r3 -> result = r3) /\
  (~ metrics_at_least 5 r1 -> ~ metrics_at_least 5 r2 ->
   ~ metrics_at_least 1 r3 -> result = Error ALL_STRATEGIES_FAILED).
Proof.
  intros Hy Hr Hab Hfs Hdec Hp r1 r2 r3 result.
  assert (E : result = cascade_value r1 r2 r3)
    by (apply (parse_monthly_value w fs path year abbr m y data pdf); assumption).
  rewrite E. unfold cascade_value.
  pose proof (sufficient_spec r1) as S1. pose proof (sufficient_spec r2) as S2.
  pose proof (acceptable_spec r3) as S3.
  destruct (sufficient r1), (sufficient r2), (acceptable r3);
    repeat split; intros; try reflexivity;
    repeat match goal with
           | H : ~ _, S : true = true <-> _ |- _ => exfalso; apply H, S; reflexivity
           | H : metrics_at_least _ ?r, S : false = true <-> metrics_at_least _ ?r |- _ =>
               apply S in H; discriminate
           end.
Qed.

(** C3 (amended). Under the same conditions the all-strategies-failed
    error is returned if and only if the text strategy and the coordinate
    strategy each return an error or fewer than 5 metrics and the table
    strategy returns an error or no metric at all. *)
Theorem all_strategies_failed_iff
  (w : World) (fs : Files) (path year abbr : string) (m y : Z)
  (data : string) (pdf : Pdf) :
  Py.int year = Some y -> 2015 <= y <= 2030 ->
  assoc Z.eqb m Config.MONTH_MAPPING = Some abbr ->
  fs !! path = Some data ->
  decode_pdf w (default data (java_payload data)) = inr pdf ->
  (0 < List.length (pages pdf))%nat ->
  value (parse_monthly_brokerage_data path year m w fs) = Error ALL_STRATEGIES_FAILED
  <->
  ~ metrics_at_least 5 (_parse_using_text_extraction pdf year abbr) /\
  ~ metrics_at_least 5 (_parse_using_coordinates pdf year abbr) /\
  ~ metrics_at_least 1 (_parse_using_table_extraction pdf year abbr).
Proof.
  intros Hy Hr Hab Hfs Hdec Hp.
  rewrite (parse_monthly_value w fs path year abbr m y data pdf) by assumption.
  unfold cascade_value.
  rewrite <- !sufficient_spec, <- acceptable_spec.
  destruct (sufficient (_parse_using_text_extraction pdf year abbr)) eqn:E1.
  { apply sufficient_spec in E1 as (d & -> & _). split; [discriminate | intros (H & _); tauto]. }
  destruct (sufficient (_parse_using_coordinates pdf year abbr)) eqn:E2.
  { apply sufficient_spec in E2 as (d & -> & _). split; [discriminate | intros (_ & H & _); tauto]. }
  destruct (acceptable (_parse_using_table_extraction pdf year abbr)) eqn:E3.
  { apply acceptable_spec in E3 as (d & -> & _). split; [discriminate | intros (_ & _ & H); tauto]. }
  split; [intros _; repeat split; discriminate | reflexivity].
Qed.

(** *** The strategies confirm the target month before extracting *)








(** *** Output artifacts *)

Lemma quiet_ret {A} (a : A) : quiet (ret a).
Proof. intros w fs. reflexivity. Qed.

Lemma quiet_bind {A B} (m : IO A) (k : A -> IO B) :
  quiet m -> (forall a, quiet (k a)) -> quiet (bind m k).
Proof.
  intros Hm Hk w fs. rewrite events_bind, csv_artifacts_app, Hm, Hk. reflexivity.
Qed.

Lemma quiet_log (l : Level) (s : string) : quiet (log l s).
Proof. intros w fs. reflexivity. Qed.
Lemma quiet_read (p : string) : quiet (read_bytes p).
Proof. intros w fs. reflexivity. Qed.
Lemma quiet_open (p : string) : quiet (pdfplumber_open p).
Proof. intros w fs. reflexivity. Qed.
Lemma quiet_temp (p : string) : quiet (write_temp p).
Proof. intros w fs. reflexivity. Qed.
Lemma quiet_exists (p : string) : quiet (path_exists p).
Proof. intros w fs. reflexivity. Qed.
Lemma quiet_unlink (p : string) : quiet (unlink p).
Proof. intros w fs. reflexivity. Qed.

Lemma quiet_foldM {A B} (f : A -> B -> IO A) (l : list B) (a : A) :
  (forall a b, quiet (f a b)) -> quiet (foldM f l a).
Proof.
  intros Hf. revert a. induction l as [| b l IH]; intros a; simpl.
  - apply quiet_ret.
  - apply quiet_bind; [apply Hf | intros a'; apply IH].
Qed.

Ltac quiet_step :=
  first
    [ apply quiet_ret | apply quiet_log | apply quiet_read | apply quiet_open
    | apply quiet_temp | apply quiet_exists | apply quiet_unlink
    | apply quiet_bind; [| intros ?]
    | apply quiet_foldM; intros ? ?
    | match goal with
      | |- quiet (match ?x with _ => _ end) => destruct x
      | |- quiet (if ?b then _ else _) => destruct b
      | |- quiet (let (_, _) := ?x in _) => destruct x
      end ].

Lemma quiet_wrapper (p : string) : quiet (extract_pdf_from_java_wrapper p).
Proof. unfold extract_pdf_from_java_wrapper. repeat quiet_step. Qed.

Lemma quiet_cleanup (b : bool) (p : string) : quiet (cleanup b p).
Proof. unfold cleanup. repeat quiet_step. Qed.

Lemma quiet_run_strategies (pdf : Pdf) (y a : string) : quiet (run_strategies pdf y a).
Proof. unfold run_strategies. repeat quiet_step. Qed.

Lemma quiet_parse_monthly (p y : string) (m : Z) : quiet (parse_monthly_brokerage_data p y m).
Proof.
  unfold parse_monthly_brokerage_data.
  repeat first [apply quiet_wrapper | apply quiet_cleanup | apply quiet_run_strategies | quiet_step].
Qed.

Lemma quiet_press_step (n t : string) d pp : quiet (press_step n t d pp).
Proof. unfold press_step. repeat quiet_step. Qed.

Lemma quiet_parse_press (p : string) : quiet (parse_press_release p).
Proof.
  unfold parse_press_release, extract_products.
  repeat first [apply quiet_wrapper | apply quiet_cleanup | apply quiet_press_step | quiet_step].
Qed.

Lemma quiet_resolve (b p : string) (hint : option string) : quiet (resolve_period b p hint).
Proof.
  unfold resolve_period, brokerage_fallback, press_fallback.
  repeat quiet_step.
Qed.

Lemma quiet_add_cash (m : gmap string string) : quiet (add_cash_percentage m).
Proof. unfold add_cash_percentage. repeat quiet_step. Qed.

(** Resolving the period touches no file. *)
Lemma steady_ret {A} (a : A) : steady (ret a).
Proof. intros w fs. reflexivity. Qed.
Lemma steady_bind {A B} (m : IO A) (k : A -> IO B) :
  steady m -> (forall a, steady (k a)) -> steady (bind m k).
Proof. intros Hm Hk w fs. rewrite files_bind, Hk. apply Hm. Qed.
Lemma steady_log (l : Level) (s : string) : steady (log l s).
Proof. intros w fs. reflexivity. Qed.
Lemma steady_open (p : string) : steady (pdfplumber_open p).
Proof. intros w fs. reflexivity. Qed.

Ltac steady_step :=
  first
    [ apply steady_ret | apply steady_log | apply steady_open
    | apply steady_bind; [| intros ?]
    | match goal with
      | |- steady (match ?x with _ => _ end) => destruct x
      | |- steady (if ?b then _ else _) => destruct b
      | |- steady (let (_, _) := ?x in _) => destruct x
      end ].

Lemma steady_resolve (b p : string) (hint : option string) : steady (resolve_period b p hint).
Proof. unfold resolve_period, brokerage_fallback, press_fallback. repeat steady_step. Qed.

(** The artifact of a run is the one that [write_record] writes. *)
Lemma write_record_run (d : gmap string string) (press : gmap string (gmap string string))
  (hint : option string) (y : string) (m : Z) (w : World) (fs : Files) :
  let final := value (add_cash_percentage (fst (map_fields d press)) w fs) in
  let run := write_record d press hint y m w fs in
  match csv_error w (output_name hint) with
  | None =>
      value run = true /\
      csv_artifacts (events run) = [(output_name hint, csv_rows final (period_string y m))]
  | Some _ => value run = false /\ csv_artifacts (events run) = []
  end.
Proof.
  intros final run. subst run final. unfold write_record.
  destruct (map_fields d press) as [fm missing]. cbn [fst].
  pose proof (quiet_add_cash fm w fs) as Qc.
  unfold create_csv_output, write_csv.
  cbn [bind log emit value files events ret].
  set (rc := add_cash_percentage fm w fs) in *. clearbody rc.
  destruct missing as [| m0 ms]; cbn [bind log emit value files events ret];
    (destruct (csv_error w (output_name hint)) as [e |];
     cbn [bind log emit value files events ret];
     (split; [reflexivity |]);
     rewrite !csv_artifacts_app, Qc; reflexivity).
Qed.

Lemma process_with_period_run (b p : string) (hint : option string) (y : string) (m : Z)
  (w : World) (fs : Files) :
  let rb := parse_monthly_brokerage_data b y m w fs in
  let rp := parse_press_release p w (files rb) in
  let run := process_with_period b p hint y m w fs in
  match value rb with
  | Error _ => value run = false /\ csv_artifacts (events run) = []
  | Data d =>
      let press := match value rp with Error _ => ∅ | Data x => x end in
      let rw := write_record d press hint y m w (files rp) in
      value run = value rw /\ csv_artifacts (events run) = csv_artifacts (events rw)
  end.
Proof.
  intros rb rp run. subst run. unfold process_with_period.
  autorewrite with io. fold rb. fold rp.
  assert (Qb : csv_artifacts (events rb) = []) by apply quiet_parse_monthly.
  assert (Qp : csv_artifacts (events rp) = []) by apply quiet_parse_press.
  clearbody rp. clearbody rb.
  rewrite !csv_artifacts_app, Qb, Qp.
  destruct (value rb) as [e | d].
  { autorewrite with io. split; reflexivity. }
  destruct (value rp) as [e | x]; autorewrite with io; split; reflexivity.
Qed.

Lemma process_pdf_pair_run (b p : string) (hint : option string) (w : World) (fs : Files) :
  let run := process_pdf_pair b p hint w fs in
  match value (resolve_period b p hint w fs) with
  | None => value run = false /\ csv_artifacts (events run) = []
  | Some (y, m) =>
      value run = value (process_with_period b p hint y m w fs) /\
      csv_artifacts (events run) = csv_artifacts (events (process_with_period b p hint y m w fs))
  end.
Proof.
  intros run. subst run. unfold process_pdf_pair.
  rewrite value_bind, events_bind, csv_artifacts_app.
  rewrite (quiet_resolve b p hint w fs), (steady_resolve b p hint w fs).
  destruct (value (resolve_period b p hint w fs)) as [[y m] |]; split; reflexivity.
Qed.

(** *** The schema mapper *)

Lemma map_step_fst b p acc c :
  fst (map_step b p acc c) = <[c := fst (mapped_value b p c)]> (fst acc).
Proof. unfold map_step. destruct (mapped_value b p c). reflexivity. Qed.

Lemma fold_map_step_other b p cols acc col :
  ~ In col cols -> fst (fold_left (map_step b p) cols acc) !! col = fst acc !! col.
Proof.
  revert acc. induction cols as [| c cs IH]; intros acc Hn; [reflexivity |].
  simpl. rewrite IH by (intros H; apply Hn; right; exact H).
  rewrite map_step_fst. apply lookup_insert_ne. intros ->. apply Hn. left. reflexivity.
Qed.

Lemma fold_map_step_in b p cols acc col :
  In col cols ->
  fst (fold_left (map_step b p) cols acc) !! col = Some (fst (mapped_value b p col)).
Proof.
  revert acc. induction cols as [| c cs IH]; intros acc Hin; [destruct Hin |].
  simpl. destruct (in_dec string_dec col cs) as [Hcs | Hcs].
  - apply IH. exact Hcs.
  - rewrite fold_map_step_other by exact Hcs.
    destruct Hin as [-> | Hin]; [| contradiction].
    rewrite map_step_fst. apply lookup_insert_eq.
Qed.

Lemma map_fields_lookup b p col :
  In col Config.FINAL_CSV_COLUMNS ->
  fst (map_fields b p) !! col = Some (fst (mapped_value b p col)).
Proof. intros H. unfold map_fields. apply fold_map_step_in. exact H. Qed.

Lemma in_by_eqb (x : string) (l : list string) :
  existsb (String.eqb x) l = true -> In x l.
Proof.
  intros H. apply existsb_exists in H as (y & Hy & E).
  apply String.eqb_eq in E. subst y. exact Hy.
Qed.

(** Every canonical field of the mapping table is an output column. *)
Lemma mapping_config_columns (col : string) (src : source) :
  In (col, src) Config.MAPPING_CONFIG ->
  In col Config.FINAL_CSV_COLUMNS /\ assoc String.eqb col Config.MAPPING_CONFIG = Some src.
Proof.
  intros H. unfold Config.MAPPING_CONFIG in H. cbn [In] in H.
  repeat (destruct H as [H | H];
          [injection H as <- <-; split; [apply in_by_eqb; vm_compute; reflexivity | vm_compute; reflexivity] |]).
  destruct H.
Qed.


Lemma add_cash_other (m : gmap string string) (col : string) (w : World) (fs : Files) :
  col <> CASH -> value (add_cash_percentage m w fs) !! col = m !! col.
Proof.
  intros Hc. unfold add_cash_percentage.
  destruct (Py.nonempty _ && Py.nonempty _); [| reflexivity].
  destruct (of_str _); [| reflexivity].
  destruct (of_str _); [| reflexivity].
  destruct (flt _ _); [| reflexivity].
  autorewrite with io.
  apply lookup_insert_ne. intros E. apply Hc. symmetry. exact E.
Qed.

(** C5. Once the period of a document pair is resolved: when the tabular
    engine returns an error, [process_pdf_pair] returns [False] and writes
    no output file; when the tabular engine returns a mapping and the
    narrative engine returns an error, the record is still produced (and
    written, the output file being writable): its six narrative-sourced
    fields are empty and its directly mapped tabular fields hold the
    extracted values. *)
Theorem brokerage_error_is_fatal_press_error_is_not
  (w : World) (fs : Files) (b p : string) (hint : option string) (y : string) (m : Z) :
  value (resolve_period b p hint w fs) = Some (y, m) ->
  let rb := parse_monthly_brokerage_data b y m w fs in
  let rp := parse_press_release p w (files rb) in
  let run := process_pdf_pair b p hint w fs in
  (forall e, value rb = Error e ->
     value run = false /\ csv_artifacts (events run) = []) /\
  (forall d e, value rb = Data d -> value rp = Error e ->
     csv_error w (output_name hint) = None ->
     exists final,
       value run = true /\
       csv_artifacts (events run) =
         [(output_name hint, csv_rows final (period_string y m))] /\
       (forall col product metric,
          In (col, press_release product metric) Config.MAPPING_CONFIG ->
          final !! col = Some "") /\
       (forall col name,
          In (col, monthly_brokerage name) Config.MAPPING_CONFIG -> col <> CASH ->
          final !! col = Some (get_str name d))).
Proof.
  intros Hres rb rp run.
  pose proof (process_pdf_pair_run b p hint w fs) as Hrun. cbv zeta in Hrun.
  rewrite Hres in Hrun. destruct Hrun as [Hv He].
  pose proof (process_with_period_run b p hint y m w fs) as Hp. cbv zeta in Hp.
  fold rb in Hp. fold rp in Hp. fold run in Hv, He.
  clearbody run rp. clearbody rb.
  split.
  - intros e Hb. rewrite Hb in Hp. destruct Hp as [Hpv Hpe].
    rewrite Hv, He. split; assumption.
  - intros d e Hb Hpress Hcsv. rewrite Hb, Hpress in Hp. destruct Hp as [Hpv Hpe].
    pose proof (write_record_run d ∅ hint y m w (files rp)) as Hw. cbv zeta in Hw.
    rewrite Hcsv in Hw. destruct Hw as [Hwv Hwe].
    eexists. split; [rewrite Hv, Hpv; exact Hwv |].
    split; [rewrite He, Hpe; exact Hwe |]. split.
    + intros col product metric Hin.
      destruct (mapping_config_columns _ _ Hin) as [Hcol Hsrc].
      rewrite add_cash_other.
      * rewrite (map_fields_lookup _ _ _ Hcol). unfold mapped_value. rewrite Hsrc.
        cbn [fst]. rewrite lookup_empty. reflexivity.
      * intros ->. vm_compute in Hsrc. discriminate Hsrc.
    + intros col name Hin Hc.
      destruct (mapping_config_columns _ _ Hin) as [Hcol Hsrc].
      rewrite add_cash_other by exact Hc.
      rewrite (map_fields_lookup _ _ _ Hcol). unfold mapped_value. rewrite Hsrc.
      reflexivity.
Qed.

Lemma mapped_monthly (b : gmap string string) (p : gmap string (gmap string string))
  (col name : string) :
  In (col, monthly_brokerage name) Config.MAPPING_CONFIG ->
  get_str col (fst (map_fields b p)) = get_str name b.
Proof.
  intros Hin. destruct (mapping_config_columns _ _ Hin) as [Hcol Hsrc].
  unfold get_str at 1. rewrite (map_fields_lookup _ _ _ Hcol).
  unfold mapped_value. rewrite Hsrc. reflexivity.
Qed.

Lemma nonempty_true (s : string) : Py.nonempty s = true <-> s <> "".
Proof. destruct s; simpl; split; intros H; try discriminate; try reflexivity; contradiction. Qed.

Lemma nonempty_false (s : string) : Py.nonempty s = false <-> s = "".
Proof. destruct s; simpl; split; intros H; try discriminate; reflexivity. Qed.

Lemma mapping_credits :
  In (CREDITSTOTAL, monthly_brokerage "Client Credits") Config.MAPPING_CONFIG.
Proof. unfold Config.MAPPING_CONFIG. do 11 right. left. reflexivity. Qed.

Lemma mapping_equity :
  In (EQUITY, monthly_brokerage "Client Equity") Config.MAPPING_CONFIG.
Proof. unfold Config.MAPPING_CONFIG. do 8 right. left. reflexivity. Qed.

Lemma mapping_cash :
  In (CASH, monthly_brokerage "Cash as % of Assets") Config.MAPPING_CONFIG.
Proof. unfold Config.MAPPING_CONFIG. do 13 right. left. reflexivity. Qed.

(** C2 (amended). The derived cash-percentage field equals
    [(creditsTotal / clientEquity) * 100] formatted with eleven decimals
    whenever both inputs are present, both read as floats and the
    denominator is positive; in every other case the field keeps the value
    mapped directly from the tabular metric "Cash as % of Assets", which is
    empty only when that metric was not extracted. *)
Theorem cash_percentage_derived_or_kept
  (w : World) (fs : Files) (brokerage : gmap string string)
  (press : gmap string (gmap string string)) :
  let credits := get_str "Client Credits" brokerage in
  let equity := get_str "Client Equity" brokerage in
  let final := value (add_cash_percentage (fst (map_fields brokerage press)) w fs) in
  (forall c e,
     credits <> "" -> equity <> "" ->
     of_str (Py.remove_char "," credits) = Some c ->
     of_str (Py.remove_char "," equity) = Some e ->
     flt (of_int 0) e = true ->
     final !! CASH = Some (fmt_11f (fmul (fdiv c e) (of_int 100)))) /\
  ((credits = "" \/ equity = "" \/
    of_str (Py.remove_char "," credits) = None \/
    of_str (Py.remove_char "," equity) = None \/
    (exists e, of_str (Py.remove_char "," equity) = Some e /\ flt (of_int 0) e = false)) ->
   final !! CASH = Some (get_str "Cash as % of Assets" brokerage)).
Proof.
  intros credits equity final.
  pose proof (mapped_monthly brokerage press _ _ mapping_credits) as Hc.
  pose proof (mapped_monthly brokerage press _ _ mapping_equity) as He.
  assert (Hk : fst (map_fields brokerage press) !! CASH
               = Some (get_str "Cash as % of Assets" brokerage)).
  { destruct (mapping_config_columns _ _ mapping_cash) as [Hcol Hsrc].
    rewrite (map_fields_lookup _ _ _ Hcol). unfold mapped_value. rewrite Hsrc.
    reflexivity. }
  fold credits in Hc. fold equity in He.
  subst final. unfold add_cash_percentage. rewrite Hc, He.
  clearbody credits equity.
  split.
  - intros c e Hcn Hen Hcf Hef Hpos.
    apply nonempty_true in Hcn, Hen. rewrite Hcn, Hen, Hcf, Hef, Hpos.
    cbn [andb]. autorewrite with io. apply lookup_insert_eq.
  - intros H.
    destruct (Py.nonempty credits) eqn:Ecn; [| exact Hk].
    destruct (Py.nonempty equity) eqn:Een; [| exact Hk].
    cbn [andb].
    destruct (of_str (Py.remove_char "," credits)) as [c |] eqn:Ecf;
      [| autorewrite with io; exact Hk].
    destruct (of_str (Py.remove_char "," equity)) as [e |] eqn:Eef;
      [| autorewrite with io; exact Hk].
    destruct (flt (of_int 0) e) eqn:Epos; [| exact Hk].
    exfalso. apply nonempty_true in Ecn, Een.
    destruct H as [H | [H | [H | [H | (e' & H & H')]]]].
    + exact (Ecn H).
    + exact (Een H).
    + discriminate H.
    + discriminate H.
    + injection H as <-. rewrite Epos in H'. discriminate H'.
Qed.

Lemma nodup_columns : NoDup Config.FINAL_CSV_COLUMNS.
Proof. apply (bool_decide_unpack _). vm_compute. exact I. Qed.

(** C6 (amended). The canonical record is a fixed list of 20 distinct
    named fields. The output is three rows: the identifiers after "Date",
    the captions, and the period followed by the 20 values, the i-th value
    being that of the i-th identifier (empty when absent). A run of
    [process_pdf_pair] writes at most one output file, holding these rows
    for the resolved period. *)
Theorem canonical_record_shape :
  List.length Config.FINAL_CSV_COLUMNS = 20%nat /\
  NoDup Config.FINAL_CSV_COLUMNS /\
  (forall final date, exists captions values,
     csv_rows final date =
       [ "Date" :: Config.FINAL_CSV_COLUMNS; "" :: captions; date :: values ] /\
     List.length captions = 20%nat /\ List.length values = 20%nat /\
     forall i col, nth_error Config.FINAL_CSV_COLUMNS i = Some col ->
                   nth_error values i = Some (get_str col final)) /\
  (forall b p hint w fs,
     let run := process_pdf_pair b p hint w fs in
     csv_artifacts (events run) = [] \/
     exists final y m,
       value (resolve_period b p hint w fs) = Some (y, m) /\
       csv_artifacts (events run) =
         [(output_name hint, csv_rows final (period_string y m))]).
Proof.
  split; [reflexivity |]. split; [apply nodup_columns |]. split.
  - intros final date. unfold csv_rows. eexists. eexists.
    split; [reflexivity |]. split; [reflexivity |]. split; [reflexivity |].
    intros i col Hi. rewrite nth_error_map, Hi. reflexivity.
  - intros b p hint w fs run.
    pose proof (process_pdf_pair_run b p hint w fs) as Hrun. cbv zeta in Hrun.
    fold run in Hrun. clearbody run.
    destruct (value (resolve_period b p hint w fs)) as [[y m] |] eqn:Hres;
      [| left; apply Hrun].
    destruct Hrun as [_ He].
    pose proof (process_with_period_run b p hint y m w fs) as Hp. cbv zeta in Hp.
    destruct (value (parse_monthly_brokerage_data b y m w fs)) as [e | d].
    { left. rewrite He. apply Hp. }
    destruct Hp as [_ Hpe]. rewrite He, Hpe.
    match goal with
    | |- context [write_record d ?press hint y m w ?fs'] =>
        pose proof (write_record_run d press hint y m w fs') as Hw
    end.
    cbv zeta in Hw.
    destruct (csv_error w (output_name hint)).
    + left. apply Hw.
    + right. eexists. exists y, m. split; [reflexivity |]. apply Hw.
Qed.

(** *** The period hint *)

Lemma six_digit_prefix (prefix : string) :
  String.length prefix = 6%nat -> Py.isdigit prefix = true ->
  usable_prefix (Some prefix) = Some prefix /\
  Py.nonempty (Py.take 4 prefix) = true /\
  exists v, Py.int (Py.drop 4 prefix) = Some v /\ 0 <= v <= 99 /\
            (v = 0 -> Py.drop 4 prefix = "00").
Proof.
  intros Hl Hd.
  destruct prefix as [| c1 [| c2 [| c3 [| c4 [| c5 [| c6 [| c7 r]]]]]]]; try discriminate Hl.
  split; [| split].
  - unfold usable_prefix. rewrite Hd. reflexivity.
  - reflexivity.
  - cbn [Py.isdigit Py.all_digits] in Hd.
    repeat (apply andb_true_iff in Hd as [? Hd]).
    cbn [Py.drop]. apply two_digit_int; assumption.
Qed.

Lemma brokerage_fallback_opens (b : string) (ty : option string) (tm : option Z)
  (w : World) (fs : Files) :
  exists rest, events (brokerage_fallback b ty tm w fs) = OpenPdf b :: rest.
Proof. unfold brokerage_fallback. rewrite events_bind. eexists. reflexivity. Qed.

Lemma resolve_period_falls_back (b p : string) (hint : option string)
  (w : World) (fs : Files) :
  match usable_prefix hint with
  | Some q => snd (period_of_prefix q) = 0
  | None => True
  end ->
  exists first rest,
    events (resolve_period b p hint w fs) =
      first :: Log INFO "Attempting fallback date extraction from PDF content..."
            :: OpenPdf b :: rest.
Proof.
  intros H. unfold resolve_period.
  destruct (usable_prefix hint) as [q |].
  - destruct (period_of_prefix q) as [ty tm]. cbn [snd] in H. subst tm.
    autorewrite with io.
    replace (period_missing (Some ty) (Some 0)) with true
      by (unfold period_missing; cbn; rewrite orb_true_r; reflexivity).
    autorewrite with io.
    destruct (brokerage_fallback_opens b (Some ty) (Some 0) w fs) as (rest & ->).
    eexists. eexists. reflexivity.
  - autorewrite with io. cbn [period_missing year_set negb orb].
    autorewrite with io.
    destruct (brokerage_fallback_opens b None None w fs) as (rest & ->).
    eexists. eexists. reflexivity.
Qed.

Lemma resolve_period_direct (b p : string) (q ty : string) (tm : Z)
  (w : World) (fs : Files) :
  period_of_prefix q = (ty, tm) -> Py.nonempty ty = true -> tm <> 0 ->
  forall hint, usable_prefix hint = Some q ->
  resolve_period b p hint w fs =
    mkRun (Some (ty, tm)) fs
          [Log INFO ("Using date from filename: " ++ period_string ty tm)].
Proof.
  intros Hq Hy Hm hint Hu. unfold resolve_period. rewrite Hu, Hq.
  assert (E : period_missing (Some ty) (Some tm) = false).
  { unfold period_missing, year_set, num_set. rewrite Hy.
    destruct (Z.eqb_spec tm 0); [contradiction | reflexivity]. }
  unfold bind. cbn [log emit ret value files events]. rewrite E.
  cbn [ret value files events]. rewrite E. reflexivity.
Qed.

(** C4 (amended). A hint that is present, of exactly six digits and whose
    month digits are not 00 is used as it stands: the resolver returns that
    (year, month) and its only event is the log line, so no document is
    opened; the ranges 2015..2030 and 1..12 are not checked here. Content
    inference is triggered, the brokerage document being opened first, for
    a hint that is absent, not of exactly six digits, or with month digits
    00. *)
Theorem hint_used_iff_six_digits_with_nonzero_month
  (w : World) (fs : Files) (b p : string) (hint : option string) :
  (forall prefix,
     hint = Some prefix -> String.length prefix = 6%nat ->
     Py.isdigit prefix = true -> Py.drop 4 prefix <> "00" ->
     exists month,
       Py.int (Py.drop 4 prefix) = Some month /\ 1 <= month <= 99 /\
       resolve_period b p hint w fs =
         mkRun (Some (Py.take 4 prefix, month)) fs
               [Log INFO ("Using date from filename: " ++
                          period_string (Py.take 4 prefix) month)]) /\
  ((hint = None \/
    exists prefix, hint = Some prefix /\
      (String.length prefix <> 6%nat \/ Py.isdigit prefix = false \/
       Py.drop 4 prefix = "00")) ->
   exists first rest,
     events (resolve_period b p hint w fs) =
       first :: Log INFO "Attempting fallback date extraction from PDF content..."
             :: OpenPdf b :: rest).
Proof.
  split.
  - intros prefix -> Hl Hd H00.
    destruct (six_digit_prefix prefix Hl Hd) as (Hu & Hy & v & Hv & Hr & Hz).
    exists v. split; [exact Hv |]. split; [assert (v <> 0) by tauto; lia |].
    apply (resolve_period_direct b p prefix); try assumption.
    + unfold period_of_prefix. rewrite Hv. reflexivity.
    + tauto.
  - intros H. apply resolve_period_falls_back.
    destruct H as [-> | (prefix & -> & H)]; [exact I |].
    unfold usable_prefix.
    destruct (Py.nonempty prefix); [| exact I].
    destruct (Nat.eqb_spec (String.length prefix) 6) as [Hl | Hl]; [| exact I].
    destruct (Py.isdigit prefix) eqn:Hd; [| exact I].
    cbn [andb]. destruct H as [H | [H | H]]; [contradiction | discriminate |].
    unfold period_of_prefix. rewrite H. reflexivity.
Qed.

(** *** The narrative engine *)

Lemma press_step_value (name text : string) (data : gmap string (gmap string string))
  (product : string) (r : Re.regex) (w : World) (fs : Files) :
  value (press_step name text data (product, r) w fs) =
    match data !! product with
    | Some _ => data
    | None =>
        match Re.search r text with
        | Some (_, c) => <[product := entry_of_match name c]> data
        | None => data
        end
    end.
Proof.
  unfold press_step. destruct (data !! product); [reflexivity |].
  destruct (Re.search r text) as [[rest c] |]; reflexivity.
Qed.

Lemma press_step_files (name text : string) (data : gmap string (gmap string string))
  (pp : string * Re.regex) (w : World) (fs : Files) :
  files (press_step name text data pp w fs) = fs.
Proof.
  unfold press_step. destruct pp as [product r]. destruct (data !! product); [reflexivity |].
  destruct (Re.search r text) as [[rest c] |]; reflexivity.
Qed.

Lemma pass_lookup (name text : string) (pats : list (string * Re.regex))
  (data : gmap string (gmap string string)) (product : string) (w : World) (fs : Files) :
  NoDup (map fst pats) ->
  value (foldM (press_step name text) pats data w fs) !! product =
    match data !! product with
    | Some e => Some e
    | None => pass_result name text pats product
    end.
Proof.
  revert data fs. induction pats as [| [q r] pats IH]; intros data fs Hnd.
  - cbn. destruct (data !! product); reflexivity.
  - cbn [foldM]. rewrite value_bind, press_step_files, press_step_value.
    apply NoDup_cons in Hnd as [Hq Hnd]. rewrite IH by exact Hnd.
    unfold pass_result. cbn [assoc].
    destruct (String.eqb_spec q product) as [-> | Hne].
    + assert (Hp : assoc String.eqb product pats = None).
      { clear -Hq. induction pats as [| [q' r'] pats IH']; [reflexivity |].
        cbn [assoc]. cbn [map fst] in Hq.
        destruct (String.eqb_spec q' product) as [-> | _].
        - exfalso. apply Hq. left.
        - apply IH'. intros H. apply Hq. right. exact H. }
      fold (pass_result name text pats product). unfold pass_result. rewrite Hp.
      destruct (data !! product) as [e |] eqn:Ed; [rewrite Ed; reflexivity |].
      destruct (Re.search r text) as [[rest c] |].
      * rewrite lookup_insert_eq. reflexivity.
      * rewrite Ed. reflexivity.
    + destruct (data !! q) as [e |] eqn:Eq; [reflexivity |].
      destruct (Re.search r text) as [[rest c] |]; [| reflexivity].
      rewrite lookup_insert_ne by exact Hne. reflexivity.
Qed.

Lemma foldM_files_press (name text : string) (pats : list (string * Re.regex))
  (data : gmap string (gmap string string)) (w : World) (fs : Files) :
  files (foldM (press_step name text) pats data w fs) = fs.
Proof.
  revert data fs. induction pats as [| pp pats IH]; intros data fs; [reflexivity |].
  cbn [foldM]. rewrite files_bind, IH. apply press_step_files.
Qed.

Lemma extract_products_lookup (text product : string) (w : World) (fs : Files) :
  value (extract_products text w fs) !! product =
    match pass_result "primary" text Patterns.primary_patterns product with
    | Some e => Some e
    | None => pass_result "backup" text Patterns.backup_patterns product
    end.
Proof.
  unfold extract_products. cbn [foldM].
  autorewrite with io. rewrite ?foldM_files_press.
  rewrite pass_lookup by (apply (bool_decide_unpack _); vm_compute; exact I).
  rewrite pass_lookup by (apply (bool_decide_unpack _); vm_compute; exact I).
  rewrite lookup_empty. reflexivity.
Qed.



(** C10. A month number outside 1..12, or a year outside 2015..2030,
    makes [parse_monthly_brokerage_data] return an error result at once:
    the run causes no event at all (no file is read, no document opened,
    no strategy announced) and leaves the file system as it was. *)
Theorem out_of_range_period_rejected_before_any_io
  (w : World) (fs : Files) (pdf_path target_year : string) (target_month_num : Z) :
  (target_month_num < 1 \/ 12 < target_month_num \/
   exists y, Py.int target_year = Some y /\ (y < 2015 \/ 2030 < y)) ->
  exists msg,
    parse_monthly_brokerage_data pdf_path target_year target_month_num w fs
      = mkRun (Error msg) fs [] /\
    (msg = "Invalid target month number: " ++ Py.str_of_Z target_month_num \/
     msg = "Year must be between 2015 and 2030").
Proof.
  intros H. unfold parse_monthly_brokerage_data.
  destruct (Z.ltb_spec target_month_num 1) as [Hlo | Hlo].
  { rewrite month_mapping_outside by lia. eexists; split; [reflexivity | tauto]. }
  destruct (Z.ltb_spec 12 target_month_num) as [Hhi | Hhi].
  { rewrite month_mapping_outside by lia. eexists; split; [reflexivity | tauto]. }
  destruct H as [H | [H | (y & Hy & Hr)]]; try lia.
  destruct (month_mapping_inside target_month_num) as (abbr & -> & _); [lia |].
  rewrite (validate_rejects_year _ y _ Hy Hr).
  eexists; split; [reflexivity | tauto].
Qed.

End EngineProperties.

(* ===================================================================== *)
(** ** Further properties of the code                                    *)
(* ===================================================================== *)

(** *** Texts and what a pattern consumes *)

Lemma all_chars_app (p : ascii -> bool) (s t : string) :
  all_chars p (s ++ t) = all_chars p s && all_chars p t.
Proof.
  induction s as [| a s IH]; [reflexivity |].
  simpl. rewrite IH. apply andb_assoc.
Qed.

Lemma all_chars_weaken (p q : ascii -> bool) (s : string) :
  (forall a, p a = true -> q a = true) ->
  all_chars p s = true -> all_chars q s = true.
Proof.
  intros H. induction s as [| a s IH]; [reflexivity |].
  cbn [all_chars]. rewrite !andb_true_iff. intros [Ha Hs]. split; auto.
Qed.

Lemma take_app_length (u s : string) : Py.take (String.length u) (u ++ s) = u.
Proof.
  unfold Py.take. induction u as [| a u IH].
  - destruct s; reflexivity.
  - simpl. rewrite IH. reflexivity.
Qed.

Lemma append_length (u s : string) :
  String.length (u ++ s) = (String.length u + String.length s)%nat.
Proof.
  induction u as [| a u IH]; [reflexivity |].
  change (S (String.length (u ++ s)) = S (String.length u + String.length s)).
  rewrite IH. reflexivity.
Qed.

Lemma append_assoc (a b c : string) : (a ++ b) ++ c = a ++ (b ++ c).
Proof.
  induction a as [| x a IH]; [reflexivity |].
  change (String x ((a ++ b) ++ c) = String x (a ++ (b ++ c))).
  rewrite IH. reflexivity.
Qed.

Section RegexShape.
Import Re Shape.
Variable Q : nat -> string -> Prop.

Ltac give u s new :=
  exists u, s, new;
  split; [| split; [| split; [| split; [| split; [| split]]]]].

Lemma consumed_nothing (r : regex) (s : string) (c : caps) (k : cont) (o : outcome) :
  (forall l, fixed_len r = Some l -> l = 0%nat) ->
  (forall n, sure r n = false) ->
  (ends_at_eol r = true -> s = "" \/ s = String Py.LF "") ->
  k s c = Some o -> consumed Q r s c k o.
Proof.
  intros Hl Hs He Hk. give "" s (@nil (nat * string)).
  - reflexivity.
  - reflexivity.
  - intros l E. cbn. symmetry. apply Hl. exact E.
  - constructor.
  - intros n E. rewrite Hs in E. discriminate.
  - exact He.
  - exact Hk.
Qed.

Lemma rmatch_consumed (r : regex) :
  groups_ok Q r ->
  forall s c k o, rmatch r s c k = Some o -> consumed Q r s c k o.
Proof.
  induction r as [| p | r1 IH1 r2 IH2 | r1 IH1 | r1 IH1 | r1 IH1 | n r1 IH1 |];
    intros HG s c k o H.
  - (* Eps *)
    apply consumed_nothing; cbn; try congruence; auto.
  - (* Chr *)
    cbn [rmatch] in H. destruct s as [| a s']; [discriminate |].
    destruct (p a) eqn:Hp; [| discriminate].
    give (String a "") s' (@nil (nat * string)).
    + reflexivity.
    + cbn. rewrite Hp. reflexivity.
    + intros l E. injection E as <-. reflexivity.
    + constructor.
    + intros n E. discriminate E.
    + intros E. discriminate E.
    + exact H.
  - (* Seq *)
    destruct HG as [HG1 HG2]. cbn [rmatch] in H.
    destruct (IH1 HG1 _ _ _ _ H) as (u1 & s1 & new1 & -> & Hc1 & Hl1 & Hq1 & Hs1 & _ & H1).
    destruct (IH2 HG2 _ _ _ _ H1) as (u2 & s2 & new2 & -> & Hc2 & Hl2 & Hq2 & Hs2 & He2 & H2).
    give (u1 ++ u2) s2 (new2 ++ new1)%list.
    + symmetry. apply append_assoc.
    + rewrite all_chars_app. apply andb_true_iff. split.
      * apply (all_chars_weaken (chars r1)); [| exact Hc1].
        intros a Ha. cbn. rewrite Ha. reflexivity.
      * apply (all_chars_weaken (chars r2)); [| exact Hc2].
        intros a Ha. cbn. rewrite Ha. apply orb_true_r.
    + intros l. cbn [fixed_len].
      destruct (fixed_len r1) as [a |]; [| discriminate].
      destruct (fixed_len r2) as [b |]; [| discriminate].
      intros E. injection E as <-. rewrite append_length.
      rewrite (Hl1 a eq_refl), (Hl2 b eq_refl). reflexivity.
    + apply Forall_app. split; assumption.
    + intros n. cbn [sure]. intros E. apply orb_true_iff in E as [E | E].
      * destruct (Hs1 n E) as (g & Hg). exists g. apply in_or_app. right. exact Hg.
      * destruct (Hs2 n E) as (g & Hg). exists g. apply in_or_app. left. exact Hg.
    + exact He2.
    + rewrite <- app_assoc. exact H2.
  - (* Opt *)
    cbn [rmatch] in H. destruct (rmatch r1 s c k) as [o' |] eqn:E.
    + injection H as ->.
      destruct (IH1 HG _ _ _ _ E) as (u & s' & new & -> & Hc & _ & Hq & _ & _ & H1).
      give u s' new; try assumption; try discriminate; reflexivity.
    + apply consumed_nothing; cbn; try congruence; auto.
  - (* Star *)
    cbn [rmatch] in H. revert H.
    generalize (String.length s) at 1. intros fuel. revert s c.
    induction fuel as [| fuel IHf]; intros s c H.
    + apply consumed_nothing; cbn; try congruence; auto.
    + match type of H with
      | match ?m with _ => _ end = _ => destruct m as [o' |] eqn:E
      end.
      * injection H as ->.
        destruct (IH1 HG _ _ _ _ E) as (u & s' & new & -> & Hc & _ & Hq & _ & _ & H1).
        destruct (String.length s' <? String.length (u ++ s'))%nat; [| discriminate].
        destruct (IHf _ _ H1) as (u2 & s2 & new2 & -> & Hc2 & _ & Hq2 & _ & _ & H2).
        give (u ++ u2) s2 (new2 ++ new)%list; try discriminate.
        -- symmetry. apply append_assoc.
        -- rewrite all_chars_app. apply andb_true_iff. split; [exact Hc | exact Hc2].
        -- apply Forall_app. split; assumption.
        -- rewrite <- app_assoc. exact H2.
      * apply consumed_nothing; cbn; try congruence; auto.
  - (* StarLazy *)
    cbn [rmatch] in H. revert H.
    generalize (String.length s) at 1. intros fuel. revert s c.
    induction fuel as [| fuel IHf]; intros s c H.
    + destruct (k s c) as [o' |] eqn:E; [| discriminate].
      injection H as ->. apply consumed_nothing; cbn; try congruence; auto.
    + destruct (k s c) as [o' |] eqn:E.
      * injection H as ->. apply consumed_nothing; cbn; try congruence; auto.
      * destruct (IH1 HG _ _ _ _ H) as (u & s' & new & -> & Hc & _ & Hq & _ & _ & H1).
        destruct (String.length s' <? String.length (u ++ s'))%nat; [| discriminate].
        destruct (IHf _ _ H1) as (u2 & s2 & new2 & -> & Hc2 & _ & Hq2 & _ & _ & H2).
        give (u ++ u2) s2 (new2 ++ new)%list; try discriminate.
        -- symmetry. apply append_assoc.
        -- rewrite all_chars_app. apply andb_true_iff. split; [exact Hc | exact Hc2].
        -- apply Forall_app. split; assumption.
        -- rewrite <- app_assoc. exact H2.
  - (* Grp *)
    destruct HG as [HQ HG]. cbn [rmatch] in H.
    destruct (IH1 HG _ _ _ _ H) as (u & s' & new & -> & Hc & Hl & Hq & Hs & He & H1).
    rewrite append_length in H1.
    replace (String.length u + String.length s' - String.length s')%nat
      with (String.length u) in H1 by lia.
    rewrite take_app_length in H1.
    give u s' ((n, u) :: new); try assumption.
    + reflexivity.
    + constructor; [apply HQ; assumption | exact Hq].
    + intros m. cbn [sure]. intros E. apply orb_true_iff in E as [E | E].
      * apply Nat.eqb_eq in E. subst m. exists u. left. reflexivity.
      * destruct (Hs m E) as (g & Hg). exists g. right. exact Hg.
  - (* Eol *)
    cbn [rmatch] in H.
    assert (Hs : s = "" \/ s = String Py.LF "").
    { destruct s as [| a [| b s']]; [left; reflexivity | | discriminate].
      destruct (Ascii.eqb_spec a Py.LF) as [-> | _]; [right; reflexivity | discriminate]. }
    assert (Hk : k s c = Some o).
    { destruct Hs as [-> | ->]; [exact H |]. exact H. }
    apply consumed_nothing; cbn; try congruence; auto.
Qed.

(** The group [n] read after a match, when the match surely captures it. *)
Lemma group_of_new (n : nat) (new c : caps) :
  Forall (fun e => Q (fst e) (snd e)) new ->
  (exists g, In (n, g) new) ->
  Q n (group n (new ++ c)%list).
Proof.
  intros HF [g Hg]. induction new as [| [m x] new IH]; [destruct Hg |].
  cbn [group app]. inversion HF as [| ? ? Hx HF']; subst.
  destruct (Nat.eqb_spec m n) as [-> | Hne]; [exact Hx |].
  apply IH; [exact HF' |].
  destruct Hg as [E | Hg]; [injection E as -> _; contradiction | exact Hg].
Qed.

(** The group [n] read after a match that started without groups: a
    captured text, or the empty text of a group that took no part. *)
Lemma group_of_caps (n : nat) (c : caps) :
  Forall (fun e => Q (fst e) (snd e)) c ->
  Q n (group n c) \/ group n c = "".
Proof.
  intros HF. induction c as [| [m x] c IH]; [right; reflexivity |].
  cbn [group]. inversion HF as [| ? ? Hx HF']; subst.
  destruct (Nat.eqb m n) eqn:E; [| exact (IH HF')].
  apply Nat.eqb_eq in E. subst m. left. exact Hx.
Qed.

Lemma match_at_consumed (r : regex) (s rest : string) (c : caps) :
  groups_ok Q r -> match_at r s = Some (rest, c) ->
  exists u,
    s = u ++ rest /\
    all_chars (chars r) u = true /\
    (forall l, fixed_len r = Some l -> String.length u = l) /\
    Forall (fun e => Q (fst e) (snd e)) c /\
    (forall n, sure r n = true -> exists g, In (n, g) c) /\
    (ends_at_eol r = true -> rest = "" \/ rest = String Py.LF "").
Proof.
  intros HG H. unfold match_at in H.
  destruct (rmatch_consumed r HG _ _ _ _ H) as (u & s' & new & -> & Hc & Hl & Hq & Hs & He & H1).
  unfold accept in H1. injection H1 as <- <-. rewrite app_nil_r.
  exists u. repeat (split; [first [assumption | reflexivity] |]). assumption.
Qed.

Lemma search_groups (r : regex) (s rest : string) (c : caps) :
  groups_ok Q r -> search r s = Some (rest, c) ->
  Forall (fun e => Q (fst e) (snd e)) c /\
  (forall n, sure r n = true -> exists g, In (n, g) c).
Proof.
  intros HG. induction s as [| a s IH]; cbn [search].
  - destruct (match_at r "") as [[rest' c'] |] eqn:E; [| discriminate].
    intros H. injection H as <- <-.
    destruct (match_at_consumed _ _ _ _ HG E) as (u & _ & _ & _ & Hq & Hs & _). auto.
  - destruct (match_at r (String a s)) as [[rest' c'] |] eqn:E; [| exact IH].
    intros H. injection H as <- <-.
    destruct (match_at_consumed _ _ _ _ HG E) as (u & _ & _ & _ & Hq & Hs & _). auto.
Qed.

End RegexShape.

(** *** Stripping *)

Lemma append_cons (a : ascii) (s t : string) : String a s ++ t = String a (s ++ t).
Proof. reflexivity. Qed.

Lemma rstrip_spaces (t : string) :
  all_chars Py.is_space t = true -> Py.rstrip t = "".
Proof.
  induction t as [| a t IH]; [reflexivity |].
  cbn [all_chars Py.rstrip]. intros H. apply andb_true_iff in H as [Ha Ht].
  rewrite (IH Ht), Ha. reflexivity.
Qed.

Lemma lstrip_spaces (t : string) :
  all_chars Py.is_space t = true -> Py.lstrip t = "".
Proof.
  induction t as [| a t IH]; [reflexivity |].
  cbn [all_chars Py.lstrip]. intros H. apply andb_true_iff in H as [Ha Ht].
  rewrite Ha. exact (IH Ht).
Qed.

Lemma rstrip_app_spaces (u t : string) :
  all_chars (fun a => negb (Py.is_space a)) u = true ->
  all_chars Py.is_space t = true ->
  Py.rstrip (u ++ t) = u.
Proof.
  intros Hu Ht. induction u as [| a u IH]; [exact (rstrip_spaces t Ht) |].
  cbn [all_chars] in Hu. apply andb_true_iff in Hu as [Ha Hu].
  rewrite append_cons. cbn [Py.rstrip]. rewrite (IH Hu).
  apply negb_true_iff in Ha. rewrite Ha. destruct u; reflexivity.
Qed.

Lemma strip_app_spaces (u t : string) :
  all_chars (fun a => negb (Py.is_space a)) u = true ->
  all_chars Py.is_space t = true ->
  Py.strip (u ++ t) = u.
Proof.
  intros Hu Ht. unfold Py.strip. destruct u as [| a u].
  - change ("" ++ t) with t. rewrite (lstrip_spaces t Ht). reflexivity.
  - rewrite append_cons. cbn [Py.lstrip].
    pose proof Hu as Hu'. cbn [all_chars] in Hu'.
    apply andb_true_iff in Hu' as [Ha _]. apply negb_true_iff in Ha. rewrite Ha.
    rewrite <- append_cons. apply rstrip_app_spaces; assumption.
Qed.

Lemma rstrip_cons (a : ascii) (s : string) :
  Py.rstrip (String a s) =
  match Py.rstrip s with
  | EmptyString => if Py.is_space a then EmptyString else String a EmptyString
  | String b t => String a (String b t)
  end.
Proof. reflexivity. Qed.

Lemma rstrip_idem (s : string) : Py.rstrip (Py.rstrip s) = Py.rstrip s.
Proof.
  induction s as [| a s IH]; [reflexivity |].
  rewrite (rstrip_cons a s). destruct (Py.rstrip s) as [| b r] eqn:E.
  - destruct (Py.is_space a) eqn:Ha; [reflexivity |].
    rewrite rstrip_cons. cbn [Py.rstrip]. rewrite Ha. reflexivity.
  - rewrite rstrip_cons, IH. reflexivity.
Qed.

Lemma lstrip_shape (s : string) :
  Py.lstrip s = "" \/
  exists a t, Py.lstrip s = String a t /\ Py.is_space a = false.
Proof.
  induction s as [| a s IH]; [left; reflexivity |].
  cbn [Py.lstrip]. destruct (Py.is_space a) eqn:Ha; [exact IH |].
  right. exists a, s. split; [reflexivity | exact Ha].
Qed.

Lemma rstrip_head (a : ascii) (s : string) :
  Py.is_space a = false -> exists t, Py.rstrip (String a s) = String a t.
Proof.
  intros Ha. cbn [Py.rstrip]. rewrite Ha. destruct (Py.rstrip s); eauto.
Qed.

Lemma strip_idem (s : string) : Py.strip (Py.strip s) = Py.strip s.
Proof.
  unfold Py.strip. destruct (lstrip_shape s) as [E | (a & t & E & Ha)]; rewrite E.
  - reflexivity.
  - destruct (rstrip_head a t Ha) as (t' & E').
    rewrite E' at 1. cbn [Py.lstrip]. rewrite Ha. rewrite <- E'. apply rstrip_idem.
Qed.

(** *** Removing a character *)

Lemma remove_char_app (c : ascii) (u t : string) :
  Py.remove_char c (u ++ t) = Py.remove_char c u ++ Py.remove_char c t.
Proof.
  induction u as [| a u IH]; [reflexivity |].
  rewrite append_cons. cbn [Py.remove_char].
  destruct (Ascii.eqb a c); [exact IH |]. rewrite append_cons, IH. reflexivity.
Qed.

Lemma all_chars_remove (p : ascii -> bool) (c : ascii) (s : string) :
  all_chars (fun a => p a || Ascii.eqb a c) s = true ->
  all_chars p (Py.remove_char c s) = true.
Proof.
  induction s as [| a s IH]; [reflexivity |].
  cbn [all_chars Py.remove_char]. intros H. apply andb_true_iff in H as [Ha Hs].
  destruct (Ascii.eqb a c); [exact (IH Hs) |].
  cbn [all_chars]. rewrite orb_false_r in Ha. rewrite Ha. exact (IH Hs).
Qed.

Lemma all_chars_remove_sub (p : ascii -> bool) (c : ascii) (s : string) :
  all_chars p s = true -> all_chars p (Py.remove_char c s) = true.
Proof.
  intros H. apply all_chars_remove.
  apply (all_chars_weaken p); [| exact H]. intros a Ha. rewrite Ha. reflexivity.
Qed.

Lemma remove_char_keep (c : ascii) (s : string) :
  Py.contains (String c "") s = false -> Py.remove_char c s = s.
Proof.
  induction s as [| a s IH]; [reflexivity |].
  rewrite contains_char_cons. intros H. apply orb_false_iff in H as [Ha Hs].
  cbn [Py.remove_char]. rewrite Ascii.eqb_sym, Ha, (IH Hs). reflexivity.
Qed.

Lemma remove_char_other (c d : ascii) (s : string) :
  Py.contains (String c "") s = false ->
  Py.contains (String c "") (Py.remove_char d s) = false.
Proof.
  induction s as [| a s IH]; [reflexivity |].
  rewrite contains_char_cons. intros H. apply orb_false_iff in H as [Ha Hs].
  cbn [Py.remove_char]. destruct (Ascii.eqb a d); [exact (IH Hs) |].
  rewrite contains_char_cons, Ha. exact (IH Hs).
Qed.

(** *** Cleaned values *)

Lemma clean_free_of_signs (s : string) :
  Py.contains "$" (clean_numeric_value s) = false /\
  Py.contains "," (clean_numeric_value s) = false.
Proof.
  unfold clean_numeric_value. destruct (negb (Py.nonempty s)); [split; reflexivity |].
  split.
  - apply strip_absent, remove_char_other, remove_char_absent.
  - apply strip_absent, remove_char_absent.
Qed.

Lemma clean_stripped (s : string) :
  Py.strip (clean_numeric_value s) = clean_numeric_value s.
Proof.
  unfold clean_numeric_value. destruct (negb (Py.nonempty s)); [reflexivity |].
  apply strip_idem.
Qed.

(** X1. [clean_numeric_value] is a normaliser: its result holds no currency
    sign and no grouping comma, has no white space at either end, and is
    left unchanged by a second cleaning. *)
Theorem clean_numeric_value_is_idempotent (value_str : string) :
  let v := clean_numeric_value value_str in
  Py.contains "$" v = false /\ Py.contains "," v = false /\
  Py.strip v = v /\ clean_numeric_value v = v.
Proof.
  intros v. destruct (clean_free_of_signs value_str) as [Hd Hc]. fold v in Hd, Hc.
  pose proof (clean_stripped value_str) as Hs. fold v in Hs.
  repeat split; try assumption.
  clearbody v. unfold clean_numeric_value.
  destruct v as [| a v']; [reflexivity |]. cbn [Py.nonempty negb].
  rewrite (remove_char_keep "$" _ Hd), (remove_char_keep "," _ Hc). exact Hs.
Qed.

Lemma numeric_not_space (a : ascii) :
  numeric_char a = true -> negb (Py.is_space a) = true.
Proof.
  destruct a as [[] [] [] [] [] [] [] []]; intros H;
    first [discriminate H | reflexivity].
Qed.

Lemma clean_shape (u t : string) :
  all_chars money_char u = true -> all_chars Py.is_space t = true ->
  all_chars numeric_char (clean_numeric_value (u ++ t)) = true.
Proof.
  intros Hu Ht. unfold clean_numeric_value.
  destruct (negb (Py.nonempty (u ++ t))); [reflexivity |].
  rewrite !remove_char_app.
  assert (Hn : all_chars numeric_char (Py.remove_char "," (Py.remove_char "$" u)) = true).
  { apply all_chars_remove, all_chars_remove. exact Hu. }
  rewrite strip_app_spaces; [exact Hn | |].
  - apply (all_chars_weaken numeric_char); [apply numeric_not_space | exact Hn].
  - apply all_chars_remove_sub, all_chars_remove_sub. exact Ht.
Qed.

Lemma rest_is_space (rest : string) :
  rest = "" \/ rest = String Py.LF "" -> all_chars Py.is_space rest = true.
Proof. intros [-> | ->]; reflexivity. Qed.

Lemma token_chars (a : ascii) :
  Shape.chars Patterns.numeric_token a = true -> money_char a = true.
Proof.
  destruct a as [[] [] [] [] [] [] [] []]; intros H;
    first [discriminate H | reflexivity].
Qed.

Lemma pattern_chars (a : ascii) :
  Shape.chars Patterns.numeric_pattern a = true -> money_char a = true.
Proof.
  destruct a as [[] [] [] [] [] [] [] []]; intros H;
    first [discriminate H | reflexivity].
Qed.

Lemma plain_chars (a : ascii) :
  Shape.chars Patterns.plain_number a = true -> numeric_char a = true.
Proof.
  destruct a as [[] [] [] [] [] [] [] []]; intros H;
    first [discriminate H | reflexivity].
Qed.

Lemma money_of_numeric (a : ascii) : numeric_char a = true -> money_char a = true.
Proof. unfold money_char. intros ->. reflexivity. Qed.

(** A token accepted by one of the two money patterns, cleaned. *)
Lemma matched_token_clean (r : Re.regex) (token : string) :
  Shape.groups_ok (fun _ _ => True) r ->
  Shape.ends_at_eol r = true ->
  (forall a, Shape.chars r a = true -> money_char a = true) ->
  Re.matches r token = true ->
  all_chars numeric_char (clean_numeric_value token) = true /\
  all_chars numeric_char
    (clean_numeric_value (Py.remove_char "," (Py.remove_char "$" token))) = true.
Proof.
  intros HG He Hc H. unfold Re.matches in H.
  destruct (Re.match_at r token) as [[rest c] |] eqn:E; [| discriminate].
  destruct (match_at_consumed _ _ _ _ _ HG E) as (u & -> & Hu & _ & _ & _ & Hr).
  pose proof (rest_is_space _ (Hr He)) as Hrest.
  pose proof (all_chars_weaken _ _ _ Hc Hu) as Hm.
  split; [apply clean_shape; assumption |].
  rewrite !remove_char_app. apply clean_shape.
  - apply (all_chars_weaken numeric_char); [apply money_of_numeric |].
    apply all_chars_remove, all_chars_remove. exact Hm.
  - apply all_chars_remove_sub, all_chars_remove_sub. exact Hrest.
Qed.

Lemma value_at_numeric (idx : nat) (line v : string) :
  value_at idx line = Some v -> numeric_value v.
Proof.
  unfold value_at, numeric_parts_of. cbv zeta.
  destruct (nth_error _ idx) as [part |] eqn:E; [| discriminate].
  destruct (Py.nonempty (clean_numeric_value part)) eqn:En; [| discriminate].
  intros H. injection H as <-. split; [apply nonempty_true; exact En |].
  apply nth_error_In in E. apply in_map_iff in E as (token & <- & Hin).
  apply filter_In in Hin as [_ Hm].
  apply (matched_token_clean Patterns.numeric_token); try exact Hm.
  - cbn. tauto.
  - reflexivity.
  - apply token_chars.
Qed.

(** *** Invariants of the three strategies *)

Lemma fold_left_invariant {A B} (P : A -> Prop) (f : A -> B -> A) (l : list B) (a : A) :
  (forall acc x, In x l -> P acc -> P (f acc x)) -> P a -> P (fold_left f l a).
Proof.
  revert a. induction l as [| x l IH]; intros a Hf Ha; [exact Ha |].
  simpl. apply IH.
  - intros acc y Hy. apply Hf. right. exact Hy.
  - apply Hf; [left; reflexivity | exact Ha].
Qed.

Lemma known_empty : known_metrics ∅.
Proof. intros name v H. rewrite lookup_empty in H. discriminate. Qed.

Lemma known_insert (d : gmap string string) (name v : string) :
  In name metric_source_names -> numeric_value v -> known_metrics d ->
  known_metrics (<[name := v]> d).
Proof.
  intros Hn Hv Hd k x. destruct (decide (name = k)) as [<- | Hne].
  - rewrite lookup_insert_eq. intros E. injection E as <-. split; assumption.
  - rewrite lookup_insert_ne by exact Hne. apply Hd.
Qed.

Lemma known_store (d : gmap string string) (name line : string) (idx : nat) :
  In name metric_source_names -> known_metrics d ->
  known_metrics (store name (value_at idx line) d).
Proof.
  intros Hn Hd. unfold store. destruct (value_at idx line) as [v |] eqn:E; [| exact Hd].
  apply known_insert; [exact Hn | exact (value_at_numeric _ _ _ E) | exact Hd].
Qed.

Lemma metric_patterns_known (mp : string * Re.regex) :
  In mp Patterns.metric_patterns -> In (fst mp) metric_source_names.
Proof.
  unfold Patterns.metric_patterns. cbn [In]. intros H.
  repeat (destruct H as [<- | H]; [apply in_by_eqb; vm_compute; reflexivity |]).
  destruct H.
Qed.

Lemma text_line_step_known (lines : list string) (idx : nat)
  (d : gmap string string) (i : nat) :
  known_metrics d -> known_metrics (text_line_step lines idx d i).
Proof.
  intros Hd. unfold text_line_step. cbv zeta.
  destruct (negb (Py.nonempty _)); [exact Hd |].
  match goal with
  | |- known_metrics (if _ then store _ _ ?m else ?m) =>
      assert (Hm : known_metrics m)
  end.
  { apply fold_left_invariant; [| exact Hd].
    intros acc [name pattern] Hin Hacc.
    destruct (has_key name acc); [exact Hacc |].
    destruct (Re.found pattern _); [| exact Hacc].
    apply known_store; [exact (metric_patterns_known _ Hin) | exact Hacc]. }
  match goal with |- known_metrics (if ?b then _ else _) => destruct b end;
    [| exact Hm].
  apply known_store; [apply in_by_eqb; vm_compute; reflexivity | exact Hm].
Qed.

Section StrategyInvariants.
Context {FL : PyFloat}.

Lemma coordinate_row_step_known (lo hi : float) (d : gmap string string)
  (row : Z * list Word) :
  known_metrics d -> known_metrics (coordinate_row_step lo hi d row).
Proof.
  intros Hd. unfold coordinate_row_step. cbv zeta.
  apply fold_left_invariant; [| exact Hd].
  intros acc name Hin Hacc.
  destruct (shares_significant_word _ _); [| exact Hacc].
  destruct (List.filter _ _) as [| w ws] eqn:E; [exact Hacc |].
  destruct (Py.nonempty (clean_numeric_value (w_text w))) eqn:En; [| exact Hacc].
  apply known_insert; [exact Hin | | exact Hacc].
  split; [apply nonempty_true; exact En |].
  assert (Hw : In w (w :: ws)) by (left; reflexivity).
  rewrite <- E in Hw. apply filter_In in Hw as [_ Hw].
  apply andb_true_iff in Hw as [Hw _]. apply andb_true_iff in Hw as [Hw _].
  apply (matched_token_clean Patterns.numeric_pattern); try exact Hw.
  - cbn. tauto.
  - reflexivity.
  - apply pattern_chars.
Qed.

Lemma table_row_step_known (col : nat) (d : gmap string string)
  (row : list (option string)) :
  known_metrics d -> known_metrics (table_row_step col d row).
Proof.
  intros Hd. unfold table_row_step. cbv zeta.
  destruct (List.length row <=? col)%nat; [exact Hd |].
  destruct (negb _ || negb _); [exact Hd |].
  apply fold_left_invariant; [| exact Hd].
  intros acc name Hin Hacc.
  destruct (existsb _ _); [| exact Hacc].
  match goal with
  | |- context [clean_numeric_value ?cell] => set (v := clean_numeric_value cell)
  end.
  destruct (Py.nonempty v && Re.matches Patterns.plain_number v) eqn:E; [| exact Hacc].
  apply andb_true_iff in E as [En Em].
  apply known_insert; [exact Hin | | exact Hacc].
  split; [apply nonempty_true; exact En |].
  unfold Re.matches in Em.
  destruct (Re.match_at Patterns.plain_number v) as [[rest c] |] eqn:Ea; [| discriminate].
  assert (HG : Shape.groups_ok (fun _ _ => True) Patterns.plain_number) by (cbn; tauto).
  destruct (match_at_consumed _ _ _ _ _ HG Ea) as (u & Hv & Hu & _ & _ & _ & Hr).
  pose proof (all_chars_weaken _ _ _ plain_chars Hu) as Hnum.
  assert (Hs : Py.strip v = u).
  { rewrite Hv. apply strip_app_spaces.
    - apply (all_chars_weaken numeric_char); [apply numeric_not_space | exact Hnum].
    - apply rest_is_space, Hr. reflexivity. }
  unfold v in Hs. rewrite clean_stripped in Hs. fold v in Hs. rewrite Hs. exact Hnum.
Qed.

Lemma table_step_known (abbr : string) (d : gmap string string) (table : Table) :
  known_metrics d -> known_metrics (table_step abbr d table).
Proof.
  intros Hd. unfold table_step.
  destruct (List.length table <? 2)%nat; [exact Hd |].
  destruct (find_index is_header_row table); [| exact Hd].
  destruct (target_column _ _); [| exact Hd].
  apply fold_left_invariant; [| exact Hd].
  intros acc row _. apply table_row_step_known.
Qed.

Lemma text_strategy_known (pdf : Pdf) (year abbr : string) (d : gmap string string) :
  _parse_using_text_extraction pdf year abbr = Data d -> known_metrics d.
Proof.
  unfold _parse_using_text_extraction. cbv zeta.
  destruct (negb (Py.nonempty _)); [discriminate |].
  destruct (negb (Py.contains _ _)); [discriminate |].
  destruct (find_index _ _); [| discriminate].
  destruct (negb (existsb _ _)); [discriminate |].
  destruct (assoc _ _ _); [| discriminate].
  intros H. injection H as <-.
  apply fold_left_invariant; [| apply known_empty].
  intros acc i _. apply text_line_step_known.
Qed.

Lemma coordinate_strategy_known (pdf : Pdf) (year abbr : string) (d : gmap string string) :
  _parse_using_coordinates pdf year abbr = Data d -> known_metrics d.
Proof.
  unfold _parse_using_coordinates.
  destruct (pages pdf) as [| page rest]; [discriminate |].
  destruct (extract_words page); [discriminate |].
  destruct (List.find _ _); [| discriminate].
  cbv zeta.
  match goal with |- context [(List.length ?l <? 3)%nat] => destruct (List.length l <? 3)%nat end;
    [discriminate |].
  destruct (column_bounds _ _) as [lo hi].
  destruct (start_is_unset lo); [discriminate |].
  destruct lo as [lo |]; [| discriminate].
  destruct (group_rows _ _) as [rows |]; [| discriminate].
  intros H. injection H as <-.
  apply fold_left_invariant; [| apply known_empty].
  intros acc row _. apply coordinate_row_step_known.
Qed.

Lemma table_strategy_known (pdf : Pdf) (year abbr : string) (d : gmap string string) :
  _parse_using_table_extraction pdf year abbr = Data d -> known_metrics d.
Proof.
  unfold _parse_using_table_extraction.
  destruct (pages pdf) as [| page rest]; [discriminate |].
  destruct (extract_tables page) as [| t ts]; [discriminate |].
  intros H. injection H as <-.
  change (known_metrics (fold_left (table_step abbr) (t :: ts) ∅)).
  apply fold_left_invariant; [| apply known_empty].
  intros acc table _. apply table_step_known.
Qed.

Lemma known_size (d : gmap string string) :
  known_metrics d -> (size d <= 14)%nat.
Proof.
  intros Hd. rewrite <- size_dom.
  change 14%nat with (List.length metric_source_names).
  assert (Hsub : dom d ⊆ (list_to_set metric_source_names : gset string)).
  { intros k Hk. apply elem_of_dom in Hk as [v Hv].
    apply elem_of_list_to_set. apply list_elem_of_In. apply (Hd k v Hv). }
  apply subseteq_size in Hsub. etransitivity; [exact Hsub |].
  rewrite size_list_to_set; [reflexivity |].
  apply (bool_decide_unpack _). vm_compute. exact I.
Qed.

Lemma strategy_data_known (pdf : Pdf) (year abbr : string) (d : gmap string string) :
  _parse_using_text_extraction pdf year abbr = Data d \/
  _parse_using_coordinates pdf year abbr = Data d \/
  _parse_using_table_extraction pdf year abbr = Data d ->
  known_metrics d.
Proof.
  intros [H | [H | H]].
  - exact (text_strategy_known _ _ _ _ H).
  - exact (coordinate_strategy_known _ _ _ _ H).
  - exact (table_strategy_known _ _ _ _ H).
Qed.

(** X2. Whatever document a tabular strategy is given, a result that is
    not an error maps only metrics of the mapping table (so at most 14 of
    them), each to a cleaned number: a non-empty text of decimal digits and
    points. *)
Theorem strategy_results_hold_known_numeric_metrics
  (pdf : Pdf) (year abbr : string) (d : gmap string string) :
  _parse_using_text_extraction pdf year abbr = Data d \/
  _parse_using_coordinates pdf year abbr = Data d \/
  _parse_using_table_extraction pdf year abbr = Data d ->
  (size d <= 14)%nat /\
  forall name v, d !! name = Some v ->
    In name metric_source_names /\ v <> "" /\ all_chars numeric_char v = true.
Proof.
  intros H. pose proof (strategy_data_known pdf year abbr d H) as Hd.
  split; [exact (known_size d Hd) |].
  intros name v Hv. destruct (Hd name v Hv) as [Hn [Hne Hc]]. auto.
Qed.

End StrategyInvariants.

(** *** Month detection *)

Lemma months_with_data_shape (lines : list string) :
  months_with_data lines = [] \/
  exists n, (8 <= n)%nat /\ months_with_data lines = firstn n month_order.
Proof.
  induction lines as [| line lines IH]; [left; reflexivity |].
  cbn [months_with_data].
  destruct (existsb _ _); [exact IH |].
  destruct (negb (Py.any_digit line)); [exact IH |].
  cbv zeta.
  destruct (Nat.leb_spec 8 (List.length (Re.findall numeric_run line))); [| exact IH].
  right. eexists. split; [eassumption | reflexivity].
Qed.

Lemma latest_of_firstn (n : nat) :
  (8 <= n)%nat ->
  exists month i, last (firstn n month_order) = Some month /\
                  index_of month month_order = Some i /\ (7 <= i <= 11)%nat.
Proof.
  intros Hn.
  destruct (Nat.le_gt_cases 12 n) as [Hbig | Hsmall].
  - rewrite firstn_all2 by exact Hbig.
    exists "Dec", 11%nat. repeat split; try reflexivity; lia.
  - assert (Hc : (n = 8 \/ n = 9 \/ n = 10 \/ n = 11)%nat) by lia.
    destruct Hc as [-> | [-> | [-> | ->]]].
    + exists "Aug", 7%nat. repeat split; try reflexivity; lia.
    + exists "Sep", 8%nat. repeat split; try reflexivity; lia.
    + exists "Oct", 9%nat. repeat split; try reflexivity; lia.
    + exists "Nov", 10%nat. repeat split; try reflexivity; lia.
Qed.

(** X3. The month that [detect_latest_month_from_data] returns is never
    before August: a result needs a header line holding Jan, Feb, Mar and
    Aug, and a data line with at least eight numeric runs, whose count
    (capped at twelve) is the month returned. The year plays no part. *)
Theorem detected_month_is_august_or_later (text : string) (year month : Z) :
  detect_latest_month_from_data text year = Some month ->
  8 <= month <= 12 /\
  (exists line, In line (Py.split_on Py.LF text) /\
                has_first_three line = true /\ Py.contains "Aug" line = true) /\
  forall year', detect_latest_month_from_data text year' = Some month.
Proof.
  unfold detect_latest_month_from_data. cbv zeta.
  destruct (List.find _ _) as [header |] eqn:Ef; [| discriminate].
  destruct (months_with_data_shape (Py.split_on Py.LF text)) as [E | (n & Hn & E)];
    rewrite E; [discriminate |].
  destruct (latest_of_firstn n Hn) as (mo & i & -> & -> & Hi).
  intros H. injection H as <-. split; [lia |]. split; [| reflexivity].
  apply find_some in Ef as [Hin Hp]. apply andb_true_iff in Hp as [H3 Ha].
  exists header. auto.
Qed.

(** *** The text strategy keeps the first value of a metric *)

Lemma store_keeps (key : string) (value : option string) (d : gmap string string)
  (name v : string) :
  has_key key d = false -> d !! name = Some v -> store key value d !! name = Some v.
Proof.
  intros Hk Hd. unfold store. destruct value as [x |]; [| exact Hd].
  rewrite lookup_insert_ne; [exact Hd |].
  intros ->. unfold has_key in Hk. rewrite Hd in Hk. discriminate.
Qed.

Lemma text_line_step_keeps (lines : list string) (idx : nat) (d : gmap string string)
  (i : nat) (name v : string) :
  d !! name = Some v -> text_line_step lines idx d i !! name = Some v.
Proof.
  intros Hd. unfold text_line_step. cbv zeta.
  destruct (negb (Py.nonempty _)); [exact Hd |].
  match goal with
  | |- (if _ then store _ _ ?m else ?m) !! _ = _ =>
      assert (Hm : m !! name = Some v)
  end.
  { apply (fold_left_invariant (fun acc : gmap string string => acc !! name = Some v));
      [| exact Hd].
    intros acc [key pattern] _ Hacc.
    destruct (has_key key acc) eqn:Hk; [exact Hacc |].
    destruct (Re.found pattern _); [| exact Hacc].
    apply store_keeps; assumption. }
  match goal with
  | |- (if ?a && negb ?b then _ else _) !! _ = _ => destruct a; destruct b eqn:Hk
  end; cbn [andb negb]; try exact Hm.
  apply store_keeps; assumption.
Qed.

(** X4. In the text strategy the first value found for a metric stays:
    no later pattern and no later line overwrites an entry of the mapping
    under construction. *)
Theorem text_strategy_never_overwrites (lines : list string) (target_month_idx : nat)
  (line_indices : list nat) (extracted_data : gmap string string) (name v : string) :
  extracted_data !! name = Some v ->
  fold_left (text_line_step lines target_month_idx) line_indices extracted_data !! name
    = Some v.
Proof.
  intros H.
  apply (fold_left_invariant (fun acc : gmap string string => acc !! name = Some v));
    [| exact H].
  intros acc i _. apply text_line_step_keeps.
Qed.

(** *** The Java wrapper *)

Lemma find_prefix (sub s : string) (i : nat) :
  Py.find sub s = Some i -> String.prefix sub (Py.drop i s) = true.
Proof.
  revert i. induction s as [| a s IH]; intros i; cbn [Py.find].
  - destruct (String.prefix sub "") eqn:E; [| discriminate].
    intros H. injection H as <-. exact E.
  - destruct (String.prefix sub (String a s)) eqn:E.
    + intros H. injection H as <-. exact E.
    + destruct (Py.find sub s) as [j |]; [| discriminate].
      intros H. injection H as <-. cbn [Py.drop]. apply IH. reflexivity.
Qed.

Lemma rfind_prefix (sub s : string) (i : nat) :
  Py.rfind sub s = Some i ->
  String.prefix sub (Py.drop i s) = true /\ (i <= String.length s)%nat.
Proof.
  revert i. induction s as [| a s IH]; intros i; cbn [Py.rfind].
  - destruct (String.prefix sub "") eqn:E; [| discriminate].
    intros H. injection H as <-. split; [exact E | reflexivity].
  - destruct (Py.rfind sub s) as [j |].
    + intros H. injection H as <-. cbn [Py.drop String.length].
      destruct (IH j eq_refl) as [Hp Hl]. split; [exact Hp | lia].
    + destruct (String.prefix sub (String a s)) eqn:E; [| discriminate].
      intros H. injection H as <-. split; [exact E | cbn; lia].
Qed.

Lemma substring_drop (i n : nat) (s : string) :
  String.substring i n s = Py.take n (Py.drop i s).
Proof.
  revert s. induction i as [| i IH]; intros s; [reflexivity |].
  destruct s as [| a s]; [destruct n; reflexivity |].
  cbn [String.substring Py.drop]. apply IH.
Qed.

Lemma take_cons (n : nat) (a : ascii) (s : string) :
  Py.take (S n) (String a s) = String a (Py.take n s).
Proof. reflexivity. Qed.

Lemma prefix_cons (a b : ascii) (s t : string) :
  String.prefix (String a s) (String b t) = true -> a = b /\ String.prefix s t = true.
Proof.
  cbn [String.prefix]. destruct (Ascii.ascii_dec a b) as [-> | _]; [auto | discriminate].
Qed.

Lemma prefix_take (sub t : string) (n : nat) :
  String.prefix sub t = true -> (String.length sub <= n)%nat ->
  String.prefix sub (Py.take n t) = true.
Proof.
  revert t n. induction sub as [| a sub IH]; intros t n Hp Hn.
  - destruct (Py.take n t); reflexivity.
  - destruct t as [| b t]; [discriminate Hp |].
    apply prefix_cons in Hp as [<- Hp].
    destruct n as [| n]; [cbn in Hn; lia |].
    rewrite take_cons. cbn [String.prefix].
    destruct (Ascii.ascii_dec a a) as [_ | Hne]; [| contradiction].
    apply IH; [exact Hp | cbn in Hn; lia].
Qed.

(** The text from [i] on is the text between [i] and [e], then the text
    from [e] on. *)
Lemma drop_split (i e : nat) (s : string) :
  (i <= e <= String.length s)%nat ->
  exists u, Py.drop i s = u ++ Py.drop e s /\ String.length u = (e - i)%nat.
Proof.
  revert i e. induction s as [| a s IH]; intros i e H.
  - cbn in H. assert (i = 0%nat) as -> by lia. assert (e = 0%nat) as -> by lia.
    exists "". split; reflexivity.
  - destruct i as [| i].
    + destruct e as [| e]; [exists ""; split; reflexivity |].
      destruct (IH 0%nat e) as (u & Hu & Hl); [cbn in H; lia |].
      exists (String a u). cbn [Py.drop] in Hu |- *. split.
      * rewrite append_cons, <- Hu. destruct s; reflexivity.
      * cbn [String.length]. rewrite Hl. lia.
    + destruct e as [| e]; [lia |].
      destruct (IH i e) as (u & Hu & Hl); [cbn in H; lia |].
      exists u. cbn [Py.drop]. split; [exact Hu | rewrite Hl; lia].
Qed.

Lemma take_app (u v : string) (n : nat) :
  Py.take (String.length u + n) (u ++ v) = u ++ Py.take n v.
Proof.
  induction u as [| a u IH]; [reflexivity |].
  rewrite !append_cons. cbn [String.length Nat.add]. rewrite take_cons, IH. reflexivity.
Qed.

(** X5. What [extract_pdf_from_java_wrapper] writes to the temporary file:
    only data that starts with the Java serialisation magic and holds both
    markers has a payload; when the first [%PDF-] header is not after the
    last [%%EOF] marker, the payload starts with that header and ends with
    that marker; when the header lies beyond the last marker, the payload is
    empty. *)
Theorem java_payload_is_the_embedded_pdf (data pdf_content : string) :
  java_payload data = Some pdf_content ->
  String.prefix JAVA_MAGIC data = true /\
  exists pdf_start pdf_end,
    Py.find "%PDF-" data = Some pdf_start /\
    Py.rfind "%%EOF" data = Some pdf_end /\
    ((pdf_start <= pdf_end)%nat ->
       String.prefix "%PDF-" pdf_content = true /\
       exists body, pdf_content = body ++ "%%EOF") /\
    ((pdf_end + 5 <= pdf_start)%nat -> pdf_content = "").
Proof.
  unfold java_payload.
  destruct (String.prefix JAVA_MAGIC data); [| discriminate].
  destruct (Py.find "%PDF-" data) as [i |] eqn:Ef; [| discriminate].
  destruct (Py.rfind "%%EOF" data) as [e |] eqn:Er; [| discriminate].
  intros H. injection H as <-. split; [reflexivity |].
  exists i, e. split; [reflexivity |]. split; [reflexivity |].
  rewrite substring_drop.
  pose proof (find_prefix _ _ _ Ef) as Hi.
  destruct (rfind_prefix _ _ _ Er) as [He Hl].
  split.
  - intros Hie. split.
    + apply prefix_take; [exact Hi | cbn; lia].
    + destruct (drop_split i e data) as (u & Hu & Hlen); [lia |].
      exists u. rewrite Hu.
      replace (e + 5 - i)%nat with (String.length u + 5)%nat by lia.
      rewrite take_app. f_equal.
      apply String.prefix_correct in He. exact He.
  - intros Hie. replace (e + 5 - i)%nat with 0%nat by lia.
    destruct (Py.drop i data); reflexivity.
Qed.

#[local] Hint Rewrite @value_bind @files_bind @events_bind @value_ret @files_ret
  @events_ret @files_log @events_log : io.

Ltac steady_step :=
  first
    [ apply steady_ret | apply steady_log | apply steady_open
    | apply steady_bind; [| intros ?]
    | match goal with
      | |- steady (match ?x with _ => _ end) => destruct x
      | |- steady (if ?b then _ else _) => destruct b
      | |- steady (let (_, _) := ?x in _) => destruct x
      end ].

Section EngineResults.
Context {FL : PyFloat}.

(** *** What the tabular engine can return *)

Lemma month_mapping_some (m : Z) (abbr : string) :
  assoc Z.eqb m Config.MONTH_MAPPING = Some abbr -> 1 <= m <= 12.
Proof.
  intros H.
  destruct (Z.ltb_spec m 1); [rewrite month_mapping_outside in H by lia; discriminate |].
  destruct (Z.ltb_spec 12 m); [rewrite month_mapping_outside in H by lia; discriminate |].
  lia.
Qed.

Lemma validate_failure (year : string) (m : Z) (msg : option string) :
  1 <= m <= 12 -> validate_date_params year m = (false, msg) ->
  msg = Some "Year and month must be valid integers" \/
  msg = Some "Year must be between 2015 and 2030".
Proof.
  intros Hm. unfold validate_date_params.
  destruct (Py.int year) as [y |]; [| intros H; injection H as <-; left; reflexivity].
  cbv zeta. destruct (negb _); [intros H; injection H as <-; right; reflexivity |].
  destruct (Z.leb_spec 1 m); [| lia]. destruct (Z.leb_spec m 12); [| lia].
  discriminate.
Qed.

Lemma run_strategies_cases (pdf : Pdf) (year abbr : string) (w : World) (fs : Files) :
  value (run_strategies pdf year abbr w fs) =
    match pages pdf with
    | [] => Error "PDF has no pages"
    | _ => cascade_value (_parse_using_text_extraction pdf year abbr)
                         (_parse_using_coordinates pdf year abbr)
                         (_parse_using_table_extraction pdf year abbr)
    end.
Proof.
  destruct (pages pdf) as [| page rest] eqn:E.
  - unfold run_strategies. rewrite E. reflexivity.
  - apply run_strategies_value. rewrite E. simpl. lia.
Qed.

Lemma cascade_data (r1 r2 r3 : extraction string) (d : gmap string string) :
  cascade_value r1 r2 r3 = Data d ->
  (r1 = Data d \/ r2 = Data d \/ r3 = Data d) /\ (1 <= size d)%nat.
Proof.
  unfold cascade_value.
  destruct (sufficient r1) eqn:E1.
  { intros ->. apply sufficient_spec in E1 as (d' & Hd & Hn).
    injection Hd as <-. split; [tauto | lia]. }
  destruct (sufficient r2) eqn:E2.
  { intros ->. apply sufficient_spec in E2 as (d' & Hd & Hn).
    injection Hd as <-. split; [tauto | lia]. }
  destruct (acceptable r3) eqn:E3; [| discriminate].
  intros ->. apply acceptable_spec in E3 as (d' & Hd & Hn).
  injection Hd as <-. split; [tauto | lia].
Qed.

Lemma cascade_error (r1 r2 r3 : extraction string) (e : string) :
  cascade_value r1 r2 r3 = Error e -> e = ALL_STRATEGIES_FAILED.
Proof.
  unfold cascade_value.
  destruct (sufficient r1) eqn:E1.
  { intros ->. apply sufficient_spec in E1 as (d' & Hd & _). discriminate. }
  destruct (sufficient r2) eqn:E2.
  { intros ->. apply sufficient_spec in E2 as (d' & Hd & _). discriminate. }
  destruct (acceptable r3) eqn:E3.
  { intros ->. apply acceptable_spec in E3 as (d' & Hd & _). discriminate. }
  intros H. injection H as <-. reflexivity.
Qed.

Lemma parse_monthly_cases (path year : string) (m : Z) (w : World) (fs : Files) :
  let result := value (parse_monthly_brokerage_data path year m w fs) in
  result = Error ("Invalid target month number: " ++ Py.str_of_Z m) \/
  result = Error "Year and month must be valid integers" \/
  result = Error "Year must be between 2015 and 2030" \/
  (exists x, result = Error ("PDF processing failed: " ++ x)) \/
  exists pdf abbr, result = value (run_strategies pdf year abbr w fs).
Proof.
  intros result. subst result. unfold parse_monthly_brokerage_data.
  destruct (assoc Z.eqb m Config.MONTH_MAPPING) as [abbr |] eqn:Ea; [| left; reflexivity].
  destruct (validate_date_params year m) as [[|] msg] eqn:Ev.
  - right. right. right.
    autorewrite with io.
    match goal with
    | |- context [value (pdfplumber_open ?p w ?f)] =>
        destruct (value (pdfplumber_open p w f)) as [e | pdf]
    end.
    + left. exists e. reflexivity.
    + right. exists pdf, abbr.
      autorewrite with io.
      assert (S : forall fs', value (run_strategies pdf year abbr w fs')
                              = value (run_strategies pdf year abbr w fs)).
      { intros fs'. rewrite !run_strategies_cases. reflexivity. }
      apply S.
  - right. destruct (validate_failure _ _ _ (month_mapping_some _ _ Ea) Ev) as [-> | ->].
    + left. reflexivity.
    + right. left. reflexivity.
Qed.

(** X6. What [parse_monthly_brokerage_data] can return. A result that is
    not an error maps between 1 and 14 metrics of the mapping table, each to
    a cleaned number. An error is one of six: the error text of a strategy
    never reaches the caller, and the message "Month must be between 1 and
    12" of the validation is never returned, the month having been looked
    up before. *)
Theorem engine_returns_known_metrics_or_one_of_six_errors
  (pdf_path target_year : string) (target_month_num : Z) (w : World) (fs : Files) :
  match value (parse_monthly_brokerage_data pdf_path target_year target_month_num w fs) with
  | Data d =>
      (1 <= size d <= 14)%nat /\
      forall name v, d !! name = Some v ->
        In name metric_source_names /\ v <> "" /\ all_chars numeric_char v = true
  | Error e =>
      e = "Invalid target month number: " ++ Py.str_of_Z target_month_num \/
      e = "Year and month must be valid integers" \/
      e = "Year must be between 2015 and 2030" \/
      (exists x, e = "PDF processing failed: " ++ x) \/
      e = "PDF has no pages" \/
      e = ALL_STRATEGIES_FAILED
  end.
Proof.
  destruct (parse_monthly_cases pdf_path target_year target_month_num w fs)
    as [-> | [-> | [-> | [(x & ->) | (pdf & abbr & ->)]]]]; try tauto.
  { right. right. right. left. exists x. reflexivity. }
  rewrite run_strategies_cases.
  destruct (pages pdf) as [| page rest]; [tauto |].
  destruct (cascade_value _ _ _) as [e | d] eqn:E.
  - rewrite (cascade_error _ _ _ _ E). tauto.
  - destruct (cascade_data _ _ _ _ E) as [Hs Hn].
    pose proof (strategy_data_known pdf target_year abbr d Hs) as Hk.
    pose proof (known_size d Hk) as Hmax.
    split; [lia |].
    intros name v Hv. destruct (Hk name v Hv) as [Hin [Hne Hc]]. auto.
Qed.

End EngineResults.

Section TemporaryFiles.
Context {FL : PyFloat}.

(** *** Temporary files *)












(** *** Success means an output file *)

Lemma pair_run_cases (b p : string) (hint : option string) (w : World) (fs : Files) :
  let run := process_pdf_pair b p hint w fs in
  (value run = false /\ csv_artifacts (events run) = []) \/
  (value run = true /\
   exists final y m,
     value (resolve_period b p hint w fs) = Some (y, m) /\
     csv_artifacts (events run) =
       [(output_name hint, csv_rows final (period_string y m))]).
Proof.
  intros run.
  pose proof (process_pdf_pair_run b p hint w fs) as Hrun. cbv zeta in Hrun.
  fold run in Hrun. clearbody run.
  destruct (value (resolve_period b p hint w fs)) as [[y m] |] eqn:Hres;
    [| left; exact Hrun].
  destruct Hrun as [Hv He].
  pose proof (process_with_period_run b p hint y m w fs) as Hp. cbv zeta in Hp.
  destruct (value (parse_monthly_brokerage_data b y m w fs)) as [e | d].
  { left. rewrite Hv, He. exact Hp. }
  destruct Hp as [Hpv Hpe]. rewrite Hv, He, Hpv, Hpe.
  match goal with
  | |- context [write_record d ?press hint y m w ?fs'] =>
      pose proof (write_record_run d press hint y m w fs') as Hw
  end.
  cbv zeta in Hw.
  destruct (csv_error w (output_name hint)).
  - left. exact Hw.
  - right. destruct Hw as [Hwv Hwe]. split; [exact Hwv |].
    eexists. exists y, m. split; [reflexivity | exact Hwe].
Qed.

(** X8. [process_pdf_pair] returns [True] exactly when it has written an
    output file, and then it has written exactly one, named after the
    period hint. *)
Theorem pair_succeeds_iff_output_is_written
  (brokerage_pdf_path press_release_pdf_path : string) (date_prefix : option string)
  (w : World) (fs : Files) :
  let run := process_pdf_pair brokerage_pdf_path press_release_pdf_path date_prefix w fs in
  (value run = true <-> csv_artifacts (events run) <> []) /\
  (value run = true ->
   exists rows, csv_artifacts (events run) = [(output_name date_prefix, rows)]).
Proof.
  intros run.
  destruct (pair_run_cases brokerage_pdf_path press_release_pdf_path date_prefix w fs)
    as [[Hv He] | (Hv & final & y & m & _ & He)]; fold run in Hv, He; clearbody run.
  - rewrite Hv, He. split; [split; [discriminate | congruence] | discriminate].
  - rewrite Hv, He. split; [split; [discriminate | reflexivity] |].
    intros _. eexists. reflexivity.
Qed.

End TemporaryFiles.

Section MappedRecord.
Context {FL : PyFloat}.

(** *** The mapped record *)

Lemma add_cash_cases (m : gmap string string) (w : World) (fs : Files) :
  value (add_cash_percentage m w fs) = m \/
  exists v, value (add_cash_percentage m w fs) = <[CASH := v]> m.
Proof.
  unfold add_cash_percentage.
  destruct (Py.nonempty _ && Py.nonempty _); [| left; reflexivity].
  destruct (of_str _); [| left; reflexivity].
  destruct (of_str _); [| left; reflexivity].
  destruct (flt _ _); [| left; reflexivity].
  right. eexists. autorewrite with io. reflexivity.
Qed.

Lemma cash_is_a_column : In CASH Config.FINAL_CSV_COLUMNS.
Proof. apply in_by_eqb. vm_compute. reflexivity. Qed.

Lemma map_fields_domain (b : gmap string string) (p : gmap string (gmap string string))
  (col : string) :
  fst (map_fields b p) !! col <> None <-> In col Config.FINAL_CSV_COLUMNS.
Proof.
  destruct (in_dec string_dec col Config.FINAL_CSV_COLUMNS) as [Hin | Hout].
  - rewrite (map_fields_lookup _ _ _ Hin). split; [intros _; exact Hin | discriminate].
  - unfold map_fields. rewrite fold_map_step_other by exact Hout.
    cbn [fst]. rewrite lookup_empty. split; [congruence | contradiction].
Qed.

(** X9. The schema mapper composes the two engines' results through the
    mapping table and nothing else: the record it hands to the writer has
    exactly the 20 canonical fields; every field mapped to a tabular metric,
    the cash field apart, holds the value extracted for that metric (empty
    when it was not extracted); every field mapped to a (product, sub-metric)
    of the press release holds that product's sub-metric (empty when the
    product or the sub-metric is missing). *)
Theorem record_fields_follow_the_mapping_table
  (brokerage_data : gmap string string)
  (press_release_data : gmap string (gmap string string)) (w : World) (fs : Files) :
  let final :=
    value (add_cash_percentage (fst (map_fields brokerage_data press_release_data)) w fs) in
  (forall col, final !! col <> None <-> In col Config.FINAL_CSV_COLUMNS) /\
  (forall col name,
     In (col, monthly_brokerage name) Config.MAPPING_CONFIG -> col <> CASH ->
     final !! col = Some (get_str name brokerage_data)) /\
  (forall col product metric,
     In (col, press_release product metric) Config.MAPPING_CONFIG ->
     final !! col =
       Some (get_str metric (default ∅ (press_release_data !! product)))).
Proof.
  intros final. subst final. split; [| split].
  - intros col.
    destruct (add_cash_cases (fst (map_fields brokerage_data press_release_data)) w fs)
      as [-> | (v & ->)]; [apply map_fields_domain |].
    destruct (String.eqb_spec CASH col) as [<- | Hne].
    + rewrite lookup_insert_eq. split; [intros _; apply cash_is_a_column | discriminate].
    + rewrite lookup_insert_ne by exact Hne. apply map_fields_domain.
  - intros col name Hin Hc.
    destruct (mapping_config_columns _ _ Hin) as [Hcol Hsrc].
    rewrite add_cash_other by exact Hc.
    rewrite (map_fields_lookup _ _ _ Hcol). unfold mapped_value. rewrite Hsrc.
    reflexivity.
  - intros col product metric Hin.
    destruct (mapping_config_columns _ _ Hin) as [Hcol Hsrc].
    rewrite add_cash_other.
    + rewrite (map_fields_lookup _ _ _ Hcol). unfold mapped_value. rewrite Hsrc.
      reflexivity.
    + intros ->. vm_compute in Hsrc. discriminate Hsrc.
Qed.

(** *** Populated and missing fields *)

Lemma filter_length_perm {A} (f : A -> bool) (l l' : list A) :
  Permutation l l' ->
  List.length (List.filter f l) = List.length (List.filter f l').
Proof.
  induction 1 as [| x l l' _ IH | x y l | l l' l'' _ IH1 _ IH2]; simpl.
  - reflexivity.
  - destruct (f x); simpl; rewrite IH; reflexivity.
  - destruct (f x); destruct (f y); reflexivity.
  - rewrite IH1. exact IH2.
Qed.

Lemma count_insert (m : gmap string string) (c v : string) :
  m !! c = None ->
  count_populated (<[c := v]> m) =
    (count_populated m + (if Py.nonempty v then 1 else 0))%nat.
Proof.
  intros Hc. unfold count_populated.
  rewrite (filter_length_perm _ _ _ (map_to_list_insert m c v Hc)).
  simpl. destruct (Py.nonempty v); simpl; lia.
Qed.

Lemma column_is_mapped (col : string) :
  In col Config.FINAL_CSV_COLUMNS ->
  exists src, assoc String.eqb col Config.MAPPING_CONFIG = Some src.
Proof.
  unfold Config.FINAL_CSV_COLUMNS. cbn [In]. intros H.
  repeat (destruct H as [<- | H]; [eexists; vm_compute; reflexivity |]).
  destruct H.
Qed.

Lemma mapped_value_accounts (b : gmap string string) (p : gmap string (gmap string string))
  (col : string) :
  In col Config.FINAL_CSV_COLUMNS ->
  List.length (snd (mapped_value b p col)) =
    (if Py.nonempty (fst (mapped_value b p col)) then 0 else 1)%nat.
Proof.
  intros Hin. destruct (column_is_mapped col Hin) as (src & Hsrc).
  unfold mapped_value. rewrite Hsrc. destruct src as [name | product metric]; cbn [fst snd].
  - destruct (Py.nonempty (get_str name b)); reflexivity.
  - destruct (Py.nonempty (get_str metric (default ∅ (p !! product)))); reflexivity.
Qed.

Lemma map_step_snd b p acc c :
  snd (map_step b p acc c) = (snd acc ++ snd (mapped_value b p c))%list.
Proof. unfold map_step. destruct (mapped_value b p c). reflexivity. Qed.

Lemma fold_map_step_accounts b p (cols : list string) (acc : gmap string string * list string) :
  NoDup cols ->
  (forall c, In c cols -> In c Config.FINAL_CSV_COLUMNS /\ fst acc !! c = None) ->
  let r := fold_left (map_step b p) cols acc in
  (count_populated (fst r) + List.length (snd r) =
   count_populated (fst acc) + List.length (snd acc) + List.length cols)%nat.
Proof.
  revert acc. induction cols as [| c cols IH]; intros acc Hnd Hc; [simpl; lia |].
  apply NoDup_cons in Hnd as [Hnotin Hnd].
  cbn [fold_left]. cbv zeta in IH |- *. rewrite IH; [| exact Hnd |].
  - rewrite map_step_fst, map_step_snd.
    destruct (Hc c (or_introl eq_refl)) as [Hcol Hfree].
    rewrite count_insert by exact Hfree.
    rewrite List.length_app, (mapped_value_accounts b p c Hcol).
    destruct (Py.nonempty (fst (mapped_value b p c))); simpl; lia.
  - intros c' Hc'. destruct (Hc c' (or_intror Hc')) as [Hcol Hfree].
    split; [exact Hcol |].
    rewrite map_step_fst, lookup_insert_ne; [exact Hfree |].
    intros ->. apply Hnotin. apply list_elem_of_In. exact Hc'.
Qed.

(** X10. The mapping loop accounts for every field once: the number of
    populated fields and the number of entries of [missing_data] add up to
    the 20 canonical fields. *)
Theorem populated_and_missing_fields_add_up
  (brokerage_data : gmap string string)
  (press_release_data : gmap string (gmap string string)) :
  let (final_mapped_data, missing_data) := map_fields brokerage_data press_release_data in
  (count_populated final_mapped_data + List.length missing_data = 20)%nat.
Proof.
  pose proof (fold_map_step_accounts brokerage_data press_release_data
                Config.FINAL_CSV_COLUMNS (∅, []) nodup_columns) as H.
  cbv zeta in H. unfold map_fields. revert H.
  destruct (fold_left _ Config.FINAL_CSV_COLUMNS (∅, [])) as [final missing].
  cbn [fst snd]. intros H. rewrite H; [reflexivity |].
  intros c Hc. split; [exact Hc | apply lookup_empty].
Qed.

End MappedRecord.

Lemma str_of_Z_nonempty (z : Z) : Py.nonempty (Py.str_of_Z z) = true.
Proof.
  unfold Py.str_of_Z, NilZero.string_of_int.
  destruct (Z.to_int z) as [d | d]; [| reflexivity].
  destruct d; reflexivity.
Qed.

Lemma num_set_month (m : Z) : 1 <= m <= 12 -> num_set (Some m) = true.
Proof. intros H. unfold num_set. destruct (Z.eqb_spec m 0); [lia | reflexivity]. Qed.

Lemma usable_prefix_some (hint : option string) (q : string) :
  usable_prefix hint = Some q ->
  hint = Some q /\ String.length q = 6%nat /\ Py.isdigit q = true.
Proof.
  unfold usable_prefix. destruct hint as [p |]; [| discriminate].
  destruct (Py.nonempty p); [| discriminate].
  destruct (Nat.eqb_spec (String.length p) 6) as [Hl | _]; [| discriminate].
  destruct (Py.isdigit p) eqn:Hd; [| discriminate].
  intros H. injection H as <-. auto.
Qed.

Section ResolvedPeriod.
Context {FL : PyFloat}.

Lemma steady_brokerage_fallback (b : string) (ty : option string) (tm : option Z) :
  steady (brokerage_fallback b ty tm).
Proof. unfold brokerage_fallback. repeat steady_step. Qed.

(** *** The period that the resolver returns *)

Lemma brokerage_fallback_month (b : string) (ty : option string) (tm : option Z)
  (w : World) (fs : Files) :
  month_sane tm -> month_sane (snd (value (brokerage_fallback b ty tm w fs))).
Proof.
  intros Htm. unfold brokerage_fallback. rewrite value_bind.
  destruct (value (pdfplumber_open b w fs)) as [e | pdf]; [exact Htm |].
  destruct (extract_date_never_year_only (joined_text pdf)) as [E | (y & m & E & Hm)];
    rewrite E; [exact Htm |].
  destruct (num_set (Some y)); [| exact Htm].
  rewrite value_bind. rewrite (num_set_month m Hm). cbn [negb].
  intros m' H' _. cbn in H'. injection H' as <-. exact Hm.
Qed.

Lemma press_fallback_month (p : string) (ty : option string) (tm : option Z)
  (w : World) (fs : Files) :
  month_sane tm -> month_sane (snd (value (press_fallback p ty tm w fs))).
Proof.
  intros Htm. unfold press_fallback. rewrite value_bind.
  destruct (value (pdfplumber_open p w fs)) as [e | pdf]; [exact Htm |].
  destruct (extract_date_never_year_only (joined_text pdf)) as [E | (y & m & E & Hm)];
    rewrite E.
  - cbn [num_set andb]. autorewrite with io. exact Htm.
  - autorewrite with io.
    destruct (num_set (Some m) && negb (num_set tm)); autorewrite with io.
    + intros m' H' _. cbn in H'. injection H' as <-. exact Hm.
    + exact Htm.
Qed.

Lemma fallback_stage_month (b p : string) (ty : option string) (tm : option Z)
  (w : World) (fs : Files) :
  month_sane tm ->
  month_sane
    (snd (value
       ((if period_missing ty tm then
           log INFO "Attempting fallback date extraction from PDF content..." ;;;
           let* after_brokerage := brokerage_fallback b ty tm in
           let (target_year, target_month_num) := after_brokerage in
           if period_missing target_year target_month_num
           then press_fallback p target_year target_month_num
           else ret (target_year, target_month_num)
         else ret (ty, tm)) w fs))).
Proof.
  intros Htm. destruct (period_missing ty tm); [| exact Htm].
  autorewrite with io.
  pose proof (brokerage_fallback_month b ty tm w fs Htm) as Hb.
  rewrite (steady_brokerage_fallback b ty tm w fs).
  destruct (value (brokerage_fallback b ty tm w fs)) as [ty' tm']. cbn [snd] in Hb.
  destruct (period_missing ty' tm'); [| exact Hb].
  apply press_fallback_month. exact Hb.
Qed.

Lemma resolve_period_value (b p : string) (hint : option string) (w : World) (fs : Files) :
  exists ty tm,
    (month_sane (snd (period_from_name hint)) -> month_sane tm) /\
    value (resolve_period b p hint w fs) =
      (if period_missing ty tm then None else Some (default "" ty, default 0 tm)).
Proof.
  unfold resolve_period, period_from_name.
  destruct (usable_prefix hint) as [q |].
  - destruct (period_of_prefix q) as [ty0 tm0]. cbn [fst snd].
    autorewrite with io.
    pose proof (fallback_stage_month b p (Some ty0) (Some tm0) w fs) as Hs.
    match type of Hs with
    | _ -> month_sane (snd (value ?X)) => destruct (value X) as [ty tm]
    end.
    exists ty, tm. split; [exact Hs |].
    destruct (period_missing ty tm); reflexivity.
  - autorewrite with io.
    pose proof (fallback_stage_month b p None None w fs) as Hs.
    match type of Hs with
    | _ -> month_sane (snd (value ?X)) => destruct (value X) as [ty tm]
    end.
    exists ty, tm. split; [exact Hs |].
    destruct (period_missing ty tm); reflexivity.
Qed.

(** X11. A period that the resolver returns has a non-empty year and
    either is the one written in a six-digit hint whose month digits are not
    00 (a month between 1 and 99, which nothing checks here), or has a
    calendar month between 1 and 12: whatever content inference finds, it
    never yields a month outside the calendar. *)
Theorem resolved_period_is_the_hint_or_a_calendar_month
  (brokerage_pdf_path press_release_pdf_path : string) (date_prefix : option string)
  (w : World) (fs : Files) (target_year : string) (target_month_num : Z) :
  value (resolve_period brokerage_pdf_path press_release_pdf_path date_prefix w fs)
    = Some (target_year, target_month_num) ->
  target_year <> "" /\
  ((exists prefix,
      date_prefix = Some prefix /\ String.length prefix = 6%nat /\
      Py.isdigit prefix = true /\ Py.drop 4 prefix <> "00" /\
      target_year = Py.take 4 prefix /\
      Py.int (Py.drop 4 prefix) = Some target_month_num /\
      1 <= target_month_num <= 99) \/
   1 <= target_month_num <= 12).
Proof.
  intros H.
  assert (Hcases :
    (exists prefix,
       date_prefix = Some prefix /\ String.length prefix = 6%nat /\
       Py.isdigit prefix = true /\ Py.drop 4 prefix <> "00" /\
       target_year = Py.take 4 prefix /\
       Py.int (Py.drop 4 prefix) = Some target_month_num /\
       1 <= target_month_num <= 99) \/
    month_sane (snd (period_from_name date_prefix))).
  { unfold period_from_name.
    destruct (usable_prefix date_prefix) as [q |] eqn:Hu;
      [| right; intros m' E; discriminate E].
    destruct (usable_prefix_some _ _ Hu) as (Hh & Hl & Hd).
    destruct (six_digit_prefix q Hl Hd) as (_ & Hy & v & Hv & Hr & Hz).
    destruct (Z.eq_dec v 0) as [-> | Hv0].
    - right. unfold period_of_prefix. rewrite Hv. intros m' E Hm'.
      cbn in E. injection E as <-. contradiction.
    - left. exists q.
      rewrite (resolve_period_direct brokerage_pdf_path press_release_pdf_path
                 q (Py.take 4 q) v w fs) in H;
        [| unfold period_of_prefix; rewrite Hv; reflexivity | exact Hy | exact Hv0
         | exact Hu].
      cbn [value] in H. injection H as <- <-.
      repeat split; try assumption; try lia.
      intros E00. rewrite E00 in Hv. vm_compute in Hv. injection Hv as <-.
      contradiction. }
  destruct (resolve_period_value brokerage_pdf_path press_release_pdf_path
              date_prefix w fs) as (ty & tm & Hsane & Hval).
  rewrite Hval in H. destruct (period_missing ty tm) eqn:Hpm; [discriminate |].
  injection H as <- <-.
  unfold period_missing in Hpm. apply orb_false_iff in Hpm as [Hy Hm].
  apply negb_false_iff in Hy, Hm.
  destruct ty as [y |]; [| discriminate Hy]. destruct tm as [m |]; [| discriminate Hm].
  cbn [default year_set num_set] in *.
  split; [apply nonempty_true; exact Hy |].
  destruct Hcases as [Hl | Hr]; [left; exact Hl | right].
  apply (Hsane Hr m eq_refl). intros ->. discriminate Hm.
Qed.

End ResolvedPeriod.

(** *** Stripping keeps the characters *)

Lemma all_chars_lstrip (p : ascii -> bool) (s : string) :
  all_chars p s = true -> all_chars p (Py.lstrip s) = true.
Proof.
  induction s as [| a s IH]; [reflexivity |].
  intros H. cbn [Py.lstrip]. destruct (Py.is_space a); [| exact H].
  cbn [all_chars] in H. apply andb_true_iff in H as [_ H]. exact (IH H).
Qed.

Lemma all_chars_rstrip (p : ascii -> bool) (s : string) :
  all_chars p s = true -> all_chars p (Py.rstrip s) = true.
Proof.
  induction s as [| a s IH]; [reflexivity |].
  intros H. cbn [all_chars] in H. apply andb_true_iff in H as [Ha Hs].
  specialize (IH Hs). rewrite rstrip_cons.
  destruct (Py.rstrip s) as [| b t].
  - destruct (Py.is_space a); [reflexivity |]. cbn [all_chars]. rewrite Ha. reflexivity.
  - cbn [all_chars] in IH |- *. rewrite Ha. exact IH.
Qed.

Lemma all_chars_strip (p : ascii -> bool) (s : string) :
  all_chars p s = true -> all_chars p (Py.strip s) = true.
Proof. intros H. apply all_chars_rstrip, all_chars_lstrip, H. Qed.

(** *** The groups of the press-release patterns *)

Lemma dots_and_digits (a : ascii) :
  Shape.chars (Re.Plus Patterns.dot_or_digit) a = true -> numeric_char a = true.
Proof.
  destruct a as [[] [] [] [] [] [] [] []]; intros H;
    first [discriminate H | reflexivity].
Qed.

Lemma plain_dec_chars (a : ascii) :
  Shape.chars Patterns.plain_dec a = true -> numeric_char a = true.
Proof.
  destruct a as [[] [] [] [] [] [] [] []]; intros H;
    first [discriminate H | reflexivity].
Qed.

Lemma grouped_int_chars (a : ascii) :
  Shape.chars Patterns.grouped_int a = true ->
  numeric_char a || Ascii.eqb a "," = true.
Proof.
  destruct a as [[] [] [] [] [] [] [] []]; intros H;
    first [discriminate H | reflexivity].
Qed.

Lemma primary_groups (product : string) (r : Re.regex) :
  In (product, r) Patterns.primary_patterns -> Shape.groups_ok primary_group r.
Proof.
  unfold Patterns.primary_patterns. cbn [In].
  intros [H | [H | [H | []]]]; injection H as _ <-;
    cbn;
    repeat match goal with
           | |- _ /\ _ => split
           | |- True => exact I
           end;
    intros u Hu _ E; try discriminate E;
    exact (all_chars_weaken _ _ _ dots_and_digits Hu).
Qed.

Lemma backup_groups (product : string) (r : Re.regex) :
  In (product, r) Patterns.backup_patterns -> Shape.groups_ok backup_group r.
Proof.
  unfold Patterns.backup_patterns. cbn [In].
  intros [H | [H | [H | []]]]; injection H as _ <-;
    cbn;
    repeat match goal with
           | |- _ /\ _ => split
           | |- True => exact I
           end;
    intros u Hu _; (split; intros E; try discriminate E);
    first [ exact (all_chars_weaken _ _ _ plain_dec_chars Hu)
          | exact (all_chars_weaken _ _ _ grouped_int_chars Hu)
          | apply (all_chars_weaken numeric_char);
            [intros a Ha; rewrite Ha; reflexivity |
             exact (all_chars_weaken _ _ _ plain_dec_chars Hu)] ].
Qed.

Lemma assoc_In {V} (key : string) (d : list (string * V)) (v : V) :
  assoc String.eqb key d = Some v -> In (key, v) d.
Proof.
  induction d as [| [k x] d IH]; [discriminate |].
  cbn [assoc]. destruct (String.eqb_spec k key) as [-> | _].
  - intros H. injection H as <-. left. reflexivity.
  - intros H. right. exact (IH H).
Qed.

Lemma commission_of_entry (order_size commission : string) :
  get_str "Average Commission" (product_entry order_size commission) = commission.
Proof.
  unfold get_str, product_entry.
  rewrite lookup_insert_ne by discriminate.
  first [rewrite lookup_singleton_eq | rewrite lookup_singleton]. reflexivity.
Qed.

Lemma order_size_of_product_entry (order_size commission : string) :
  get_str "Average Order Size" (product_entry order_size commission) = order_size.
Proof. unfold get_str, product_entry. rewrite lookup_insert_eq. reflexivity. Qed.

Lemma group_numeric (Q : nat -> string -> Prop) (p : ascii -> bool) (n : nat) (c : Re.caps) :
  (forall g, Q n g -> all_chars p g = true) ->
  Forall (fun e => Q (fst e) (snd e)) c ->
  all_chars p (Re.group n c) = true.
Proof.
  intros HQ HF. destruct (group_of_caps Q n c HF) as [H | ->]; [exact (HQ _ H) | reflexivity].
Qed.

Lemma primary_entry_numeric (product : string) (r : Re.regex) (text rest : string)
  (c : Re.caps) :
  In (product, r) Patterns.primary_patterns ->
  Re.search r text = Some (rest, c) ->
  all_chars numeric_char (get_str "Average Commission" (entry_of_match "primary" c)) = true.
Proof.
  intros Hin Hs.
  destruct (search_groups primary_group r text rest c (primary_groups _ _ Hin) Hs) as [HF _].
  unfold entry_of_match. cbn [String.eqb Ascii.eqb Bool.eqb]. rewrite commission_of_entry.
  apply all_chars_strip. apply (group_numeric primary_group); [| exact HF].
  intros g Hg. exact (Hg eq_refl).
Qed.

Lemma backup_entry_numeric (product : string) (r : Re.regex) (text rest : string)
  (c : Re.caps) :
  In (product, r) Patterns.backup_patterns ->
  Re.search r text = Some (rest, c) ->
  all_chars numeric_char (get_str "Average Commission" (entry_of_match "backup" c)) = true /\
  all_chars numeric_char (get_str "Average Order Size" (entry_of_match "backup" c)) = true.
Proof.
  intros Hin Hs.
  destruct (search_groups backup_group r text rest c (backup_groups _ _ Hin) Hs) as [HF _].
  unfold entry_of_match. cbn [String.eqb Ascii.eqb Bool.eqb].
  rewrite commission_of_entry, order_size_of_product_entry. split.
  - apply (group_numeric backup_group); [| exact HF]. intros g [_ Hg]. exact (Hg eq_refl).
  - apply all_chars_remove. apply (group_numeric backup_group); [| exact HF].
    intros g [Hg _]. exact (Hg eq_refl).
Qed.

Section NarrativeValues.
Context {FL : PyFloat}.

(** X13. The narrative engine emits numbers: the commission of every
    product it returns is a text of decimal digits and points, and so is
    the order size of a product that the primary pattern did not match
    (found, then, by the backup pattern). *)
Theorem narrative_values_are_numeric (report_text : string) (w : World) (fs : Files) :
  let data := value (extract_products report_text w fs) in
  forall product entry,
    data !! product = Some entry ->
    all_chars numeric_char (get_str "Average Commission" entry) = true /\
    ((forall primary,
        assoc String.eqb product Patterns.primary_patterns = Some primary ->
        Re.search primary report_text = None) ->
     all_chars numeric_char (get_str "Average Order Size" entry) = true).
Proof.
  intros data product entry. subst data. rewrite extract_products_lookup.
  unfold pass_result.
  destruct (assoc String.eqb product Patterns.primary_patterns) as [r |] eqn:Ep.
  - destruct (Re.search r report_text) as [[rest c] |] eqn:Es.
    + intros H. injection H as <-. split.
      * exact (primary_entry_numeric _ _ _ _ _ (assoc_In _ _ _ Ep) Es).
      * intros Hnone. rewrite (Hnone r eq_refl) in Es. discriminate Es.
    + destruct (assoc String.eqb product Patterns.backup_patterns) as [r' |] eqn:Eb;
        [| discriminate].
      destruct (Re.search r' report_text) as [[rest c] |] eqn:Es'; [| discriminate].
      intros H. injection H as <-.
      destruct (backup_entry_numeric _ _ _ _ _ (assoc_In _ _ _ Eb) Es') as [Hc Ho].
      split; [exact Hc | intros _; exact Ho].
  - destruct (assoc String.eqb product Patterns.backup_patterns) as [r' |] eqn:Eb;
      [| discriminate].
    destruct (Re.search r' report_text) as [[rest c] |] eqn:Es'; [| discriminate].
    intros H. injection H as <-.
    destruct (backup_entry_numeric _ _ _ _ _ (assoc_In _ _ _ Eb) Es') as [Hc Ho].
    split; [exact Hc | intros _; exact Ho].
Qed.

(** *** Content inference starts with the brokerage document *)

(** X12. When content inference runs (no usable hint, or month digits 00)
    and the brokerage document opens and states a year and a month, that
    period is the one resolved: a year taken from the hint is replaced, and
    the press release is not opened. *)
Theorem brokerage_content_decides_the_period
  (brokerage_pdf_path press_release_pdf_path : string) (date_prefix : option string)
  (w : World) (fs : Files) (data : string) (pdf : Pdf) (year month : Z) :
  match usable_prefix date_prefix with
  | Some prefix => snd (period_of_prefix prefix) = 0
  | None => True
  end ->
  fs !! brokerage_pdf_path = Some data ->
  decode_pdf w data = inr pdf ->
  extract_date_from_content (joined_text pdf) = (Some year, Some month) ->
  year <> 0 ->
  exists first,
    resolve_period brokerage_pdf_path press_release_pdf_path date_prefix w fs =
      mkRun (Some (Py.str_of_Z year, month)) fs
        [ first;
          Log INFO "Attempting fallback date extraction from PDF content...";
          OpenPdf brokerage_pdf_path;
          Log INFO ("Extracted year from Monthly Brokerage PDF: " ++ Py.str_of_Z year) ].
Proof.
  intros Hhint Hfs Hdec Hdate Hyear.
  assert (Hm : 1 <= month <= 12).
  { destruct (extract_date_never_year_only (joined_text pdf)) as [E | (y & m & E & Hm)];
      rewrite Hdate in E; [discriminate E |].
    injection E as <- <-. exact Hm. }
  assert (Hb : forall ty tm,
    brokerage_fallback brokerage_pdf_path ty tm w fs =
      mkRun (Some (Py.str_of_Z year), Some month) fs
        [ OpenPdf brokerage_pdf_path;
          Log INFO ("Extracted year from Monthly Brokerage PDF: " ++ Py.str_of_Z year) ]).
  { intros ty tm. unfold brokerage_fallback, bind, pdfplumber_open.
    cbn [value files events]. rewrite Hfs, Hdec, Hdate.
    assert (Hy : num_set (Some year) = true).
    { unfold num_set. destruct (Z.eqb_spec year 0); [contradiction | reflexivity]. }
    rewrite Hy, (num_set_month month Hm). reflexivity. }
  assert (Hdone : period_missing (Some (Py.str_of_Z year)) (Some month) = false).
  { unfold period_missing, year_set. rewrite str_of_Z_nonempty, (num_set_month month Hm).
    reflexivity. }
  unfold resolve_period.
  destruct (usable_prefix date_prefix) as [q |].
  - destruct (period_of_prefix q) as [ty tm]. cbn [snd] in Hhint. subst tm.
    assert (Hmiss : period_missing (Some ty) (Some 0) = true).
    { unfold period_missing. cbn. apply orb_true_r. }
    eexists. unfold bind. cbn [log emit ret value files events].
    rewrite Hmiss. cbn [log emit ret value files events]. rewrite Hb.
    cbn [value files events]. rewrite Hdone. cbn [ret value files events].
    rewrite Hdone. reflexivity.
  - eexists. unfold bind. cbn [log emit ret value files events].
    cbn [period_missing year_set negb orb]. cbn [log emit ret value files events].
    rewrite Hb. cbn [value files events]. rewrite Hdone. cbn [ret value files events].
    rewrite Hdone. reflexivity.
Qed.

End NarrativeValues.

(** *** The file-name pattern *)

Lemma times_digit_chars (n : nat) (a : ascii) :
  Shape.chars (Re.Times n Re.digit) a = true -> Py.is_digit a = true.
Proof.
  induction n as [| n IH]; [discriminate |].
  cbn [Re.Times Shape.chars]. intros H. apply orb_true_iff in H as [H | H];
    [exact H | exact (IH H)].
Qed.

Lemma all_digits_all_chars (s : string) : Py.all_digits s = all_chars Py.is_digit s.
Proof. induction s as [| a s IH]; [reflexivity |]. cbn. rewrite IH. reflexivity. Qed.

Lemma groups_ok_lit (Q : nat -> string -> Prop) (s : string) :
  Shape.groups_ok Q (Re.lit s).
Proof.
  induction s as [| a s IH]; [exact I |].
  destruct s as [| b s]; [exact I | split; [exact I | exact IH]].
Qed.

Lemma with_type_groups (report_type : string) :
  Shape.groups_ok prefix_group (ReportName.with_type report_type).
Proof.
  unfold ReportName.with_type, Re.pat. cbn [DatePatterns.seq Shape.groups_ok].
  split; [split | split; [split | split]].
  - intros u Hu Hl _. pose proof (Hl 6%nat eq_refl) as Hlen. split; [exact Hlen |].
    unfold Py.isdigit. destruct u as [| a u]; [discriminate Hlen |].
    rewrite all_digits_all_chars.
    apply (all_chars_weaken _ _ _ (times_digit_chars 6) Hu).
  - cbn. tauto.
  - intros u _ _ E. discriminate E.
  - apply groups_ok_lit.
  - exact I.
  - apply groups_ok_lit.
Qed.

Lemma match_name_prefix (name date_prefix report_type : string) :
  ReportName.match_name name = Some (date_prefix, report_type) ->
  six_digits date_prefix.
Proof.
  unfold ReportName.match_name.
  generalize ReportName.alternatives. intros types.
  induction types as [| t types IH]; [discriminate |].
  cbn [ReportName.match_name_with].
  destruct (Re.match_at (ReportName.with_type t) name) as [[rest c] |] eqn:E;
    [| exact IH].
  intros H. injection H as <- _.
  destruct (match_at_consumed prefix_group _ _ _ _ (with_type_groups t) E)
    as (u & _ & _ & _ & HF & Hsure & _).
  rewrite <- (app_nil_r c).
  apply (group_of_new prefix_group 1 c []); [exact HF | | reflexivity].
  apply Hsure. reflexivity.
Qed.

(** *** The groups of a directory *)

Lemma dict_set_keys {V} (P : string -> Prop) (key : string) (value : V)
  (d : list (string * V)) :
  P key -> Forall (fun kv => P (fst kv)) d ->
  Forall (fun kv => P (fst kv)) (dict_set key value d).
Proof.
  intros Hk. induction d as [| [k v] d IH]; intros Hd.
  - constructor; [exact Hk | constructor].
  - cbn [dict_set]. inversion Hd as [| ? ? Hkv Hd']; subst.
    destruct (String.eqb k key); constructor; auto.
Qed.

Section BatchGroups.
Context {FL : PyFloat}.

Lemma scan_step_value (report_groups : Groups) (file_path : string)
  (w : World) (fs : Files) :
  value (scan_step report_groups file_path w fs) =
    match ReportName.match_name (path_name file_path) with
    | Some (date_prefix, report_type) =>
        dict_set date_prefix
          (dict_set report_type file_path
             (default [] (assoc String.eqb date_prefix report_groups)))
          report_groups
    | None => report_groups
    end.
Proof.
  unfold scan_step. cbv zeta.
  destruct (ReportName.match_name (path_name file_path)) as [[dp t] |]; reflexivity.
Qed.

Lemma scan_prefixes (file_paths : list string) (report_groups : Groups)
  (w : World) (fs : Files) :
  Forall (fun kv => six_digits (fst kv)) report_groups ->
  Forall (fun kv => six_digits (fst kv))
         (value (foldM scan_step file_paths report_groups w fs)).
Proof.
  revert report_groups fs.
  induction file_paths as [| f file_paths IH]; intros report_groups fs Hg; [exact Hg |].
  cbn [foldM]. rewrite value_bind. apply IH. rewrite scan_step_value.
  destruct (ReportName.match_name (path_name f)) as [[dp t] |] eqn:E; [| exact Hg].
  apply dict_set_keys; [exact (match_name_prefix _ _ _ E) | exact Hg].
Qed.

End BatchGroups.

Lemma dict_set_Forall {V} (P : string * V -> Prop) (key : string) (value : V)
  (d : list (string * V)) :
  P (key, value) -> Forall P d -> Forall P (dict_set key value d).
Proof.
  intros Hk. induction d as [| [k v] d IH]; intros Hd.
  - constructor; [exact Hk | constructor].
  - cbn [dict_set]. inversion Hd as [| ? ? Hkv Hd']; subst.
    destruct (String.eqb_spec k key) as [-> | _]; constructor; auto.
Qed.

Lemma assoc_dict_set_other {V} (key other : string) (value : V) (d : list (string * V)) :
  key <> other -> assoc String.eqb other (dict_set key value d) = assoc String.eqb other d.
Proof.
  intros Hne. induction d as [| [k v] d IH].
  - cbn. destruct (String.eqb_spec key other); [contradiction | reflexivity].
  - cbn [dict_set]. destruct (String.eqb_spec k key) as [-> | Hk]; cbn [assoc].
    + destruct (String.eqb_spec key other); [contradiction | reflexivity].
    + rewrite IH. reflexivity.
Qed.

Lemma assoc_Forall {V} (P : string * V -> Prop) (key : string) (d : list (string * V))
  (v : V) :
  Forall P d -> assoc String.eqb key d = Some v -> P (key, v).
Proof.
  intros Hd H. apply assoc_In in H. rewrite List.Forall_forall in Hd. exact (Hd _ H).
Qed.

Section BatchProperties.
Context {FL : PyFloat}.

(** *** Counting *)

Lemma scan_step_events (report_groups : Groups) (file_path : string)
  (w : World) (fs : Files) :
  files (scan_step report_groups file_path w fs) = fs /\
  forallb is_log (events (scan_step report_groups file_path w fs)) = true.
Proof.
  unfold scan_step. cbv zeta.
  destruct (ReportName.match_name (path_name file_path)) as [[dp t] |];
    split; reflexivity.
Qed.

Lemma logs_write_nothing (es : list Event) :
  forallb is_log es = true -> csv_artifacts es = [].
Proof.
  induction es as [| e es IH]; [reflexivity |].
  cbn [forallb]. intros H. apply andb_true_iff in H as [He Hes].
  destruct e; try discriminate He. cbn. exact (IH Hes).
Qed.

Lemma scan_events (file_paths : list string) (report_groups : Groups)
  (w : World) (fs : Files) :
  files (foldM scan_step file_paths report_groups w fs) = fs /\
  forallb is_log (events (foldM scan_step file_paths report_groups w fs)) = true.
Proof.
  revert report_groups fs.
  induction file_paths as [| f file_paths IH]; intros report_groups fs;
    [split; reflexivity |].
  cbn [foldM]. rewrite files_bind, events_bind, forallb_app.
  destruct (scan_step_events report_groups f w fs) as [Hf He]. rewrite Hf, He.
  apply IH.
Qed.






(** *** The output files of the scan *)

Lemma pair_artifacts_named (b p date_prefix : string) (w : World) (fs : Files) :
  six_digits date_prefix ->
  Forall artifact_named
         (csv_artifacts (events (process_pdf_pair b p (Some date_prefix) w fs))).
Proof.
  intros [Hl Hd].
  destruct (pair_run_cases b p (Some date_prefix) w fs)
    as [[_ He] | (_ & final & y & m & Hres & He)]; rewrite He; [constructor |].
  constructor; [| constructor].
  exists date_prefix. split; [split; assumption |]. split; [reflexivity |].
  exists final, y, m. split; [reflexivity |].
  intros H00.
  destruct (six_digit_prefix date_prefix Hl Hd) as (Hu & Hy & v & Hv & Hr & Hz).
  assert (Hv0 : v <> 0) by (intros E; apply H00, Hz, E).
  rewrite (resolve_period_direct b p date_prefix (Py.take 4 date_prefix) v w fs) in Hres;
    [| unfold period_of_prefix; rewrite Hv; reflexivity | exact Hy | exact Hv0 | exact Hu].
  cbn [value] in Hres. injection Hres as <- <-. split; [reflexivity | exact Hv].
Qed.

Lemma pair_step_named (tally : Tally) (group : string * list (string * string))
  (w : World) (fs : Files) :
  six_digits (fst group) ->
  Forall artifact_named (csv_artifacts (events (pair_step tally group w fs))).
Proof.
  intros Hg. destruct group as [dp paths]. destruct tally as [processed n].
  cbn [fst] in Hg. unfold pair_step.
  destruct (assoc String.eqb "MetricsPressRelease" paths) as [press |];
    [| constructor].
  destruct (assoc String.eqb "MonthlyBrokerageData" paths) as [brokerage |];
    [| constructor].
  cbv zeta. destruct (bool_decide _); [constructor |].
  autorewrite with io. rewrite !csv_artifacts_app, app_nil_r.
  cbn [csv_artifacts flat_map app].
  exact (pair_artifacts_named brokerage press dp w fs Hg).
Qed.

Lemma pairs_named (report_groups : Groups) (tally : Tally) (w : World) (fs : Files) :
  Forall (fun kv => six_digits (fst kv)) report_groups ->
  Forall artifact_named
         (csv_artifacts (events (foldM pair_step report_groups tally w fs))).
Proof.
  revert tally fs.
  induction report_groups as [| g gs IH]; intros tally fs Hg; [constructor |].
  inversion Hg as [| ? ? Hg1 Hgs]; subst.
  cbn [foldM]. rewrite events_bind, csv_artifacts_app. apply Forall_app. split.
  - apply pair_step_named. exact Hg1.
  - apply IH. exact Hgs.
Qed.

Lemma directory_step_named (tally : Tally) (directory : string * list string)
  (w : World) (fs : Files) :
  Forall artifact_named (csv_artifacts (events (directory_step tally directory w fs))).
Proof.
  destruct directory as [root file_paths]. unfold directory_step.
  autorewrite with io.
  destruct (scan_events file_paths [] w fs) as [Hf He].
  rewrite Hf, !csv_artifacts_app, (logs_write_nothing _ He).
  cbn [csv_artifacts flat_map app].
  apply pairs_named. apply scan_prefixes. constructor.
Qed.

Lemma directories_named (tree : Listing) (tally : Tally) (w : World) (fs : Files) :
  Forall artifact_named
         (csv_artifacts (events (foldM directory_step tree tally w fs))).
Proof.
  revert tally fs. induction tree as [| d tree IH]; intros tally fs; [constructor |].
  cbn [foldM]. rewrite events_bind, csv_artifacts_app. apply Forall_app. split.
  - apply directory_step_named.
  - apply IH.
Qed.

Lemma summary_writes_nothing (processed : gset (list string)) (n : nat)
  (w : World) (fs : Files) :
  forallb is_log
    (events ((if Nat.eqb (size processed) 0 then
                log ERROR "No complete report pairs found!" ;;;
                log INFO "Ensure files are named: YYYYMMMonthlyBrokerageData.pdf and YYYYMMMetricsPressRelease.pdf"
              else
                log SUCCESS ("Processing complete: " ++ str_of_nat n ++ "/" ++
                             str_of_nat (size processed) ++ " successful")) w fs))
    = true.
Proof. destruct (Nat.eqb (size processed) 0); reflexivity. Qed.

(** X15. Every output file that the batch scan writes is named after the
    six digits that start the name of a report pair, and holds the record
    of a period; unless the month digits are 00, that period is the one
    that the file names state: in batch mode the documents' content is not
    consulted for the period of such a pair. *)
Theorem batch_output_follows_the_file_names (tree : Listing) (w : World) (fs : Files) :
  forall filename rows,
    In (filename, rows)
       (csv_artifacts (events (find_and_process_all_reports tree w fs))) ->
    exists prefix,
      String.length prefix = 6%nat /\ Py.isdigit prefix = true /\
      filename = "IBKR_DATA_OUTPUT_" ++ prefix ++ ".csv" /\
      exists final year month,
        rows = csv_rows final (period_string year month) /\
        (Py.drop 4 prefix <> "00" ->
         year = Py.take 4 prefix /\ Py.int (Py.drop 4 prefix) = Some month).
Proof.
  intros filename rows Hin.
  assert (HF : Forall artifact_named
                 (csv_artifacts (events (find_and_process_all_reports tree w fs)))).
  { unfold find_and_process_all_reports. autorewrite with io.
    rewrite !csv_artifacts_app. cbn [csv_artifacts flat_map app].
    apply Forall_app. split; [apply directories_named |].
    destruct (value (foldM directory_step tree (∅, 0%nat) w fs)) as [processed n].
    autorewrite with io. rewrite app_nil_r.
    rewrite (logs_write_nothing _ (summary_writes_nothing processed n w _)).
    constructor. }
  rewrite List.Forall_forall in HF.
  destruct (HF _ Hin) as (prefix & [Hl Hd] & Hname & final & y & m & Hrows & Hperiod).
  exists prefix. cbn [fst snd] in Hname, Hrows.
  split; [exact Hl |]. split; [exact Hd |]. split; [exact Hname |].
  exists final, y, m. split; assumption.
Qed.

(** *** Reports that the pairing does not see *)

Lemma scan_step_lacks (report_groups : Groups) (file_path : string)
  (w : World) (fs : Files) :
  (forall prefix report_type,
     ReportName.match_name (path_name file_path) = Some (prefix, report_type) ->
     report_type <> "MonthlyBrokerageData") ->
  Forall lacks_brokerage report_groups ->
  Forall lacks_brokerage (value (scan_step report_groups file_path w fs)).
Proof.
  intros Hname Hg. rewrite scan_step_value.
  destruct (ReportName.match_name (path_name file_path)) as [[dp t] |] eqn:E;
    [| exact Hg].
  apply dict_set_Forall; [| exact Hg].
  unfold lacks_brokerage. cbn [snd].
  rewrite assoc_dict_set_other by exact (Hname dp t eq_refl).
  destruct (assoc String.eqb dp report_groups) as [paths |] eqn:Ea; [| reflexivity].
  exact (assoc_Forall lacks_brokerage dp report_groups paths Hg Ea).
Qed.

Lemma scan_lacks (file_paths : list string) (report_groups : Groups)
  (w : World) (fs : Files) :
  (forall p prefix report_type,
     In p file_paths ->
     ReportName.match_name (path_name p) = Some (prefix, report_type) ->
     report_type <> "MonthlyBrokerageData") ->
  Forall lacks_brokerage report_groups ->
  Forall lacks_brokerage (value (foldM scan_step file_paths report_groups w fs)).
Proof.
  revert report_groups fs.
  induction file_paths as [| f file_paths IH]; intros report_groups fs Hn Hg; [exact Hg |].
  cbn [foldM]. rewrite value_bind. apply IH.
  - intros p prefix t Hp. apply Hn. right. exact Hp.
  - apply scan_step_lacks; [| exact Hg].
    intros prefix t. apply Hn. left. reflexivity.
Qed.

Lemma pair_step_idle (group : string * list (string * string)) :
  lacks_brokerage group -> idle (fun tally => pair_step tally group).
Proof.
  intros Hg [processed n] w fs. destruct group as [dp paths].
  unfold lacks_brokerage in Hg. cbn [snd] in Hg. unfold pair_step. rewrite Hg.
  destruct (assoc String.eqb "MetricsPressRelease" paths); repeat split; reflexivity.
Qed.

Lemma foldM_idle {B} (f : Tally -> B -> IO Tally) (l : list B) :
  (forall b, In b l -> idle (fun tally => f tally b)) ->
  idle (fun tally => foldM f l tally).
Proof.
  induction l as [| b l IH]; intros Hf tally w fs; [repeat split; reflexivity |].
  cbn [foldM]. rewrite value_bind, files_bind, events_bind, forallb_app.
  destruct (Hf b (or_introl eq_refl) tally w fs) as (Hv & Hfs & He).
  rewrite Hv, Hfs, He.
  apply IH. intros b' Hb'. apply Hf. right. exact Hb'.
Qed.

Lemma directory_step_idle (directory : string * list string) :
  (forall p prefix report_type,
     In p (snd directory) ->
     ReportName.match_name (path_name p) = Some (prefix, report_type) ->
     report_type <> "MonthlyBrokerageData") ->
  idle (fun tally => directory_step tally directory).
Proof.
  intros Hn tally w fs. destruct directory as [root file_paths]. cbn [snd] in Hn.
  unfold directory_step. autorewrite with io.
  destruct (scan_events file_paths [] w fs) as [Hf He].
  pose proof (scan_lacks file_paths [] w fs Hn (List.Forall_nil _)) as Hg.
  rewrite Hf, !forallb_app, He. cbn [forallb is_log andb].
  apply (foldM_idle pair_step).
  intros g Hin. apply pair_step_idle.
  rewrite List.Forall_forall in Hg. exact (Hg g Hin).
Qed.

(** X16. The scan recognises file names in any letter case, but pairs
    reports under the exact keys "MetricsPressRelease" and
    "MonthlyBrokerageData": when no file name of the tree carries the
    brokerage type in exactly that spelling, nothing is processed. The
    result is (0, 0), no document is read or opened and no file written,
    the run being log lines only, the last two of which are the error and
    the naming advice. *)
Theorem reports_in_another_case_are_never_processed
  (tree : Listing) (w : World) (fs : Files) :
  (forall root file_paths p prefix report_type,
     In (root, file_paths) tree -> In p file_paths ->
     ReportName.match_name (path_name p) = Some (prefix, report_type) ->
     report_type <> "MonthlyBrokerageData") ->
  let run := find_and_process_all_reports tree w fs in
  value run = (0%nat, 0%nat) /\ files run = fs /\
  forallb is_log (events run) = true /\
  exists earlier,
    events run =
      (earlier ++
       [ Log ERROR "No complete report pairs found!";
         Log INFO "Ensure files are named: YYYYMMMonthlyBrokerageData.pdf and YYYYMMMetricsPressRelease.pdf" ])%list.
Proof.
  intros Hn run. subst run.
  assert (Hidle : idle (fun tally => foldM directory_step tree tally)).
  { apply foldM_idle. intros [root file_paths] Hin. apply directory_step_idle.
    cbn [snd]. intros p prefix t Hp. exact (Hn root file_paths p prefix t Hin Hp). }
  destruct (Hidle (∅, 0%nat) w fs) as (Hv & Hf & He).
  unfold find_and_process_all_reports.
  rewrite value_bind, files_bind, events_bind. autorewrite with io.
  rewrite Hv, Hf. autorewrite with io. rewrite size_empty. cbn [Nat.eqb].
  autorewrite with io. cbn [fst snd].
  split; [reflexivity |]. split; [reflexivity |]. split.
  - cbn [forallb is_log andb app]. rewrite forallb_app, He. reflexivity.
  - exists (Log INFO "Scanning for PDF report pairs..."
            :: events (foldM directory_step tree (∅, 0%nat) w fs)).
    cbn [app]. reflexivity.
Qed.

End BatchProperties.

(** *** The year that content inference returns *)

Lemma digit_value_range (a : ascii) :
  Py.is_digit a = true -> 0 <= Z.of_nat (Py.code a - 48) <= 9.
Proof.
  intros H. apply is_digit_cases in H. cbn [In] in H.
  repeat (destruct H as [<- | H]; [vm_compute; split; discriminate |]).
  destruct H.
Qed.

Lemma digits_value_range (s : string) (acc : Z) :
  Py.all_digits s = true -> 0 <= acc ->
  acc * 10 ^ Z.of_nat (String.length s) <= Py.digits_value acc s
    < (acc + 1) * 10 ^ Z.of_nat (String.length s).
Proof.
  revert acc. induction s as [| a s IH]; intros acc Hd Hacc.
  - cbn. lia.
  - cbn [Py.all_digits] in Hd. apply andb_true_iff in Hd as [Ha Hs].
    pose proof (digit_value_range a Ha) as Hr.
    cbn [Py.digits_value String.length].
    specialize (IH (10 * acc + Z.of_nat (Py.code a - 48)) Hs ltac:(lia)).
    rewrite Nat2Z.inj_succ, Z.pow_succ_r by lia.
    assert (Hp : 0 < 10 ^ Z.of_nat (String.length s)) by (apply Z.pow_pos_nonneg; lia).
    nia.
Qed.

Lemma int_body_digits (s : string) (prev : bool) (acc : Z) :
  Py.all_digits s = true -> (s <> "" \/ prev = true) ->
  Py.int_body prev acc s = Some (Py.digits_value acc s).
Proof.
  revert prev acc. induction s as [| a s IH]; intros prev acc Hd Hne.
  - destruct Hne as [Hne | ->]; [contradiction | reflexivity].
  - cbn [Py.all_digits] in Hd. apply andb_true_iff in Hd as [Ha Hs].
    cbn [Py.int_body Py.digits_value]. rewrite Ha. apply IH; [exact Hs | right; reflexivity].
Qed.

Lemma append_nil_r (s : string) : s ++ "" = s.
Proof.
  induction s as [| a s IH]; [reflexivity |]. rewrite append_cons, IH. reflexivity.
Qed.

Lemma digit_not_space (a : ascii) :
  Py.is_digit a = true -> negb (Py.is_space a) = true.
Proof.
  intros H. apply numeric_not_space. unfold numeric_char. rewrite H. reflexivity.
Qed.

Lemma int_of_digits (s : string) :
  Py.isdigit s = true -> Py.int s = Some (Py.digits_value 0 s).
Proof.
  intros H. unfold Py.isdigit in H. destruct s as [| a s]; [discriminate |].
  assert (Hstrip : Py.strip (String a s) = String a s).
  { rewrite <- (append_nil_r (String a s)) at 1. apply strip_app_spaces; [| reflexivity].
    rewrite all_digits_all_chars in H.
    apply (all_chars_weaken Py.is_digit); [apply digit_not_space | exact H]. }
  unfold Py.int. rewrite Hstrip.
  pose proof H as Hd. cbn [Py.all_digits] in Hd. apply andb_true_iff in Hd as [Ha _].
  assert (Hbody : Py.int_body false 0 (String a s) = Some (Py.digits_value 0 (String a s))).
  { apply int_body_digits; [exact H | left; discriminate]. }
  apply is_digit_cases in Ha. cbn [In] in Ha.
  repeat (destruct Ha as [<- | Ha]; [exact Hbody |]). destruct Ha.
Qed.

Lemma year_token_range (g : string) :
  is_year_token g = true -> 0 <= int_of_token g <= 9999.
Proof.
  unfold is_year_token, int_of_token. intros H. apply andb_true_iff in H as [Hd Hl].
  apply Nat.eqb_eq in Hl. rewrite (int_of_digits g Hd). cbn [default].
  assert (Ha : Py.all_digits g = true).
  { unfold Py.isdigit in Hd. destruct g; [discriminate | exact Hd]. }
  pose proof (digits_value_range g 0 Ha ltac:(lia)) as Hr. rewrite Hl in Hr.
  change (10 ^ Z.of_nat 4) with 10000 in Hr. unfold id. lia.
Qed.

Lemma date_of_match_year (n : nat) (c : Re.caps) (year : option Z) (y m : Z) :
  date_of_match n c year = inl (y, m) -> 0 <= y <= 9999.
Proof.
  unfold date_of_match. destruct n as [| [| [| n]]]; try discriminate.
  - destruct (is_year_token _); discriminate.
  - destruct (is_year_token (Re.group 1 c)) eqn:E1.
    + destruct (assoc _ _ _) as [month |]; [| discriminate].
      intros H. injection H as <- <-. exact (year_token_range _ E1).
    + destruct (is_year_token (Re.group 2 c)) eqn:E2; [| discriminate].
      destruct (assoc _ _ _) as [month |]; [| discriminate].
      intros H. injection H as <- <-. exact (year_token_range _ E2).
Qed.

Lemma scan_matches_year (n : nat) (ms : list Re.caps) (year : option Z) (y m : Z) :
  scan_matches n ms year = inl (y, m) -> 0 <= y <= 9999.
Proof.
  revert year. induction ms as [| c ms IH]; intros year; [discriminate |].
  cbn [scan_matches]. destruct (date_of_match n c year) as [[y' m'] | year'] eqn:E.
  - intros H. injection H as <- <-. exact (date_of_match_year _ _ _ _ _ E).
  - apply IH.
Qed.

Lemma scan_patterns_year (ps : list (nat * Re.regex)) (text : string) (year : option Z)
  (y m : Z) :
  scan_patterns ps text year = (Some y, Some m) -> 0 <= y <= 9999.
Proof.
  revert year. induction ps as [| [n r] ps IH]; intros year; [discriminate |].
  cbn [scan_patterns].
  destruct (scan_matches n (Re.finditer r text) year) as [[y' m'] | year'] eqn:E.
  - intros H. injection H as <- <-. exact (scan_matches_year _ _ _ _ _ E).
  - apply IH.
Qed.

Lemma lower_char_idem (a : ascii) : Py.lower_char (Py.lower_char a) = Py.lower_char a.
Proof. destruct a as [[] [] [] [] [] [] [] []]; reflexivity. Qed.

Lemma lower_idem (s : string) : Py.lower (Py.lower s) = Py.lower s.
Proof.
  induction s as [| a s IH]; [reflexivity |].
  cbn [Py.lower]. rewrite lower_char_idem, IH. reflexivity.
Qed.

(** X17. [extract_date_from_content] reads its text without regard to
    letter case, and a date it returns has a year written with four digits
    (0 to 9999, a year 0 counting as no year for the caller) next to a
    calendar month. *)
Theorem inferred_date_has_a_four_digit_year (text : string) (year month : Z) :
  extract_date_from_content text = (Some year, Some month) ->
  0 <= year <= 9999 /\ 1 <= month <= 12 /\
  extract_date_from_content (Py.lower text) = (Some year, Some month).
Proof.
  intros H. split; [exact (scan_patterns_year _ _ _ _ _ H) |]. split.
  - destruct (scan_patterns_shape DatePatterns.patterns (Py.lower text) None)
      as [E | (y & m & E & Hm)]; unfold extract_date_from_content in H; rewrite H in E.
    + discriminate E.
    + injection E as <- <-. exact Hm.
  - unfold extract_date_from_content in *. rewrite lower_idem. exact H.
Qed.




(* ===================================================================== *)
(** ** Concrete runs                                                     *)
(* ===================================================================== *)

Section ConcreteRuns.
Import Samples.

(** C1, counterexample. On a document without text, words or tables the
    table strategy, tried last, ends with "No tables found in PDF", yet
    the engine returns its own fixed error; and on a document whose table
    lacks the August column the table strategy returns the empty mapping,
    which is not an error, yet the engine does not accept it. *)
Lemma failed_cascade_does_not_return_last_strategy_result :
  _parse_using_table_extraction blank_doc "2025" "Aug"
    = Error "No tables found in PDF" /\
  value (parse_monthly_brokerage_data "blank.pdf" "2025" 8 world disk)
    = Error "All parsing strategies failed to extract sufficient data" /\
  _parse_using_table_extraction table_doc "2025" "Aug" = Data ∅ /\
  value (parse_monthly_brokerage_data "table.pdf" "2025" 8 world disk)
    = Error "All parsing strategies failed to extract sufficient data".
Proof. repeat split; vm_compute; reflexivity. Qed.

Lemma cascade_returns_first_sufficient_strategy_witness :
  let r1 := _parse_using_text_extraction brokerage_doc "2025" "Aug" in
  let r2 := _parse_using_coordinates brokerage_doc "2025" "Aug" in
  let r3 := _parse_using_table_extraction brokerage_doc "2025" "Aug" in
  let result := value (parse_monthly_brokerage_data brokerage_path "2025" 8 world disk) in
  (metrics_at_least 5 r1 -> result = r1) /\
  (~ metrics_at_least 5 r1 -> metrics_at_least 5 r2 -> result = r2) /\
  (~ metrics_at_least 5 r1 -> ~ metrics_at_least 5 r2 ->
   metrics_at_least 1 r3 -> result = r3) /\
  (~ metrics_at_least 5 r1 -> ~ metrics_at_least 5 r2 ->
   ~ metrics_at_least 1 r3 -> result = Error ALL_STRATEGIES_FAILED).
Proof.
  apply (cascade_returns_first_sufficient_strategy
           world disk brokerage_path "2025" "Aug" 8 2025 "BROKERAGE" brokerage_doc);
    [reflexivity | lia | reflexivity | vm_compute; reflexivity | reflexivity
    | simpl; lia].
Defined.

(** C3, counterexample. The document whose only content is a two-row
    table: the text and coordinate strategies return errors, the table
    strategy returns four metrics, fewer than 5, and yet the engine
    returns that mapping and not the all-strategies-failed error. *)
Lemma fewer_than_five_everywhere_yet_no_failure :
  let r1 := _parse_using_text_extraction table_doc "2025" "Feb" in
  let r2 := _parse_using_coordinates table_doc "2025" "Feb" in
  let r3 := _parse_using_table_extraction table_doc "2025" "Feb" in
  let result := value (parse_monthly_brokerage_data "table.pdf" "2025" 2 world disk) in
  has_error r1 = true /\ has_error r2 = true /\
  (has_error r3 = false /\ len r3 = 4%nat) /\
  result = r3 /\ result <> Error ALL_STRATEGIES_FAILED.
Proof.
  cbv zeta. repeat split; try (vm_compute; reflexivity).
  vm_compute. discriminate.
Qed.

Lemma all_strategies_failed_iff_witness :
  value (parse_monthly_brokerage_data "blank.pdf" "2025" 8 world disk)
    = Error ALL_STRATEGIES_FAILED
  <->
  ~ metrics_at_least 5 (_parse_using_text_extraction blank_doc "2025" "Aug") /\
  ~ metrics_at_least 5 (_parse_using_coordinates blank_doc "2025" "Aug") /\
  ~ metrics_at_least 1 (_parse_using_table_extraction blank_doc "2025" "Aug").
Proof.
  apply (all_strategies_failed_iff
           world disk "blank.pdf" "2025" "Aug" 8 2025 "BLANK" blank_doc);
    [reflexivity | lia | reflexivity | vm_compute; reflexivity | reflexivity
    | simpl; lia].
Defined.


Lemma out_of_range_period_rejected_witness :
  exists msg,
    parse_monthly_brokerage_data brokerage_path "2031" 8
      world disk = mkRun (Error msg) disk [] /\
    (msg = "Invalid target month number: " ++ Py.str_of_Z 8 \/
     msg = "Year must be between 2015 and 2030").
Proof.
  apply (out_of_range_period_rejected_before_any_io
           world disk brokerage_path "2031" 8).
  right; right. exists 2031. split; [reflexivity | lia].
Defined.

(** C2, counterexample. The sample brokerage document yields "Cash as % of
    Assets" (12.5) but no "Client Equity": the derived field is not
    computed, and the record that is written carries 12.5 in the cash
    column, not the empty string. *)
Lemma cash_field_kept_when_equity_is_absent :
  let brokerage :=
    match value (parse_monthly_brokerage_data brokerage_path "2025" 8 world disk) with
    | Data d => d
    | Error _ => ∅
    end in
  get_str "Client Equity" brokerage = "" /\
  value (add_cash_percentage (fst (map_fields brokerage ∅)) world disk) !! CASH
    = Some "12.5" /\
  exists rows,
    csv_artifacts (events (process_pdf_pair brokerage_path press_path (Some "202508")
                                            world disk))
      = [("IBKR_DATA_OUTPUT_202508.csv", rows)] /\
    nth 14 (nth 0 rows []) "" = CASH /\
    nth 14 (nth 2 rows []) "" = "12.5".
Proof.
  cbv zeta. split; [vm_compute; reflexivity |]. split; [vm_compute; reflexivity |].
  eexists. split; [vm_compute; reflexivity |]. split; reflexivity.
Qed.

Lemma cash_percentage_derived_or_kept_witness :
  let brokerage : gmap string string :=
    {[ "Client Credits" := "8.5"; "Client Equity" := "34.0" ]} in
  let zero_equity : gmap string string :=
    {[ "Client Credits" := "10"; "Client Equity" := "0" ]} in
  value (add_cash_percentage (fst (map_fields brokerage ∅)) world disk) !! CASH
    = Some "25.00000000000" /\
  value (add_cash_percentage (fst (map_fields zero_equity ∅)) world disk) !! CASH
    = Some "".
Proof.
  cbv zeta. split.
  - apply (proj1 (cash_percentage_derived_or_kept world disk
                    {[ "Client Credits" := "8.5"; "Client Equity" := "34.0" ]} ∅)
                 (ExactFloat.Fin 85 10) (ExactFloat.Fin 340 10));
      vm_compute; try reflexivity; discriminate.
  - etransitivity;
      [apply (proj2 (cash_percentage_derived_or_kept world disk
                       {[ "Client Credits" := "10"; "Client Equity" := "0" ]} ∅))
      | vm_compute; reflexivity].
    right; right; right; right. exists (ExactFloat.Fin 0 1).
    split; vm_compute; reflexivity.
Defined.

Lemma brokerage_error_is_fatal_press_error_is_not_witness :
  let rb := parse_monthly_brokerage_data brokerage_path "2025" 8 world disk in
  let rp := parse_press_release "blank.pdf" world (files rb) in
  let run := process_pdf_pair brokerage_path "blank.pdf" (Some "202508") world disk in
  (forall e, value rb = Error e ->
     value run = false /\ csv_artifacts (events run) = []) /\
  (forall d e, value rb = Data d -> value rp = Error e ->
     csv_error world (output_name (Some "202508")) = None ->
     exists final,
       value run = true /\
       csv_artifacts (events run) =
         [(output_name (Some "202508"), csv_rows final (period_string "2025" 8))] /\
       (forall col product metric,
          In (col, press_release product metric) Config.MAPPING_CONFIG ->
          final !! col = Some "") /\
       (forall col name,
          In (col, monthly_brokerage name) Config.MAPPING_CONFIG -> col <> CASH ->
          final !! col = Some (get_str name d))).
Proof.
  apply (brokerage_error_is_fatal_press_error_is_not
           world disk brokerage_path "blank.pdf" (Some "202508") "2025" 8).
  vm_compute. reflexivity.
Defined.

(** C6, counterexample. The record has 20 fields, not 19. *)
Lemma canonical_record_has_twenty_fields_not_nineteen :
  List.length Config.FINAL_CSV_COLUMNS = 20%nat /\
  List.length Config.FINAL_CSV_COLUMNS <> 19%nat.
Proof. split; [reflexivity | discriminate]. Qed.

(** C4, counterexample. The hint "202513" is malformed (there is no
    month 13), yet the resolver takes (2025, 13) from it: its only event is
    the log line, no document is opened and no content inference runs. *)
Lemma out_of_range_hint_is_used_without_inference :
  resolve_period brokerage_path press_path (Some "202513") world disk
    = mkRun (Some ("2025", 13)) disk [Log INFO "Using date from filename: 2025-13"] /\
  ~ (1 <= 13 <= 12).
Proof. split; [vm_compute; reflexivity | lia]. Qed.

Lemma hint_used_witness :
  exists month,
    Py.int (Py.drop 4 "202508") = Some month /\ 1 <= month <= 99 /\
    resolve_period brokerage_path press_path (Some "202508") world disk =
      mkRun (Some (Py.take 4 "202508", month)) disk
            [Log INFO ("Using date from filename: " ++
                       period_string (Py.take 4 "202508") month)].
Proof.
  apply (proj1 (hint_used_iff_six_digits_with_nonzero_month
                  world disk brokerage_path press_path (Some "202508")) "202508");
    [reflexivity | reflexivity | reflexivity | discriminate].
Defined.

(** C8, the code at the failing input. Content inference never returns a
    year without a month. On the sample brokerage document, whose title
    holds the year 2025 next to no month name and whose table has eight
    month columns, it returns nothing; the press release holding no date
    either, the period stays unresolved, although the month detection that
    the resolver keeps for this case finds month 8 in that document. *)
Theorem year_only_match_never_reaches_month_detection :
  (forall text,
     extract_date_from_content text = (None, None) \/
     exists y m, extract_date_from_content text = (Some y, Some m) /\ 1 <= m <= 12) /\
  extract_date_from_content brokerage_text = (None, None) /\
  detect_latest_month_from_data brokerage_text 2025 = Some 8 /\
  value (resolve_period brokerage_path "blank.pdf" None world disk) = None /\
  value (process_pdf_pair brokerage_path "blank.pdf" None world disk) = false.
Proof.
  split; [exact extract_date_never_year_only |].
  repeat split; vm_compute; reflexivity.
Qed.


End ConcreteRuns.

(* ===================================================================== *)
(** ** Concrete runs of the further properties                           *)
(* ===================================================================== *)

Section MoreConcreteRuns.
Import Samples.

(** X2 on the sample brokerage document, read for August 2025. *)
Lemma strategy_results_hold_known_numeric_metrics_witness :
  (size BatchSamples.august_metrics <= 14)%nat /\
  forall name v, BatchSamples.august_metrics !! name = Some v ->
    In name metric_source_names /\ v <> "" /\ all_chars numeric_char v = true.
Proof.
  apply (strategy_results_hold_known_numeric_metrics brokerage_doc "2025" "Aug").
  left. vm_compute. reflexivity.
Defined.

(** X3 on the text of the sample brokerage document, whose data lines hold
    eight months. *)
Lemma detected_month_is_august_or_later_witness :
  8 <= 8 <= 12 /\
  (exists line, In line (Py.split_on Py.LF brokerage_text) /\
                has_first_three line = true /\ Py.contains "Aug" line = true) /\
  forall year', detect_latest_month_from_data brokerage_text year' = Some 8.
Proof.
  apply (detected_month_is_august_or_later brokerage_text 2025 8).
  vm_compute. reflexivity.
Defined.

(** X4 on two lines that both name a metric already extracted. *)
Lemma text_strategy_never_overwrites_witness :
  fold_left (text_line_step ["Total Accounts 10 20"; "Total Accounts 30 40"] 1)
            [0%nat; 1%nat] {[ "Total Accounts" := "7" ]} !! "Total Accounts"
    = Some "7".
Proof.
  apply (text_strategy_never_overwrites
           ["Total Accounts 10 20"; "Total Accounts 30 40"] 1 [0%nat; 1%nat]
           {[ "Total Accounts" := "7" ]} "Total Accounts" "7").
  reflexivity.
Defined.

(** X5 on the wrapped sample document. *)
Lemma java_payload_is_the_embedded_pdf_witness :
  String.prefix JAVA_MAGIC BatchSamples.wrapped = true /\
  exists pdf_start pdf_end,
    Py.find "%PDF-" BatchSamples.wrapped = Some pdf_start /\
    Py.rfind "%%EOF" BatchSamples.wrapped = Some pdf_end /\
    ((pdf_start <= pdf_end)%nat ->
       String.prefix "%PDF-" "%PDF-BROKERAGE%%EOF" = true /\
       exists body, "%PDF-BROKERAGE%%EOF" = body ++ "%%EOF") /\
    ((pdf_end + 5 <= pdf_start)%nat -> "%PDF-BROKERAGE%%EOF" = "").
Proof.
  apply (java_payload_is_the_embedded_pdf BatchSamples.wrapped "%PDF-BROKERAGE%%EOF").
  vm_compute. reflexivity.
Defined.


(** X11 on the sample pair with the hint 202508. *)
Lemma resolved_period_witness :
  "2025" <> "" /\
  ((exists prefix,
      Some "202508" = Some prefix /\ String.length prefix = 6%nat /\
      Py.isdigit prefix = true /\ Py.drop 4 prefix <> "00" /\
      "2025" = Py.take 4 prefix /\
      Py.int (Py.drop 4 prefix) = Some 8 /\
      1 <= 8 <= 99) \/
   1 <= 8 <= 12).
Proof.
  apply (resolved_period_is_the_hint_or_a_calendar_month
           brokerage_path press_path (Some "202508") world disk "2025" 8).
  vm_compute. reflexivity.
Defined.

(** X12 on the document that states its period, under a hint whose month
    digits are 00. *)
Lemma brokerage_content_decides_the_period_witness :
  exists first,
    resolve_period "dated.pdf" press_path (Some "209900")
                   BatchSamples.world BatchSamples.disk =
      mkRun (Some (Py.str_of_Z 2025, 8)) BatchSamples.disk
        [ first;
          Log INFO "Attempting fallback date extraction from PDF content...";
          OpenPdf "dated.pdf";
          Log INFO ("Extracted year from Monthly Brokerage PDF: " ++ Py.str_of_Z 2025) ].
Proof.
  apply (brokerage_content_decides_the_period
           "dated.pdf" press_path (Some "209900") BatchSamples.world BatchSamples.disk
           "DATED" BatchSamples.dated_doc 2025 8).
  - vm_compute. reflexivity.
  - vm_compute. reflexivity.
  - reflexivity.
  - vm_compute. reflexivity.
  - discriminate.
Defined.

(** X13 on the sample press release, for Stocks. *)
Lemma narrative_values_are_numeric_witness :
  all_chars numeric_char
    (get_str "Average Commission" (product_entry "1200000" "0.85")) = true /\
  ((forall primary,
      assoc String.eqb "Stocks" Patterns.primary_patterns = Some primary ->
      Re.search primary press_text = None) ->
   all_chars numeric_char
     (get_str "Average Order Size" (product_entry "1200000" "0.85")) = true).
Proof.
  apply (narrative_values_are_numeric press_text world disk "Stocks"
           (product_entry "1200000" "0.85")).
  vm_compute. reflexivity.
Defined.

(** X15 on the output file of the scan of the sample tree. *)
Lemma batch_output_follows_the_file_names_witness :
  exists prefix,
    String.length prefix = 6%nat /\ Py.isdigit prefix = true /\
    "IBKR_DATA_OUTPUT_202508.csv" = "IBKR_DATA_OUTPUT_" ++ prefix ++ ".csv" /\
    exists final year month,
      BatchSamples.first_rows = csv_rows final (period_string year month) /\
      (Py.drop 4 prefix <> "00" ->
       year = Py.take 4 prefix /\ Py.int (Py.drop 4 prefix) = Some month).
Proof.
  apply (batch_output_follows_the_file_names BatchSamples.tree world disk
           "IBKR_DATA_OUTPUT_202508.csv" BatchSamples.first_rows).
  vm_compute. left. reflexivity.
Defined.

(** X16 on a directory whose brokerage report is named in lower case. *)
Lemma reports_in_another_case_are_never_processed_witness :
  let run := find_and_process_all_reports BatchSamples.lower_case_tree world disk in
  value run = (0%nat, 0%nat) /\ files run = disk /\
  forallb is_log (events run) = true /\
  exists earlier,
    events run =
      (earlier ++
       [ Log ERROR "No complete report pairs found!";
         Log INFO "Ensure files are named: YYYYMMMonthlyBrokerageData.pdf and YYYYMMMetricsPressRelease.pdf" ])%list.
Proof.
  apply (reports_in_another_case_are_never_processed
           BatchSamples.lower_case_tree world disk).
  intros root file_paths p prefix report_type Htree Hp Hm.
  simpl in Htree. destruct Htree as [E | []]. injection E as <- <-.
  simpl in Hp.
  destruct Hp as [<- | [<- | [<- | []]]]; vm_compute in Hm;
    first [discriminate Hm | injection Hm as <- <-; discriminate].
Defined.

(** X17 on the text that states August 2025. *)
Lemma inferred_date_has_a_four_digit_year_witness :
  0 <= 2025 <= 9999 /\ 1 <= 8 <= 12 /\
  extract_date_from_content (Py.lower BatchSamples.dated_text) = (Some 2025, Some 8).
Proof.
  apply (inferred_date_has_a_four_digit_year BatchSamples.dated_text 2025 8).
  vm_compute. reflexivity.
Defined.

End MoreConcreteRuns.
